(** * Ask Your Database: the upload, describe and query steps of
      [projects/_003_ask_your_spreadsheets/index.py]

    The page is glue between four collaborators: the SQLite connection
    (through [sqlite3] and pandas), the Mixpanel client, the SQL generator of
    [gpt_api_calls] and the Streamlit widgets.  The Python control flow is
    embedded as it is written, in a state-and-exception monad over a [world]
    made of the cached connection, the session state and the trace of the
    calls made to the collaborators.  What the collaborators answer is taken
    as a parameter of the development wherever the page cannot know it. *)

From Stdlib Require Import List String Ascii Bool Arith Lia.
Import ListNotations.
Open Scope list_scope.
Open Scope string_scope.

Set Implicit Arguments.

(** ** Python strings *)

Module PyStr.

(** The line feed, written ["\n"] in the source. *)
Definition nl : string := String (ascii_of_nat 10) EmptyString.

Definition space : ascii := ascii_of_nat 32.
Definition underscore : ascii := ascii_of_nat 95.
Definition dot : ascii := ascii_of_nat 46.
Definition comma : ascii := ascii_of_nat 44.
Definition dquote : ascii := ascii_of_nat 34.

Fixpoint map_chars (f : ascii -> ascii) (s : string) : string :=
  match s with
  | EmptyString => EmptyString
  | String c s' => String (f c) (map_chars f s')
  end.

(** [s.replace(a, b)] for one-character [a] and [b]. *)
Definition replace (a b : ascii) (s : string) : string :=
  map_chars (fun c => if Ascii.eqb c a then b else c) s.

(** [s.lower()] on the ASCII letters. *)
Definition lower_char (c : ascii) : ascii :=
  let n := nat_of_ascii c in
  if Nat.leb 65 n && Nat.leb n 90 then ascii_of_nat (n + 32) else c.

Definition lower (s : string) : string := map_chars lower_char s.

(** [needle in hay]. *)
Fixpoint contains (needle hay : string) : bool :=
  if String.prefix needle hay then true
  else match hay with
       | EmptyString => false
       | String _ hay' => contains needle hay'
       end.

Fixpoint mem (c : ascii) (chars : string) : bool :=
  match chars with
  | EmptyString => false
  | String d chars' => Ascii.eqb c d || mem c chars'
  end.

(** [s.rstrip(chars)]: every trailing character that belongs to [chars] is
    removed, not only one occurrence of the text [chars]. *)
Fixpoint rstrip (chars s : string) : string :=
  match s with
  | EmptyString => EmptyString
  | String c s' =>
      match rstrip chars s' with
      | EmptyString => if mem c chars then EmptyString else String c EmptyString
      | r => String c r
      end
  end.

(** [s.split(sep)[0]]: the text before the first [sep], all of [s] when
    there is none. *)
Fixpoint before (sep : ascii) (s : string) : string :=
  match s with
  | EmptyString => EmptyString
  | String c s' => if Ascii.eqb c sep then EmptyString else String c (before sep s')
  end.

(** [sep.join(parts)]. *)
Fixpoint join (sep : string) (parts : list string) : string :=
  match parts with
  | [] => EmptyString
  | [p] => p
  | p :: rest => p ++ sep ++ join sep rest
  end.

(** Truth value of a string: the empty one is falsy. *)
Definition truthy (s : string) : bool :=
  match s with EmptyString => false | String _ _ => true end.

(** [t] occurs somewhere in [s]. *)
Definition occurs (t s : string) : Prop := exists pre post, s = pre ++ t ++ post.

End PyStr.

(** ** Exceptions and results *)

(** The instances of [Exception] the page can meet.  [OtherException] stands
    for any further subclass a collaborator raises. *)
Inductive exn : Type :=
| OperationalError (msg : string)
| ValueError (msg : string)
| KeyError (key : string)
| UnboundLocalError (name : string)
| OtherException (name : string).

Inductive result (A : Type) : Type :=
| Ok (a : A)
| Raise (e : exn).
Arguments Ok {A} a.
Arguments Raise {A} e.


(** ** Tables and frames *)

(** A column of a SQLite table as [PRAGMA table_info] reports it: the page
    reads fields 1 (name) and 2 (declared type) of each row. *)
Record column : Type := { col_name : string; col_type : string }.

(** What pandas infers for a frame column when it writes it, and the SQLite
    type it declares for it ([_SQL_TYPES] of [pandas.io.sql]). *)
Inductive kind : Type :=
| KString | KFloating | KInteger | KDatetime | KDate | KTime | KBoolean.

Definition sql_type_name (k : kind) : string :=
  match k with
  | KString => "TEXT"
  | KFloating => "REAL"
  | KInteger => "INTEGER"
  | KDatetime => "TIMESTAMP"
  | KDate => "DATE"
  | KTime => "TIME"
  | KBoolean => "INTEGER"
  end.

(** Values sent to Mixpanel as event properties. *)
Inductive prop_value : Type :=
| PBool (b : bool)
| PStr (s : string)
| PInt (n : nat).

(** An uploaded file: its name and its bytes. *)
Record uploaded_file : Type := { file_name : string; file_body : string }.

(** ** The world of one session *)

Section Data.

(** Cell values as [sqlite3] hands them to Python. *)
Variable value : Type.

(** A pandas frame: named columns with the kind inferred for each, and rows. *)
Record DataFrame : Type := {
  df_columns : list (string * kind);
  df_rows : list (list value) }.

(** [df.empty]: some axis has length zero. *)
Definition df_empty (df : DataFrame) : bool :=
  match df_columns df, df_rows df with
  | [], _ => true
  | _, [] => true
  | _, _ => false
  end.

Record table : Type := {
  tbl_columns : list column;
  tbl_rows : list (list value) }.

(** The in-memory database behind the cached connection: its tables in the
    order of [sqlite_master]. *)
Definition store : Type := list (string * table).

(** [st.session_state], with the keys the page reads and writes; [None] is
    an absent key.  ['conn'] holds a reference to the one cached connection,
    so only its presence is recorded. *)
Record session_state : Type := {
  ss_session_id : option string;
  ss_api_key : option string;
  ss_conn : bool;
  ss_dataframes : option (list (string * DataFrame));
  ss_step : option nat;
  ss_upload_completed : option bool }.

(** Calls made to the collaborators, in order. *)
Inductive event : Type :=
| StTitle (body : string)
| StFileUploader (label : string)
| StTextArea (label : string)
| StButton (label : string)
| StError (body : string)
| StWarning (body : string)
| StInfo (body : string)
| StWrite (body : string)
| StCode (body language : string)
| StDataframe (df : DataFrame)
| CursorExecute (sql : string)
| ConnCommit
| ReadCsv (name : string)
| ToSql (table_name : string)
| ReadSqlQuery (sql : string)
| GenerateSql (question schemas : string)
| MpTrack (distinct_id event_name : string) (props : list (string * prop_value)).

Record world : Type := {
  conn : store;
  session : session_state;
  trace : list event }.

(** ** The monad of the page: state that survives an exception *)

Definition M (A : Type) : Type := world -> world * result A.

Definition ret {A} (a : A) : M A := fun w => (w, Ok a).

Definition bind {A B} (m : M A) (k : A -> M B) : M B :=
  fun w =>
    match m w with
    | (w', Ok a) => k a w'
    | (w', Raise e) => (w', Raise e)
    end.

Definition raise {A} (e : exn) : M A := fun w => (w, Raise e).

Definition emit (e : event) : M unit :=
  fun w => ({| conn := conn w; session := session w; trace := (trace w ++ [e])%list |}, Ok tt).

Definition get_conn : M store := fun w => (w, Ok (conn w)).

Definition put_conn (s : store) : M unit :=
  fun w => ({| conn := s; session := session w; trace := trace w |}, Ok tt).

Definition get_session : M session_state := fun w => (w, Ok (session w)).

Definition put_session (s : session_state) : M unit :=
  fun w => ({| conn := conn w; session := s; trace := trace w |}, Ok tt).

End Data.

Arguments StTitle {value}.
Arguments StFileUploader {value}.
Arguments StTextArea {value}.
Arguments StButton {value}.
Arguments StError {value}.
Arguments StWarning {value}.
Arguments StInfo {value}.
Arguments StWrite {value}.
Arguments StCode {value}.
Arguments CursorExecute {value}.
Arguments ConnCommit {value}.
Arguments ReadCsv {value}.
Arguments ToSql {value}.
Arguments ReadSqlQuery {value}.
Arguments GenerateSql {value}.
Arguments MpTrack {value}.
Arguments get_conn {value}.
Arguments get_session {value}.
Arguments ret {value A}.
Arguments raise {value A}.

Declare Scope page_scope.
Notation "x <- m ;; k" := (bind m (fun x => k))
  (at level 61, m at next level, right associativity) : page_scope.
Notation "m ;; k" := (bind m (fun _ => k))
  (at level 61, right associativity) : page_scope.
Open Scope page_scope.

(** ** The collaborators *)

(** What the page calls and cannot see into. *)
Class Collaborators : Type := {
  value : Type;
  (** Python's [repr] of a cell value. *)
  repr : value -> string;
  (** How SQLite reads a table name that the page splices into a statement
      without quoting it ([DROP TABLE IF EXISTS {name}], [SELECT * FROM {name}
      LIMIT 1;]) and between single quotes ([PRAGMA table_info('{name}')]):
      the table the statement then refers to, or the exception [execute]
      raises when SQLite rejects the statement. *)
  unquoted : string -> result string;
  quoted : string -> result string;
  (** The exception, if any, that pandas raises while it writes the
      [CREATE TABLE] statement for a table name and the columns of a frame,
      before it looks at the database: an empty name, a name that holds a
      NUL character. *)
  setup_error : string -> list column -> option exn;
  (** The exception, if any, with which SQLite rejects the [CREATE TABLE]
      that [to_sql] issues, for a reason that lies in the statement itself:
      a name kept for SQLite's own tables, two columns of one name.  The
      one reason that lies in the database, a table of that name being
      there already, is in [to_sql]. *)
  create_table_error : string -> list column -> option exn;
  (** The exception, if any, with which the [INSERT] of the rows of a frame
      fails once its table is created: a value that SQLite does not take,
      as an integer beyond 64 bits. *)
  insert_error : string -> DataFrame value -> option exn;
  (** [pd.read_csv(file)]. *)
  pd_read_csv : uploaded_file -> result (DataFrame value);
  (** [pd.read_sql_query(sql, conn)]: the statement may change the database. *)
  pd_read_sql_query : string -> store value -> store value * result (DataFrame value);
  (** [mp.track(distinct_id, event_name, properties)]. *)
  mp_track : string -> string -> list (string * prop_value) -> result unit;
  (** [generate_sql_statement(question, table_schemas)] of [gpt_api_calls]:
      a statement, [None], or an exception. *)
  generate_sql_statement : string -> string -> result (option string) }.

Section Page.

Context {C : Collaborators}.

Local Abbreviation DataFrame := (DataFrame value).
Local Abbreviation table := (table value).
Local Abbreviation store := (store value).
Local Abbreviation session_state := (session_state value).
Local Abbreviation world := (world value).
Local Abbreviation M := (M value).

(** [for x in xs: body(x)]. *)
Fixpoint for_each {A} (xs : list A) (body : A -> M unit) : M unit :=
  match xs with
  | [] => ret tt
  | x :: rest => body x ;; for_each rest body
  end.

(** [for x in xs: acc = body(acc, x)]. *)
Fixpoint for_fold {A B} (xs : list A) (acc : B) (body : B -> A -> M B) : M B :=
  match xs with
  | [] => ret acc
  | x :: rest => acc' <- body acc x ;; for_fold rest acc' body
  end.

(** ** The connection *)

Definition lookup_table (name : string) (s : store) : option table :=
  match find (fun p => String.eqb (fst p) name) s with
  | Some p => Some (snd p)
  | None => None
  end.

Definition has_table (name : string) (s : store) : bool :=
  existsb (fun p => String.eqb (fst p) name) s.

Definition remove_table (name : string) (s : store) : store :=
  filter (fun p => negb (String.eqb (fst p) name)) s.

(** [cursor.execute("SELECT name FROM sqlite_master WHERE type='table';")]
    followed by [cursor.fetchall()]. *)
Definition select_table_names : M (list string) :=
  emit (CursorExecute "SELECT name FROM sqlite_master WHERE type='table';") ;;
  s <- get_conn ;;
  ret (map fst s).

(** [cursor.execute(f"DROP TABLE IF EXISTS {name_text}")]. *)
Definition drop_table_if_exists (name_text : string) : M unit :=
  emit (CursorExecute ("DROP TABLE IF EXISTS " ++ name_text)) ;;
  match unquoted name_text with
  | Raise e => raise e
  | Ok name => s <- get_conn ;; put_conn (remove_table name s)
  end.

(** [cursor.execute(f"PRAGMA table_info('{name_text}')")] followed by
    [cursor.fetchall()]; no row when there is no such table. *)
Definition pragma_table_info (name_text : string) : M (list column) :=
  emit (CursorExecute ("PRAGMA table_info('" ++ name_text ++ "')")) ;;
  match quoted name_text with
  | Raise e => raise e
  | Ok name =>
      s <- get_conn ;;
      ret (match lookup_table name s with
           | Some t => tbl_columns t
           | None => []
           end)
  end.

(** [cursor.execute(f"SELECT * FROM {name_text} LIMIT 1;")] followed by
    [cursor.fetchone()]. *)
Definition select_first_row (name_text : string) : M (option (list value)) :=
  emit (CursorExecute ("SELECT * FROM " ++ name_text ++ " LIMIT 1;")) ;;
  match unquoted name_text with
  | Raise e => raise e
  | Ok name =>
      s <- get_conn ;;
      match lookup_table name s with
      | Some t => ret (hd_error (tbl_rows t))
      | None => raise (OperationalError ("no such table: " ++ name))
      end
  end.

Definition table_of_frame (df : DataFrame) : table :=
  {| tbl_columns :=
       map (fun c => {| col_name := fst c; col_type := sql_type_name (snd c) |})
           (df_columns df);
     tbl_rows := df_rows df |}.

(** SQLite compares the names of tables without regard to the case of the
    ASCII letters. *)
Definition sqlite_key (name : string) : string := PyStr.map_chars PyStr.lower_char name.

(** The database holds a table that SQLite takes for [name]. *)
Definition name_taken (name : string) (s : store) : bool :=
  existsb (fun p => String.eqb (sqlite_key (fst p)) (sqlite_key name)) s.

(** The table of a frame once [CREATE TABLE] has run and before any row
    is inserted. *)
Definition created_table (df : DataFrame) : table :=
  {| tbl_columns := tbl_columns (table_of_frame df); tbl_rows := [] |}.

(** [df.to_sql(name, conn, index=False)].  pandas first writes the
    [CREATE TABLE] statement, which checks the names.  [if_exists] keeps its
    default, ['fail']: pandas looks the name up in [sqlite_master] with
    [name=?], which compares case by case, and an existing table of that
    very name is a [ValueError].  Then [CREATE TABLE] runs in a transaction
    of its own, and SQLite rejects it when a table of that name, up to case,
    is there.  The rows are inserted in a second transaction: when it fails
    it is rolled back and the table stays, without rows. *)
Definition to_sql (df : DataFrame) (name : string) : M unit :=
  emit (ToSql name) ;;
  match setup_error name (tbl_columns (table_of_frame df)) with
  | Some e => raise e
  | None =>
      s <- get_conn ;;
      if has_table name s
      then raise (ValueError ("Table '" ++ name ++ "' already exists."))
      else if name_taken name s
      then raise (OperationalError
                    ("table " ++ String PyStr.dquote name
                       ++ String PyStr.dquote " already exists"))
      else match create_table_error name (tbl_columns (table_of_frame df)) with
           | Some e => raise e
           | None =>
               put_conn (s ++ [(name, created_table df)])%list ;;
               match insert_error name df with
               | Some e => raise e
               | None => put_conn (s ++ [(name, table_of_frame df)])%list
               end
           end
  end.

Definition read_csv (file : uploaded_file) : M DataFrame :=
  emit (ReadCsv (file_name file)) ;;
  fun w => (w, pd_read_csv file).

Definition read_sql_query (sql : string) : M DataFrame :=
  fun w =>
    let (s', r) := pd_read_sql_query sql (conn w) in
    ({| conn := s'; session := session w;
        trace := (trace w ++ [ReadSqlQuery sql])%list |}, r).

(** [mp.track(st.session_state['session_id'], event_name, props)]. *)
Definition track (event_name : string) (props : list (string * prop_value)) : M unit :=
  ss <- get_session ;;
  match ss_session_id ss with
  | None => raise (KeyError "session_id")
  | Some session_id =>
      emit (MpTrack session_id event_name props) ;;
      fun w => (w, mp_track session_id event_name props)
  end.

(** ** drop_all_tables *)

Definition drop_all_tables : M unit :=
  tables <- select_table_names ;;
  for_each tables (fun table_name => drop_table_if_exists table_name) ;;
  emit ConnCommit.

(** ** get_table_schemas_with_data *)

(** [str(t)] for a tuple [t] of cell values. *)
Definition str_tuple (t : list value) : string :=
  match t with
  | [v] => "(" ++ repr v ++ ",)"
  | _ => "(" ++ PyStr.join ", " (map repr t) ++ ")"
  end.

(** [f"{first_row_data}"]: [fetchone] gives a tuple or [None]. *)
Definition str_first_row (first_row_data : option (list value)) : string :=
  match first_row_data with
  | None => "None"
  | Some t => str_tuple t
  end.

Definition is_text_type (column_type : string) : bool :=
  PyStr.contains "text" (PyStr.lower column_type).

Definition column_line (column : column) : string :=
  "    " ++ PyStr.replace PyStr.space PyStr.underscore (col_name column)
         ++ " " ++ col_type column ++ "," ++ PyStr.nl.

(** The inner loop, lines 64 to 69. *)
Fixpoint add_columns (table_schemas : string) (columns : list column) : string :=
  match columns with
  | [] => table_schemas
  | column :: rest =>
      if negb (is_text_type (col_type column))
      then add_columns (table_schemas ++ column_line column) rest
      else add_columns table_schemas rest
  end.

(** Lines 59 and 64 to 72, once both queries have answered. *)
Definition table_block (table_name : string) (columns : list column)
    (first_row_data : option (list value)) : string :=
  let table_schemas := "CREATE TABLE " ++ table_name ++ " (" ++ PyStr.nl in
  let table_schemas := add_columns table_schemas columns in
  let table_schemas :=
    PyStr.rstrip ("," ++ PyStr.nl) table_schemas ++ PyStr.nl ++ ");" ++ PyStr.nl ++ PyStr.nl in
  table_schemas ++ "First Row Data: " ++ str_first_row first_row_data ++ PyStr.nl ++ PyStr.nl.

Definition get_table_schemas_with_data : M string :=
  table_names <- select_table_names ;;
  for_fold table_names "" (fun schemas_with_data table_name =>
    columns <- pragma_table_info table_name ;;
    first_row_data <- select_first_row table_name ;;
    ret (schemas_with_data ++ table_block table_name columns first_row_data)).

(** ** execute_sql_statement *)

(** The properties of the "Run SQL Query" event, lines 86 to 89. *)
Definition run_query_properties (rows_returned : bool) : list (string * prop_value) :=
  [("Rows Returned", PBool rows_returned); ("Page Name", PStr "Ask Your Database")].

Definition execute_sql_statement (sql_statement : string) : M (option DataFrame) :=
  fun w =>
    let rows_returned := false in
    (* try ... except Exception: pass; [result] stays unbound on an exception *)
    let '(w1, (result, rows_returned)) :=
      match read_sql_query sql_statement w with
      | (w1, Ok result) =>
          (w1, (Some result, if negb (df_empty result) then true else rows_returned))
      | (w1, Raise _) => (w1, (None, rows_returned))
      end in
    (* finally *)
    match track "Run SQL Query" (run_query_properties rows_returned) w1 with
    | (w2, Raise e) => (w2, Raise e)
    | (w2, Ok _) =>
        (* return result if rows_returned else None *)
        if rows_returned
        then match result with
             | Some df => (w2, Ok (Some df))
             | None => (w2, Raise (UnboundLocalError "result"))
             end
        else (w2, Ok None)
    end.

(** ** step_1 *)

(** [d[k] = v] on a dict, which keeps insertion order. *)
Fixpoint dict_set {V} (k : string) (v : V) (d : list (string * V)) : list (string * V) :=
  match d with
  | [] => [(k, v)]
  | (k', v') :: rest =>
      if String.eqb k' k then (k, v) :: rest else (k', v') :: dict_set k v rest
  end.

(** [df.columns = [col.replace(' ', '_') for col in df.columns]]. *)
Definition rename_columns (df : DataFrame) : DataFrame :=
  {| df_columns :=
       map (fun c => (PyStr.replace PyStr.space PyStr.underscore (fst c), snd c))
           (df_columns df);
     df_rows := df_rows df |}.

(** [file.name.split('.')[0]]. *)
Definition table_name_of (file : uploaded_file) : string :=
  PyStr.before PyStr.dot (file_name file).

(** The body of the loop over the uploaded files, lines 107 to 111. *)
Definition load_file (dataframes : list (string * DataFrame)) (file : uploaded_file)
    : M (list (string * DataFrame)) :=
  df <- read_csv file ;;
  let df := rename_columns df in
  let table_name := table_name_of file in
  let dataframes := dict_set (file_name file) df dataframes in
  to_sql df table_name ;;
  ret dataframes.

Definition set_upload_completed (b : bool) (ss : session_state) : session_state :=
  {| ss_session_id := ss_session_id ss; ss_api_key := ss_api_key ss;
     ss_conn := ss_conn ss; ss_dataframes := ss_dataframes ss;
     ss_step := ss_step ss; ss_upload_completed := Some b |}.

Definition set_step (n : nat) (ss : session_state) : session_state :=
  {| ss_session_id := ss_session_id ss; ss_api_key := ss_api_key ss;
     ss_conn := ss_conn ss; ss_dataframes := ss_dataframes ss;
     ss_step := Some n; ss_upload_completed := ss_upload_completed ss |}.

Definition set_uploaded (dataframes : list (string * DataFrame)) (ss : session_state)
    : session_state :=
  {| ss_session_id := ss_session_id ss; ss_api_key := ss_api_key ss;
     ss_conn := true; ss_dataframes := Some dataframes;
     ss_step := ss_step ss; ss_upload_completed := ss_upload_completed ss |}.

(** Lines 102 to 115: what [step_1] does with a non-empty upload. *)
Definition load_batch (uploaded_files : list uploaded_file) : M unit :=
  drop_all_tables ;;
  dataframes <- for_fold uploaded_files [] load_file ;;
  ss <- get_session ;;
  put_session (set_upload_completed true (set_uploaded dataframes ss)).

(** Lines 117 to 126: what [step_1] does after the upload, [finished] being
    what the button returns on this run of the script. *)
Definition finish_upload (finished : bool) : M unit :=
  emit (StButton "Finished Uploading Data") ;;
  ss <- get_session ;;
  if finished || match ss_upload_completed ss with Some b => b | None => false end
  then match ss_dataframes ss with
       | Some ((_ :: _) as dataframes) =>
           track "Upload CSV files"
                 [("Number of CSV files uploaded", PInt (List.length dataframes));
                  ("Page Name", PStr "Ask Your Database")] ;;
           ss <- get_session ;;
           put_session (set_upload_completed false (set_step 2 ss))
       | _ => emit (StWarning "Please upload at least one CSV file to proceed.")
       end
  else ret tt.

(** [uploaded_files] is what the uploader widget returns on this run. *)
Definition step_1 (uploaded_files : list uploaded_file) (finished : bool) : M unit :=
  emit (StTitle "Step 1/2: Upload CSV Files") ;;
  emit (StFileUploader "Upload CSV Files") ;;
  ss <- get_session ;;
  match ss_upload_completed ss with
  | None => put_session (set_upload_completed false ss)
  | Some _ => ret tt
  end ;;
  match uploaded_files with
  | [] => ret tt
  | _ :: _ => load_batch uploaded_files
  end ;;
  finish_upload finished.

(** ** step_2 *)

Definition missing_key_message : string :=
  "🔐  Please enter an OpenAI API key in the sidebar to proceed.".

Definition no_result_message : string := "No results or unable to execute the query.".

Definition not_generated_message : string := "Failed to generate SQL statement.".

(** [st.session_state.get('api_key', '')]. *)
Definition get_api_key (ss : session_state) : string :=
  match ss_api_key ss with
  | Some k => k
  | None => ""
  end.

(** Truth value of what the generator returned. *)
Definition sql_truthy (sql_statement : option string) : bool :=
  match sql_statement with
  | Some s => PyStr.truthy s
  | None => false
  end.

(** [question] is what the text area holds and [ask] what the button returns
    on this run of the script. *)
Definition step_2 (question : string) (ask : bool) : M unit :=
  emit (StTitle "Step 2/2: Ask a Question") ;;
  emit (StTextArea "Question:") ;;
  emit (StButton "Ask Question") ;;
  if ask then
    ss <- get_session ;;
    let api_key := get_api_key ss in
    if negb (PyStr.truthy api_key)
    then emit (StError missing_key_message)
    else
      (* conn = st.session_state['conn'] *)
      (if ss_conn ss then ret tt else raise (KeyError "conn")) ;;
      table_schemas <- get_table_schemas_with_data ;;
      sql_statement <-
        (emit (GenerateSql question table_schemas) ;;
         fun w => (w, generate_sql_statement question table_schemas)) ;;
      if sql_truthy sql_statement
      then
        let sql_text := match sql_statement with Some s => s | None => "" end in
        emit (StWrite "Generated SQL Query:") ;;
        emit (StCode sql_text "sql") ;;
        result_df <- execute_sql_statement sql_text ;;
        match result_df with
        | Some df =>
            if negb (df_empty df)
            then emit (StWrite "Results:") ;; emit (StDataframe df)
            else emit (StInfo no_result_message)
        | None => emit (StInfo no_result_message)
        end
      else emit (StWarning not_generated_message)
  else ret tt.

(** ** Reading the trace *)

Definition add_events (w : world) (evs : list (event value)) : world :=
  {| conn := conn w; session := session w; trace := (trace w ++ evs)%list |}.

(** A call to the SQL generator. *)
Definition is_generate (e : event value) : bool :=
  match e with
  | GenerateSql _ _ => true
  | _ => false
  end.

(** A call that reaches the database. *)
Definition is_sql (e : event value) : bool :=
  match e with
  | CursorExecute _ | ConnCommit | ToSql _ | ReadSqlQuery _ => true
  | _ => false
  end.

(** A statement run through the cursor of the connection. *)
Definition is_cursor (e : event value) : bool :=
  match e with
  | CursorExecute _ => true
  | _ => false
  end.

(** The two calls [execute_sql_statement] makes. *)
Definition is_executor (e : event value) : bool :=
  match e with
  | ReadSqlQuery _ => true
  | MpTrack _ event_name _ => String.eqb event_name "Run SQL Query"
  | _ => false
  end.

(** The events added to the trace between two worlds of one run. *)
Definition events_since (w w' : world) : list (event value) :=
  skipn (List.length (trace w)) (trace w').

(** ** The summary, table by table *)

(** The columns that get a line in the structural block. *)
Definition non_text_columns (columns : list column) : list column :=
  filter (fun column => negb (is_text_type (col_type column))) columns.

Definition lines_of (columns : list column) : string :=
  fold_right (fun column text => column_line column ++ text) "" columns.

(** The column lines once [rstrip] has run over them: every line but the
    last is whole, the last one ends where its type does. *)
Fixpoint trimmed_lines (columns : list column) : string :=
  match columns with
  | [] => ""
  | [column] =>
      "    " ++ PyStr.replace PyStr.space PyStr.underscore (col_name column)
             ++ " " ++ PyStr.rstrip ("," ++ PyStr.nl) (col_type column)
  | column :: rest => column_line column ++ trimmed_lines rest
  end.

(** The structural block of a table with the given listed columns. *)
Definition structural_block (table_name : string) (listed : list column) : string :=
  "CREATE TABLE " ++ table_name ++ " ("
    ++ match listed with
       | [] => ""
       | _ :: _ => PyStr.nl ++ trimmed_lines listed
       end
    ++ PyStr.nl ++ ");" ++ PyStr.nl ++ PyStr.nl.

Definition first_row_line (first_row_data : option (list value)) : string :=
  "First Row Data: " ++ str_first_row first_row_data ++ PyStr.nl ++ PyStr.nl.

(** The text the summary holds for one table of the database. *)
Definition block_of (entry : string * table) : string :=
  table_block (fst entry) (tbl_columns (snd entry)) (hd_error (tbl_rows (snd entry))).

Definition summary_of (s : store) : string :=
  fold_right (fun entry text => block_of entry ++ text) "" s.

(** SQLite reads the name as itself, spliced bare or between quotes. *)
Definition reads_back (name : string) : Prop :=
  unquoted name = Ok name /\ quoted name = Ok name.

(** A database whose table names are pairwise distinct and read back. *)
Definition names_ok (s : store) : Prop :=
  NoDup (map fst s) /\ Forall reads_back (map fst s).

(** ** The tables of a batch *)

(** [entry] is the table that loading [file] creates. *)
Definition loads_as (file : uploaded_file) (entry : string * table) : Prop :=
  exists df, pd_read_csv file = Ok df
             /\ entry = (table_name_of file, table_of_frame (rename_columns df)).

(** The file parses, pandas accepts its names, and SQLite accepts the
    table made from it and its rows. *)
Definition loadable (file : uploaded_file) : Prop :=
  exists df, pd_read_csv file = Ok df
             /\ setup_error (table_name_of file)
                  (tbl_columns (table_of_frame (rename_columns df))) = None
             /\ create_table_error (table_name_of file)
                  (tbl_columns (table_of_frame (rename_columns df))) = None
             /\ insert_error (table_name_of file) (rename_columns df) = None.


(** The name under which SQLite knows the table of a file. *)
Definition table_key (file : uploaded_file) : string :=
  sqlite_key (table_name_of file).

(** ** The words of the claims on names *)

(** [name] is [whole] truncated at its first dot: it holds no dot, and
    [whole] is [name] followed by nothing or by a dot and the rest. *)
Definition truncated_at_first_dot (whole name : string) : Prop :=
  (forall a b, name <> a ++ String "."%char b)
  /\ exists rest,
       whole = name ++ rest
       /\ (rest = "" \/ exists rest', rest = String "."%char rest').

(** [new] is [old] with every space replaced by an underscore, character
    by character. *)
Definition every_space_replaced (old new : string) : Prop :=
  String.length new = String.length old
  /\ forall i,
       String.get i new =
       match String.get i old with
       | Some c => Some (if Ascii.eqb c " "%char then "_"%char else c)
       | None => None
       end.

(** Every table name of the database reads back when it is spliced bare
    into a statement. *)
Definition droppable (s : store) : Prop :=
  Forall (fun name => unquoted name = Ok name) (map fst s).

(** ** Frame conditions *)

(** [m] leaves the database and the session as they are, adds only events
    that satisfy [P] to the trace, and its result depends on the database
    alone. *)
Definition reader {A} (P : event value -> bool) (m : M A) : Prop :=
  forall w,
    (exists evs, fst (m w) = add_events w evs /\ forallb P evs = true)
    /\ (forall w', conn w' = conn w -> snd (m w') = snd (m w)).

(** [m] leaves the database as it is. *)
Definition keeps_conn {A} (m : M A) : Prop :=
  forall w, conn (fst (m w)) = conn w.

(** ** The statements of drop_all_tables *)

(** The statement [drop_all_tables] runs for one table, line 47. *)
Definition drop_statement (name : string) : event value :=
  CursorExecute ("DROP TABLE IF EXISTS " ++ name).

(** ** Runs that leave the data alone *)

Definition is_read_csv (e : event value) : bool :=
  match e with
  | ReadCsv _ => true
  | _ => false
  end.

(** [m] leaves the database and the uploaded frames of the session as they
    are, and neither reads a file nor reaches the database. *)
Definition leaves_data {A} (m : M A) : Prop :=
  forall w,
    conn (fst (m w)) = conn w
    /\ ss_dataframes (session (fst (m w))) = ss_dataframes (session w)
    /\ ss_conn (session (fst (m w))) = ss_conn (session w)
    /\ exists evs,
         trace (fst (m w)) = (trace w ++ evs)%list
         /\ forallb (fun e => negb (is_sql e) && negb (is_read_csv e)) evs = true.

(** ** The frames of a batch *)

(** [entry] is what loading [file] puts in the dict of frames. *)
Definition frame_of (file : uploaded_file) (entry : string * DataFrame) : Prop :=
  exists df, pd_read_csv file = Ok df
             /\ entry = (file_name file, rename_columns df).

(** The properties of the "Upload CSV files" event, lines 119 to 122. *)
Definition upload_properties (n : nat) : list (string * prop_value) :=
  [("Number of CSV files uploaded", PInt n); ("Page Name", PStr "Ask Your Database")].

End Page.

(** ** Concrete collaborators

    A small instance of the collaborators, used to run the page on concrete
    uploads and questions. *)

Module Demo.

(** Cells are integers or texts; [CBig] is an integer beyond 64 signed
    bits, which pandas reads as [uint64], given by its digits. *)
Inductive cell : Type :=
| CInt (n : nat)
| CText (s : string)
| CBig (digits : string).

Definition digit (n : nat) : string := String (ascii_of_nat (48 + n)) EmptyString.

(** Decimal digits of [n]; [fuel] bounds the number of digits. *)
Fixpoint decimal (fuel n : nat) : string :=
  match fuel with
  | O => digit (n mod 10)
  | S fuel' => if Nat.ltb n 10 then digit n else decimal fuel' (n / 10) ++ digit (n mod 10)
  end.

(** [repr] of an int and of a text free of quotes and backslashes. *)
Definition cell_repr (c : cell) : string :=
  match c with
  | CInt n => decimal n n
  | CText s => "'" ++ s ++ "'"
  | CBig digits => digits
  end.

Definition is_letter (c : ascii) : bool :=
  let n := nat_of_ascii c in
  (Nat.leb 65 n && Nat.leb n 90) || (Nat.leb 97 n && Nat.leb n 122) || Nat.eqb n 95.

Definition is_digit (c : ascii) : bool :=
  let n := nat_of_ascii c in Nat.leb 48 n && Nat.leb n 57.

Fixpoint all_chars (p : ascii -> bool) (s : string) : bool :=
  match s with
  | EmptyString => true
  | String c s' => p c && all_chars p s'
  end.

(** Names made of ASCII letters, digits and underscores that do not start
    with a digit. *)
Definition bare (s : string) : bool :=
  match s with
  | EmptyString => false
  | String c _ => is_letter c && all_chars (fun c => is_letter c || is_digit c) s
  end.

(** A bare name spliced into a statement names its table; a text with any
    other character in it makes the statement a syntax error. *)
Definition read_unquoted (s : string) : result string :=
  if bare s then Ok s else Raise (OperationalError "syntax error").

(** Between single quotes a text free of quotes names its table. *)
Definition read_quoted (s : string) : result string :=
  if PyStr.contains "'" s then Raise (OperationalError "syntax error") else Ok s.

Definition sales_frame : DataFrame cell :=
  {| df_columns := [("Region", KString); ("Amount", KInteger)];
     df_rows := [[CText "West"; CInt 10]; [CText "East"; CInt 20]] |}.

Definition notes_frame : DataFrame cell :=
  {| df_columns := [("Order Id", KInteger); ("Free Text", KString)];
     df_rows := [[CInt 7; CText "late"]] |}.

(** A file with its header row only: no row, and every column is a string
    column for pandas. *)
Definition drafts_frame : DataFrame cell :=
  {| df_columns := [("Title", KString); ("Body text", KString)];
     df_rows := [] |}.

Definition sales_csv : uploaded_file :=
  {| file_name := "sales.csv";
     file_body := "Region,Amount" ++ PyStr.nl ++ "West,10" ++ PyStr.nl ++ "East,20" |}.

Definition notes_csv : uploaded_file :=
  {| file_name := "notes.csv";
     file_body := "Order Id,Free Text" ++ PyStr.nl ++ "7,late" |}.

Definition drafts_csv : uploaded_file :=
  {| file_name := "drafts.csv"; file_body := "Title,Body text" |}.

(** A second file whose name gives the table name of [sales_csv]. *)
Definition sales_v2_csv : uploaded_file :=
  {| file_name := "sales.v2.csv"; file_body := file_body notes_csv |}.

Definition broken_csv : uploaded_file :=
  {| file_name := "broken.csv"; file_body := "" |}.

(** Two files whose table names are not bare names, the second one with
    its header row only. *)
Definition my_data_csv : uploaded_file :=
  {| file_name := "my-data.csv"; file_body := file_body notes_csv |}.

Definition my_drafts_csv : uploaded_file :=
  {| file_name := "my-drafts.csv"; file_body := file_body drafts_csv |}.

(** A file whose table name is the one of [sales_csv] up to case. *)
Definition sales_upper_csv : uploaded_file :=
  {| file_name := "Sales.csv"; file_body := file_body sales_csv |}.

(** A file with an integer that SQLite's [INTEGER] does not hold. *)
Definition big_frame : DataFrame cell :=
  {| df_columns := [("Id", KInteger)];
     df_rows := [[CBig "18446744073709551615"]] |}.

Definition big_csv : uploaded_file :=
  {| file_name := "big.csv"; file_body := "Id" ++ PyStr.nl ++ "18446744073709551615" |}.

(** The four bodies above parse; any other body, the empty one among them,
    is an error of the parser. *)
Definition parse_csv (file : uploaded_file) : result (DataFrame cell) :=
  if String.eqb (file_body file) (file_body sales_csv) then Ok sales_frame
  else if String.eqb (file_body file) (file_body notes_csv) then Ok notes_frame
  else if String.eqb (file_body file) (file_body drafts_csv) then Ok drafts_frame
  else if String.eqb (file_body file) (file_body big_csv) then Ok big_frame
  else Raise (OtherException "EmptyDataError").

(** pandas does not write a statement for a table without name. *)
Definition name_error (name : string) (columns : list column) : option exn :=
  if String.eqb name "" then Some (ValueError "Empty table or column name specified")
  else None.

(** SQLite keeps the names that start with [sqlite_] for its own tables. *)
Definition reserved_name_error (name : string) (columns : list column) : option exn :=
  if String.prefix "sqlite_" (sqlite_key name)
  then Some (OperationalError ("object name reserved for internal use: " ++ name))
  else None.

(** The [INSERT] of a frame fails on an integer beyond 64 signed bits. *)
Definition too_big (name : string) (df : DataFrame cell) : option exn :=
  if existsb (existsb (fun c => match c with CBig _ => true | _ => false end))
             (df_rows df)
  then Some (OtherException "OverflowError")
  else None.

Definition east_frame : DataFrame cell :=
  {| df_columns := [("Region", KString); ("Amount", KInteger)];
     df_rows := [[CText "East"; CInt 20]] |}.

Definition no_row_frame : DataFrame cell :=
  {| df_columns := [("Region", KString); ("Amount", KInteger)];
     df_rows := [] |}.

(** Two queries are answered, every other text is an error of the engine. *)
Definition run_query (sql : string) (s : store cell) : store cell * result (DataFrame cell) :=
  if String.eqb sql "SELECT * FROM sales WHERE Amount > 15" then (s, Ok east_frame)
  else if String.eqb sql "SELECT * FROM sales WHERE Amount > 100" then (s, Ok no_row_frame)
  else (s, Raise (OtherException "DatabaseError")).

(** The generator answers every question but the empty one. *)
Definition generate (question schemas : string) : result (option string) :=
  if PyStr.truthy question then Ok (Some "SELECT * FROM sales WHERE Amount > 15")
  else Ok None.

Definition online : Collaborators :=
  {| value := cell;
     repr := cell_repr;
     unquoted := read_unquoted;
     quoted := read_quoted;
     setup_error := name_error;
     create_table_error := reserved_name_error;
     insert_error := too_big;
     pd_read_csv := parse_csv;
     pd_read_sql_query := run_query;
     mp_track := fun _ _ _ => Ok tt;
     generate_sql_statement := generate |}.

(** The same page when Mixpanel cannot be reached. *)
Definition offline : Collaborators :=
  {| value := cell;
     repr := cell_repr;
     unquoted := read_unquoted;
     quoted := read_quoted;
     setup_error := name_error;
     create_table_error := reserved_name_error;
     insert_error := too_big;
     pd_read_csv := parse_csv;
     pd_read_sql_query := run_query;
     mp_track := fun _ _ _ => Raise (OtherException "MixpanelException");
     generate_sql_statement := generate |}.

Definition fresh_session : session_state cell :=
  {| ss_session_id := Some "session-1";
     ss_api_key := None;
     ss_conn := false;
     ss_dataframes := None;
     ss_step := None;
     ss_upload_completed := None |}.

Definition fresh_world : world cell :=
  {| conn := []; session := fresh_session; trace := [] |}.

(** The session once three files are loaded and a key is entered. *)
Definition loaded_frames : list (string * DataFrame cell) :=
  [("sales.csv", sales_frame);
   ("notes.csv", rename_columns (C := online) notes_frame);
   ("drafts.csv", rename_columns (C := online) drafts_frame)].

Definition asking_world : world cell :=
  {| conn := [("sales", table_of_frame (C := online) sales_frame);
              ("notes", table_of_frame (C := online) (rename_columns (C := online) notes_frame));
              ("drafts", table_of_frame (C := online) (rename_columns (C := online) drafts_frame))];
     session := {| ss_session_id := Some "session-1";
                   ss_api_key := Some "sk-demo";
                   ss_conn := true;
                   ss_dataframes := Some loaded_frames;
                   ss_step := Some 2;
                   ss_upload_completed := Some false |};
     trace := [] |}.

(** The summary of the database of [asking_world]. *)
Definition asking_summary : string :=
  Eval vm_compute in summary_of (C := online) (conn asking_world).

(** The database after a first upload of [my_data_csv] alone. *)
Definition hyphen_world : world cell :=
  fst (step_1 (C := online) [my_data_csv] false fresh_world).

(** The database after a first upload of [my_drafts_csv] alone. *)
Definition hyphen_drafts_world : world cell :=
  fst (step_1 (C := online) [my_drafts_csv] false fresh_world).

Definition first_upload : list uploaded_file := [sales_csv; notes_csv; drafts_csv].

(** The session of [asking_world] without its identifier. *)
Definition anonymous_world : world cell :=
  {| conn := conn asking_world;
     session := {| ss_session_id := None;
                   ss_api_key := Some "sk-demo";
                   ss_conn := true;
                   ss_dataframes := Some loaded_frames;
                   ss_step := Some 2;
                   ss_upload_completed := Some false |};
     trace := [] |}.

Definition sales_table : table cell := table_of_frame (C := online) sales_frame.

Definition notes_table : table cell :=
  table_of_frame (C := online) (rename_columns (C := online) notes_frame).

(** A database with a table name that is not bare between two that are,
    as the upload of [sales_csv], [my_data_csv] and [notes_csv] leaves it. *)
Definition mixed_world : world cell :=
  {| conn := [("sales", sales_table); ("my-data", notes_table); ("notes", notes_table)];
     session := session asking_world;
     trace := [] |}.

(** The same page when the generator cannot be reached. *)
Definition no_generator : Collaborators :=
  {| value := cell;
     repr := cell_repr;
     unquoted := read_unquoted;
     quoted := read_quoted;
     setup_error := name_error;
     create_table_error := reserved_name_error;
     insert_error := too_big;
     pd_read_csv := parse_csv;
     pd_read_sql_query := run_query;
     mp_track := fun _ _ _ => Ok tt;
     generate_sql_statement := fun _ _ => Raise (OtherException "APIConnectionError") |}.

End Demo.

(** * Properties *)

(** ** Python strings *)

Module PyStrFacts.
Import PyStr.

Lemma app_assoc (a b c : string) : (a ++ b) ++ c = a ++ b ++ c.
Proof.
  induction a as [| x a IH]; cbn; [reflexivity | rewrite IH; reflexivity].
Qed.

Lemma app_nil_r (a : string) : a ++ "" = a.
Proof.
  induction a as [| x a IH]; cbn; [reflexivity | rewrite IH; reflexivity].
Qed.

(** A text that strips to nothing disappears from the end of any text. *)
Lemma rstrip_app_stripped (chars a b : string) :
  rstrip chars b = "" -> rstrip chars (a ++ b) = rstrip chars a.
Proof.
  intros Hb. induction a as [| x a IH]; cbn; [exact Hb | rewrite IH; reflexivity].
Qed.

(** A text that does not strip to nothing shields what stands before it. *)
Lemma rstrip_app_kept (chars a b : string) :
  rstrip chars b <> "" -> rstrip chars (a ++ b) = a ++ rstrip chars b.
Proof.
  intros Hb. induction a as [| x a IH]; cbn; [reflexivity |].
  rewrite IH. destruct (a ++ rstrip chars b) eqn:Hab; [| reflexivity].
  destruct a; cbn in Hab; [contradiction | discriminate].
Qed.

(** Stripping stops at the last character outside [chars]. *)
Lemma rstrip_stops_at (chars a b : string) (c : ascii) :
  mem c chars = false ->
  rstrip chars (a ++ String c b) = a ++ String c (rstrip chars b).
Proof.
  intros Hc.
  assert (Hcb : rstrip chars (String c b) = String c (rstrip chars b)).
  { cbn. destruct (rstrip chars b); [rewrite Hc |]; reflexivity. }
  rewrite rstrip_app_kept; rewrite Hcb; [reflexivity | discriminate].
Qed.

Lemma occurs_app_l (t a b : string) : occurs t a -> occurs t (a ++ b).
Proof.
  intros (pre & post & ->). exists pre, (post ++ b).
  rewrite !app_assoc. reflexivity.
Qed.

Lemma occurs_app_r (t a b : string) : occurs t b -> occurs t (a ++ b).
Proof.
  intros (pre & post & ->). exists (a ++ pre), post.
  rewrite !app_assoc. reflexivity.
Qed.

Lemma occurs_refl (t : string) : occurs t t.
Proof.
  exists "", "". cbn. rewrite app_nil_r. reflexivity.
Qed.

Lemma occurs_join (sep : string) (parts : list string) (t : string) :
  In t parts -> occurs t (join sep parts).
Proof.
  induction parts as [| p parts IH]; cbn; [contradiction |].
  intros [-> | Hin].
  - destruct parts; [apply occurs_refl | apply occurs_app_l, occurs_refl].
  - destruct parts as [| q parts]; [contradiction |].
    apply occurs_app_r, occurs_app_r, IH, Hin.
Qed.

(** *** Facts used for the file names, the column names and the type test *)

Lemma app_inv_head (a b c : string) : a ++ b = a ++ c -> b = c.
Proof.
  induction a as [| x a IH]; cbn; [auto |]. intros H. inversion H. auto.
Qed.

Lemma mem_app (c : ascii) (a b : string) : mem c (a ++ b) = mem c a || mem c b.
Proof.
  induction a as [| x a IH]; cbn; [reflexivity |].
  rewrite IH, orb_assoc. reflexivity.
Qed.

Lemma before_no_sep (sep : ascii) (s : string) : mem sep (before sep s) = false.
Proof.
  induction s as [| c s IH]; cbn; [reflexivity |].
  destruct (Ascii.eqb c sep) eqn:Hc; cbn; [reflexivity |].
  rewrite Ascii.eqb_sym, Hc, IH. reflexivity.
Qed.

Lemma before_split (sep : ascii) (s : string) :
  exists rest,
    s = before sep s ++ rest /\ (rest = "" \/ exists rest', rest = String sep rest').
Proof.
  induction s as [| c s (rest & Hs & Hrest)]; cbn.
  - exists "". auto.
  - destruct (Ascii.eqb_spec c sep) as [-> | Hne].
    + exists (String sep s). cbn. eauto.
    + exists rest. cbn. rewrite <- Hs. auto.
Qed.

Lemma before_without_sep (sep : ascii) (s : string) :
  mem sep s = false -> before sep s = s.
Proof.
  induction s as [| c s IH]; cbn; [reflexivity |].
  intros H. apply orb_false_elim in H. destruct H as [Hc Hs].
  rewrite Ascii.eqb_sym, Hc, (IH Hs). reflexivity.
Qed.

(** The text before the first separator is the longest prefix without it. *)
Lemma before_unique (sep : ascii) (a b : string) :
  mem sep a = false -> before sep (a ++ String sep b) = a.
Proof.
  induction a as [| c a IH]; cbn.
  - rewrite Ascii.eqb_refl. reflexivity.
  - intros H. apply orb_false_elim in H. destruct H as [Hc Ha].
    rewrite Ascii.eqb_sym, Hc, (IH Ha). reflexivity.
Qed.

Lemma replace_no_old (a b : ascii) (s : string) :
  a <> b -> mem a (replace a b s) = false.
Proof.
  intros Hab. unfold replace. induction s as [| c s IH]; cbn; [reflexivity |].
  rewrite IH, orb_false_r.
  destruct (Ascii.eqb_spec c a) as [-> | Hca]; apply Ascii.eqb_neq; auto.
Qed.

Lemma replace_without_old (a b : ascii) (s : string) :
  mem a s = false -> replace a b s = s.
Proof.
  unfold replace. induction s as [| c s IH]; cbn; [reflexivity |].
  intros H. apply orb_false_elim in H. destruct H as [Hc Hs].
  rewrite Ascii.eqb_sym, Hc, (IH Hs). reflexivity.
Qed.

Lemma replace_length (a b : ascii) (s : string) :
  String.length (replace a b s) = String.length s.
Proof.
  unfold replace. induction s as [| c s IH]; cbn; [reflexivity | rewrite IH; reflexivity].
Qed.

Lemma map_chars_app (f : ascii -> ascii) (a b : string) :
  map_chars f (a ++ b) = map_chars f a ++ map_chars f b.
Proof.
  induction a as [| x a IH]; cbn; [reflexivity | rewrite IH; reflexivity].
Qed.

Lemma map_chars_app_inv (f : ascii -> ascii) (s x y : string) :
  map_chars f s = x ++ y ->
  exists s1 s2, s = s1 ++ s2 /\ map_chars f s1 = x /\ map_chars f s2 = y.
Proof.
  revert s. induction x as [| c x IH]; intros s H; cbn in H.
  - exists "", s. auto.
  - destruct s as [| d s]; cbn in H; [discriminate |].
    injection H as Hc Hs.
    destruct (IH s Hs) as (s1 & s2 & -> & H1 & H2).
    exists (String d s1), s2. cbn. rewrite H1, Hc. auto.
Qed.

Lemma prefix_app (needle rest : string) : String.prefix needle (needle ++ rest) = true.
Proof.
  induction needle as [| c needle IH]; cbn; [destruct rest; reflexivity |].
  destruct (ascii_dec c c); [exact IH | congruence].
Qed.

Lemma prefix_inv (needle hay : string) :
  String.prefix needle hay = true -> exists rest, hay = needle ++ rest.
Proof.
  revert hay. induction needle as [| c needle IH]; intros hay H.
  - exists hay. reflexivity.
  - destruct hay as [| d hay]; cbn in H; [discriminate |].
    destruct (ascii_dec c d) as [-> | Hne]; [| discriminate].
    destruct (IH hay H) as [rest ->]. exists rest. reflexivity.
Qed.

(** [needle in hay] is true exactly when [needle] occurs in [hay]. *)
Lemma contains_occurs (needle hay : string) :
  contains needle hay = true <-> occurs needle hay.
Proof.
  split.
  - induction hay as [| c hay IH]; cbn [contains].
    + destruct (String.prefix needle "") eqn:Hp; [| discriminate].
      intros _. destruct (prefix_inv _ _ Hp) as [rest Hrest].
      exists "", rest. exact Hrest.
    + destruct (String.prefix needle (String c hay)) eqn:Hp.
      * intros _. destruct (prefix_inv _ _ Hp) as [rest Hrest].
        exists "", rest. exact Hrest.
      * intros H. destruct (IH H) as (pre & post & ->).
        exists (String c pre), post. reflexivity.
  - intros (pre & post & ->). induction pre as [| c pre IH].
    + cbn [append]. destruct (needle ++ post) eqn:Hnp; cbn [contains];
        rewrite <- Hnp, prefix_app; reflexivity.
    + cbn [append contains]. rewrite IH.
      destruct (String.prefix needle (String c (pre ++ needle ++ post))); reflexivity.
Qed.

End PyStrFacts.

Section Properties.

Context {C : Collaborators}.

Local Abbreviation DataFrame := (DataFrame value).
Local Abbreviation store := (store value).
Local Abbreviation world := (world value).

(** ** The query executor *)

(** What [execute_sql_statement] does, by the answer of [pd.read_sql_query]
    and the session identifier. *)
Lemma execute_sql_statement_eq (sql : string) (w : world) :
  snd (execute_sql_statement sql w) =
  let r := snd (pd_read_sql_query sql (conn w)) in
  let rows_returned :=
    match r with Ok df => negb (df_empty df) | Raise _ => false end in
  match ss_session_id (session w) with
  | None => Raise (KeyError "session_id")
  | Some sid =>
      match mp_track sid "Run SQL Query" (run_query_properties rows_returned) with
      | Raise e => Raise e
      | Ok _ =>
          match r with
          | Ok df => Ok (if rows_returned then Some df else None)
          | Raise _ => Ok None
          end
      end
  end.
Proof.
  unfold execute_sql_statement, read_sql_query, track, bind, get_session, emit, raise.
  destruct (pd_read_sql_query sql (conn w)) as [s' [df | e]]; cbn.
  - destruct (ss_session_id (session w)) as [sid |]; cbn; [| reflexivity].
    destruct (df_empty df); cbn;
      destruct (mp_track sid "Run SQL Query" _); reflexivity.
  - destruct (ss_session_id (session w)) as [sid |]; cbn; [| reflexivity].
    destruct (mp_track sid "Run SQL Query" _); reflexivity.
Qed.

Lemma df_empty_no_rows (df : DataFrame) : df_rows df = [] -> df_empty df = true.
Proof.
  unfold df_empty. intros ->. destruct (df_columns df); reflexivity.
Qed.

Lemma df_empty_false (df : DataFrame) :
  df_empty df = false <-> df_columns df <> [] /\ 1 <= List.length (df_rows df).
Proof.
  unfold df_empty.
  destruct (df_columns df), (df_rows df); cbn; split; intros H;
    try discriminate; try reflexivity; try (split; [congruence | lia]);
    destruct H as [H1 H2]; try congruence; try lia.
Qed.

(** C1. A statement that the engine rejects and a statement that runs and
    matches no row give the caller the same outcome: the result of the
    executor is the same in both cases, it is never a table, and it is
    [None] as soon as the telemetry call returns. *)
Theorem execute_error_same_as_no_row :
  forall (w : world) (bad_sql empty_sql : string) (s1 s2 : store) (e : exn)
         (df : DataFrame),
    pd_read_sql_query bad_sql (conn w) = (s1, Raise e) ->
    pd_read_sql_query empty_sql (conn w) = (s2, Ok df) ->
    df_rows df = [] ->
    snd (execute_sql_statement bad_sql w) = snd (execute_sql_statement empty_sql w)
    /\ (forall r, snd (execute_sql_statement bad_sql w) = Ok r -> r = None)
    /\ (forall sid,
          ss_session_id (session w) = Some sid ->
          mp_track sid "Run SQL Query" (run_query_properties false) = Ok tt ->
          snd (execute_sql_statement bad_sql w) = Ok None
          /\ snd (execute_sql_statement empty_sql w) = Ok None).
Proof.
  intros w bad_sql empty_sql s1 s2 e df Hbad Hempty Hrows.
  rewrite !execute_sql_statement_eq, Hbad, Hempty. cbn.
  rewrite (df_empty_no_rows df Hrows). cbn.
  destruct (ss_session_id (session w)) as [sid |];
    [destruct (mp_track sid "Run SQL Query" (run_query_properties false))
       as [[] | e'] eqn:Htrack |];
    repeat split; intros; congruence.
Qed.

(** C10. When the executor returns, it returns [None] or a table with at
    least one row, and it returns a table exactly when the query ran and
    produced at least one row.  A result set of the engine has at least one
    column. *)
Theorem execute_result_none_or_rows :
  forall (w : world) (sql : string) (r : option DataFrame),
    (forall s df, pd_read_sql_query sql (conn w) = (s, Ok df) -> df_columns df <> []) ->
    snd (execute_sql_statement sql w) = Ok r ->
    (r = None \/ exists df, r = Some df /\ 1 <= List.length (df_rows df))
    /\ (r <> None <->
        exists s df, pd_read_sql_query sql (conn w) = (s, Ok df)
                     /\ 1 <= List.length (df_rows df))
    /\ (forall df, r = Some df -> exists s, pd_read_sql_query sql (conn w) = (s, Ok df)).
Proof.
  intros w sql r Hcols Hret.
  rewrite execute_sql_statement_eq in Hret.
  destruct (pd_read_sql_query sql (conn w)) as [s' [df | e]] eqn:Hq; cbn in Hret.
  - specialize (Hcols s' df eq_refl).
    destruct (ss_session_id (session w)) as [sid |]; [| discriminate].
    destruct (mp_track sid "Run SQL Query" _) as [[] | e']; [| discriminate].
    inversion Hret; subst; clear Hret.
    destruct (df_empty df) eqn:Hempty; cbn.
    + assert (Hno : ~ 1 <= List.length (df_rows df)).
      { intros Hlen.
        assert (df_empty df = false) by (apply df_empty_false; auto).
        congruence. }
      split; [left; reflexivity |].
      split; [| intros df' Hdf'; discriminate].
      split; [intros Hne; congruence |].
      intros (s & df' & Heq & Hlen). inversion Heq; subst. contradiction.
    + apply df_empty_false in Hempty. destruct Hempty as [_ Hlen].
      split; [right; exists df; auto |].
      split; [| intros df' Hdf'; inversion Hdf'; subst; exists s'; reflexivity].
      split; [intros _; exists s', df; auto | intros _; discriminate].
  - destruct (ss_session_id (session w)) as [sid |]; [| discriminate].
    destruct (mp_track sid "Run SQL Query" _) as [[] | e']; [| discriminate].
    inversion Hret; subst; clear Hret.
    split; [left; reflexivity |].
    split; [| intros df' Hdf'; discriminate].
    split; [intros Hne; congruence |].
    intros (s & df' & Heq & _). discriminate.
Qed.

(** C9, as the code has it.  With a session identifier in the session
    state, the executor returns whatever [pd.read_sql_query] did as soon as
    the telemetry call returns, and an exception of the telemetry call is the
    exception of the executor. *)
Theorem execute_returns_iff_telemetry_returns :
  forall (w : world) (sql : string) (sid : string),
    ss_session_id (session w) = Some sid ->
    ((forall b, mp_track sid "Run SQL Query" (run_query_properties b) = Ok tt) ->
     exists r, snd (execute_sql_statement sql w) = Ok r)
    /\ (forall e,
          (forall b, mp_track sid "Run SQL Query" (run_query_properties b) = Raise e) ->
          snd (execute_sql_statement sql w) = Raise e).
Proof.
  intros w sql sid Hsid.
  rewrite execute_sql_statement_eq, Hsid. cbn.
  split.
  - intros Htrack. rewrite Htrack.
    destruct (snd (pd_read_sql_query sql (conn w))); eauto.
  - intros e Htrack. rewrite Htrack. reflexivity.
Qed.

(** ** Computations that only read the database *)

Lemma add_events_nil (w : world) : add_events w [] = w.
Proof.
  destruct w; unfold add_events; cbn. rewrite app_nil_r. reflexivity.
Qed.

Lemma add_events_app (w : world) (evs1 evs2 : list (event value)) :
  add_events (add_events w evs1) evs2 = add_events w (evs1 ++ evs2)%list.
Proof.
  unfold add_events; cbn. rewrite app_assoc. reflexivity.
Qed.

Lemma reader_ret {A} P (a : A) : reader P (ret a).
Proof.
  intros w. split; [exists []; rewrite add_events_nil; auto | reflexivity].
Qed.

Lemma reader_raise {A} P (e : exn) : reader P (raise (A := A) e).
Proof.
  intros w. split; [exists []; rewrite add_events_nil; auto | reflexivity].
Qed.

Lemma reader_emit (P : event value -> bool) (e : event value) :
  P e = true -> reader P (emit e).
Proof.
  intros He w. split; [| reflexivity].
  exists [e]. cbn. rewrite He. auto.
Qed.

Lemma reader_get_conn P : reader P get_conn.
Proof.
  intros w. split; [exists []; rewrite add_events_nil; auto |].
  intros w' Hw'. cbn. congruence.
Qed.

Lemma reader_bind {A B} P (m : M value A) (k : A -> M value B) :
  reader P m -> (forall a, reader P (k a)) -> reader P (bind m k).
Proof.
  intros Hm Hk w.
  destruct (Hm w) as [(evs & Hfst & Hevs) Hsnd].
  unfold bind.
  destruct (m w) as [w1 r] eqn:Hmw; cbn in Hfst; subst w1.
  split.
  - destruct r as [a | e].
    + destruct (Hk a (add_events w evs)) as [(evs' & Hfst' & Hevs') _].
      exists (evs ++ evs')%list. rewrite Hfst', add_events_app, forallb_app, Hevs, Hevs'. auto.
    + exists evs. auto.
  - intros w' Hconn.
    destruct (Hm w') as [(evs1 & Hfst1 & _) _].
    specialize (Hsnd w' Hconn). cbn in Hsnd.
    destruct (m w') as [w1' r'] eqn:Hmw'; cbn in Hfst1, Hsnd; subst w1' r'.
    destruct r as [a | e]; [| reflexivity].
    destruct (Hk a (add_events w evs)) as [_ Hsnd'].
    apply Hsnd'. cbn. exact Hconn.
Qed.

Lemma reader_for_fold {A B} P (body : B -> A -> M value B) (xs : list A) :
  (forall acc x, reader P (body acc x)) ->
  forall acc, reader P (for_fold xs acc body).
Proof.
  intros Hbody. induction xs as [| x xs IH]; intros acc; cbn.
  - apply reader_ret.
  - apply reader_bind; auto.
Qed.

Create HintDb reader.

#[local] Hint Resolve reader_ret reader_raise reader_get_conn reader_bind
  reader_for_fold : reader.

Lemma reader_select_table_names : reader is_cursor select_table_names.
Proof.
  unfold select_table_names.
  apply reader_bind; [apply reader_emit; reflexivity | intros _].
  auto with reader.
Qed.

Lemma reader_pragma_table_info (name_text : string) :
  reader is_cursor (pragma_table_info name_text).
Proof.
  unfold pragma_table_info.
  apply reader_bind; [apply reader_emit; reflexivity | intros _].
  destruct (quoted name_text); auto with reader.
Qed.

Lemma reader_select_first_row (name_text : string) :
  reader is_cursor (select_first_row name_text).
Proof.
  unfold select_first_row.
  apply reader_bind; [apply reader_emit; reflexivity | intros _].
  destruct (unquoted name_text); auto with reader.
  apply reader_bind; auto with reader.
  intros s. destruct (lookup_table a s); auto with reader.
Qed.

(** The summary only reads the database, through the cursor. *)
Lemma reader_get_table_schemas_with_data : reader is_cursor get_table_schemas_with_data.
Proof.
  unfold get_table_schemas_with_data.
  apply reader_bind; [apply reader_select_table_names | intros names].
  apply reader_for_fold. intros acc name.
  apply reader_bind; [apply reader_pragma_table_info | intros columns].
  apply reader_bind; [apply reader_select_first_row | intros row].
  apply reader_ret.
Qed.

(** ** The question step *)

Lemma bind_emit {A} (e : event value) (k : unit -> M value A) (w : world) :
  bind (emit e) k w = k tt (add_events w [e]).
Proof. reflexivity. Qed.

Lemma emit_eq (e : event value) (w : world) : emit e w = (add_events w [e], Ok tt).
Proof. reflexivity. Qed.

Lemma bind_get_session {A} (k : session_state value -> M value A) (w : world) :
  bind get_session k w = k (session w) w.
Proof. reflexivity. Qed.

Lemma events_since_add (w : world) (evs : list (event value)) :
  events_since w (add_events w evs) = evs.
Proof.
  unfold events_since, add_events; cbn.
  rewrite skipn_app, skipn_all, Nat.sub_diag. reflexivity.
Qed.

Lemma truthy_api_key_false (ss : session_state value) :
  ss_api_key ss = None \/ ss_api_key ss = Some "" ->
  PyStr.truthy (get_api_key ss) = false.
Proof.
  unfold get_api_key. intros [-> | ->]; reflexivity.
Qed.

(** C6. When the button is pressed and the session holds no API key (the
    key is absent or empty), the step shows its three widgets and the
    missing-key error and returns: the database is unchanged and no call to
    the SQL generator or to the database is made. *)
Theorem step_2_without_key_stops :
  forall (w : world) (question : string),
    ss_api_key (session w) = None \/ ss_api_key (session w) = Some "" ->
    step_2 question true w =
      (add_events w [StTitle "Step 2/2: Ask a Question"; StTextArea "Question:";
                     StButton "Ask Question"; StError missing_key_message],
       Ok tt)
    /\ conn (fst (step_2 question true w)) = conn w
    /\ forallb (fun e => negb (is_generate e) && negb (is_sql e))
         (events_since w (fst (step_2 question true w))) = true.
Proof.
  intros w question Hkey.
  assert (Hrun : step_2 question true w =
      (add_events w [StTitle "Step 2/2: Ask a Question"; StTextArea "Question:";
                     StButton "Ask Question"; StError missing_key_message],
       Ok tt)).
  { unfold step_2. rewrite !bind_emit, bind_get_session. cbn [session add_events].
    rewrite (truthy_api_key_false _ Hkey). cbn [negb].
    rewrite emit_eq, !add_events_app. reflexivity. }
  rewrite Hrun. cbn [fst]. rewrite events_since_add.
  repeat split; reflexivity.
Qed.

Lemma forallb_weaken {A} (P Q : A -> bool) (l : list A) :
  (forall a, P a = true -> Q a = true) -> forallb P l = true -> forallb Q l = true.
Proof.
  intros HPQ. induction l as [| a l IH]; cbn; [auto |].
  intros H. apply andb_prop in H. destruct H as [Ha Hl].
  rewrite (HPQ a Ha), (IH Hl). reflexivity.
Qed.

(** C7. With a key in the session and a summary of the database at hand,
    a generator that returns [None] or the empty string makes the step end
    on the warning that no statement was generated, a message of its own,
    and the step makes none of the calls of the query executor. *)
Theorem step_2_no_statement_warns :
  forall (w : world) (question schemas : string) (sql_statement : option string),
    PyStr.truthy (get_api_key (session w)) = true ->
    ss_conn (session w) = true ->
    snd (get_table_schemas_with_data w) = Ok schemas ->
    generate_sql_statement question schemas = Ok sql_statement ->
    sql_truthy sql_statement = false ->
    (exists evs,
        step_2 question true w =
          (add_events w
             ([StTitle "Step 2/2: Ask a Question"; StTextArea "Question:";
               StButton "Ask Question"] ++ evs ++
              [GenerateSql question schemas; StWarning not_generated_message])%list,
           Ok tt)
        /\ forallb is_cursor evs = true)
    /\ forallb (fun e => negb (is_executor e))
         (events_since w (fst (step_2 question true w))) = true
    /\ not_generated_message <> missing_key_message
    /\ not_generated_message <> no_result_message.
Proof.
  intros w question schemas sql_statement Hkey Hconn Hschemas Hgen Hfalsy.
  set (w0 := add_events w [StTitle "Step 2/2: Ask a Question"; StTextArea "Question:";
                           StButton "Ask Question"]).
  destruct (reader_get_table_schemas_with_data w0) as [(evs & Hfst & Hevs) _].
  destruct (reader_get_table_schemas_with_data w) as [_ Hsnd].
  specialize (Hsnd w0 eq_refl). rewrite Hschemas in Hsnd.
  assert (Hrun : step_2 question true w =
      (add_events w
         ([StTitle "Step 2/2: Ask a Question"; StTextArea "Question:";
           StButton "Ask Question"] ++ evs ++
          [GenerateSql question schemas; StWarning not_generated_message])%list,
       Ok tt)).
  { unfold step_2. rewrite !bind_emit, !add_events_app, bind_get_session.
    cbn [app session add_events]. fold w0.
    rewrite Hkey, Hconn. cbn [negb].
    unfold bind at 1. unfold ret at 1.
    unfold bind at 1.
    destruct (get_table_schemas_with_data w0) as [w1 r]; cbn in Hfst, Hsnd; subst w1 r.
    unfold bind at 1. rewrite bind_emit, Hgen, Hfalsy.
    unfold w0. rewrite emit_eq, !add_events_app. reflexivity. }
  split; [exists evs; auto |].
  split; [| split; discriminate].
  rewrite Hrun. cbn [fst]. rewrite events_since_add.
  rewrite !forallb_app. cbn.
  rewrite (forallb_weaken is_cursor (fun e => negb (is_executor e)) evs); auto.
  intros [] He; cbn in *; congruence.
Qed.

(** ** The schema summary *)

Lemma add_columns_eq (columns : list column) :
  forall table_schemas,
    add_columns table_schemas columns =
    table_schemas ++ lines_of (non_text_columns columns).
Proof.
  induction columns as [| column rest IH]; intros acc; cbn.
  - rewrite PyStrFacts.app_nil_r. reflexivity.
  - destruct (negb (is_text_type (col_type column))); cbn; rewrite IH.
    + rewrite PyStrFacts.app_assoc. reflexivity.
    + reflexivity.
Qed.

Lemma rstrip_comma_newline : PyStr.rstrip ("," ++ PyStr.nl) ("," ++ PyStr.nl) = "".
Proof. reflexivity. Qed.

Lemma rstrip_column_line (column : column) (text : string) :
  PyStr.rstrip ("," ++ PyStr.nl) (text ++ column_line column) =
  text ++ "    " ++ PyStr.replace PyStr.space PyStr.underscore (col_name column)
       ++ " " ++ PyStr.rstrip ("," ++ PyStr.nl) (col_type column).
Proof.
  unfold column_line.
  rewrite <- (PyStrFacts.app_assoc "    " _ (" " ++ col_type column ++ "," ++ PyStr.nl)).
  rewrite <- (PyStrFacts.app_assoc text).
  change (" " ++ col_type column ++ "," ++ PyStr.nl)
    with (String " " (col_type column ++ "," ++ PyStr.nl)).
  rewrite PyStrFacts.rstrip_stops_at by reflexivity.
  rewrite (PyStrFacts.rstrip_app_stripped _ (col_type column) _ rstrip_comma_newline).
  rewrite !PyStrFacts.app_assoc. reflexivity.
Qed.

Lemma rstrip_lines_of (listed : list column) :
  listed <> [] ->
  forall text,
    PyStr.rstrip ("," ++ PyStr.nl) (text ++ lines_of listed) = text ++ trimmed_lines listed.
Proof.
  induction listed as [| column rest IH]; [congruence |].
  intros _ text. destruct rest as [| column' rest].
  - cbn [lines_of fold_right trimmed_lines]. rewrite PyStrFacts.app_nil_r.
    apply rstrip_column_line.
  - change (lines_of (column :: column' :: rest))
      with (column_line column ++ lines_of (column' :: rest)).
    change (trimmed_lines (column :: column' :: rest))
      with (column_line column ++ trimmed_lines (column' :: rest)).
    rewrite <- !PyStrFacts.app_assoc. apply IH. discriminate.
Qed.

(** The last line loses its comma and line feed, and nothing else when the
    type of the last column does not itself end in one of them. *)
Lemma trimmed_lines_last (listed : list column) (column : column) :
  PyStr.rstrip ("," ++ PyStr.nl) (col_type column) = col_type column ->
  lines_of (listed ++ [column]) = trimmed_lines (listed ++ [column]) ++ "," ++ PyStr.nl.
Proof.
  intros Htype. induction listed as [| c rest IH].
  - cbn [app lines_of fold_right trimmed_lines].
    rewrite Htype, PyStrFacts.app_nil_r.
    unfold column_line. rewrite !PyStrFacts.app_assoc. reflexivity.
  - change (lines_of ((c :: rest) ++ [column]))
      with (column_line c ++ lines_of (rest ++ [column])).
    rewrite IH.
    destruct rest; cbn [app trimmed_lines]; rewrite !PyStrFacts.app_assoc; reflexivity.
Qed.

Lemma table_block_eq (table_name : string) (columns : list column)
    (first_row_data : option (list value)) :
  table_block table_name columns first_row_data =
  structural_block table_name (non_text_columns columns) ++ first_row_line first_row_data.
Proof.
  unfold table_block, structural_block, first_row_line.
  rewrite add_columns_eq.
  destruct (non_text_columns columns) as [| column rest] eqn:Hlisted.
  - cbn [lines_of fold_right]. rewrite PyStrFacts.app_nil_r.
    change ("CREATE TABLE " ++ table_name ++ " (" ++ PyStr.nl)
      with ("CREATE TABLE " ++ table_name ++ String " " (String "(" PyStr.nl)).
    rewrite <- (PyStrFacts.app_assoc "CREATE TABLE " table_name).
    change (String " " (String "(" PyStr.nl))
      with (" " ++ String "(" PyStr.nl).
    rewrite <- (PyStrFacts.app_assoc _ " " (String "(" PyStr.nl)).
    rewrite PyStrFacts.rstrip_stops_at by reflexivity.
    cbn [PyStr.rstrip PyStr.nl PyStr.mem]. cbn.
    rewrite !PyStrFacts.app_assoc. reflexivity.
  - rewrite <- (PyStrFacts.app_assoc "CREATE TABLE " table_name).
    rewrite <- (PyStrFacts.app_assoc _ " (" PyStr.nl).
    rewrite rstrip_lines_of by discriminate.
    rewrite !PyStrFacts.app_assoc. reflexivity.
Qed.

Lemma lookup_table_in (s : store) (name : string) (t : table value) :
  NoDup (map fst s) -> In (name, t) s -> lookup_table name s = Some t.
Proof.
  unfold lookup_table.
  induction s as [| [n' t'] s IH]; cbn; [contradiction |].
  intros Hnd Hin. inversion Hnd as [| ? ? Hnotin Hnd']; subst.
  destruct (String.eqb_spec n' name) as [-> | Hne].
  - destruct Hin as [Heq | Hin]; [inversion Heq; reflexivity |].
    exfalso. apply Hnotin. apply (in_map fst) in Hin. exact Hin.
  - destruct Hin as [Heq | Hin]; [inversion Heq; congruence |].
    apply IH; assumption.
Qed.

Lemma pragma_table_info_ok (w : world) (name : string) (t : table value) :
  quoted name = Ok name ->
  lookup_table name (conn w) = Some t ->
  pragma_table_info name w =
    (add_events w [CursorExecute ("PRAGMA table_info('" ++ name ++ "')")],
     Ok (tbl_columns t)).
Proof.
  intros Hq Hl. unfold pragma_table_info. rewrite bind_emit, Hq.
  unfold bind, get_conn, ret. cbn [conn add_events]. rewrite Hl. reflexivity.
Qed.

Lemma select_first_row_ok (w : world) (name : string) (t : table value) :
  unquoted name = Ok name ->
  lookup_table name (conn w) = Some t ->
  select_first_row name w =
    (add_events w [CursorExecute ("SELECT * FROM " ++ name ++ " LIMIT 1;")],
     Ok (hd_error (tbl_rows t))).
Proof.
  intros Hq Hl. unfold select_first_row. rewrite bind_emit, Hq.
  unfold bind, get_conn, ret. cbn [conn add_events]. rewrite Hl. reflexivity.
Qed.

Lemma summary_loop (l : store) :
  forall (w : world) (acc : string),
    (forall name t, In (name, t) l ->
       lookup_table name (conn w) = Some t /\ reads_back name) ->
    snd (for_fold (map fst l) acc
           (fun schemas_with_data table_name =>
              columns <- pragma_table_info table_name ;;
              first_row_data <- select_first_row table_name ;;
              ret (schemas_with_data ++ table_block table_name columns first_row_data)) w)
    = Ok (acc ++ summary_of l).
Proof.
  induction l as [| [name t] l IH]; intros w acc Hl.
  - cbn. rewrite PyStrFacts.app_nil_r. reflexivity.
  - destruct (Hl name t (or_introl eq_refl)) as [Hlook [Hunq Hquo]].
    cbn [map fst for_fold].
    unfold bind at 1. unfold bind at 1.
    rewrite (pragma_table_info_ok w Hquo Hlook).
    unfold bind at 1.
    rewrite (select_first_row_ok (add_events w _) Hunq Hlook).
    unfold ret at 1.
    rewrite IH.
    + cbn [summary_of fold_right block_of fst snd].
      rewrite !PyStrFacts.app_assoc. reflexivity.
    + intros name' t' Hin. cbn [conn add_events]. apply Hl. right. exact Hin.
Qed.

Lemma select_table_names_eq (w : world) :
  select_table_names w =
    (add_events w [CursorExecute "SELECT name FROM sqlite_master WHERE type='table';"],
     Ok (map fst (conn w))).
Proof. reflexivity. Qed.

(** On a database whose names read back, the summary is the blocks of its
    tables, in the order of the database. *)
Lemma get_table_schemas_with_data_ok (w : world) :
  names_ok (conn w) ->
  snd (get_table_schemas_with_data w) = Ok (summary_of (conn w)).
Proof.
  intros [Hnd Hread].
  unfold get_table_schemas_with_data.
  unfold bind at 1. rewrite select_table_names_eq.
  rewrite summary_loop; [reflexivity |].
  intros name t Hin. cbn [conn add_events]. split.
  - apply lookup_table_in; assumption.
  - rewrite Forall_forall in Hread. apply Hread.
    apply (in_map fst) in Hin. exact Hin.
Qed.

Lemma summary_of_app (l1 l2 : store) :
  summary_of (l1 ++ l2)%list = summary_of l1 ++ summary_of l2.
Proof.
  induction l1 as [| e l1 IH]; cbn; [reflexivity |].
  fold (summary_of (l1 ++ l2)%list). fold (summary_of l1).
  rewrite IH, PyStrFacts.app_assoc. reflexivity.
Qed.

Lemma summary_of_in (s : store) (entry : string * table value) :
  In entry s ->
  exists pre post, summary_of s = pre ++ block_of entry ++ post.
Proof.
  intros Hin. apply in_split in Hin. destruct Hin as (l1 & l2 & ->).
  exists (summary_of l1), (summary_of l2).
  rewrite summary_of_app. reflexivity.
Qed.

Lemma summary_holds_block (w : world) (name : string) (t : table value) :
  names_ok (conn w) ->
  In (name, t) (conn w) ->
  exists pre post,
    snd (get_table_schemas_with_data w) =
    Ok (pre ++ (structural_block name (non_text_columns (tbl_columns t))
                ++ first_row_line (hd_error (tbl_rows t))) ++ post).
Proof.
  intros Hok Hin.
  destruct (summary_of_in _ _ Hin) as (pre & post & Hsum).
  exists pre, post.
  rewrite (get_table_schemas_with_data_ok w Hok), Hsum.
  unfold block_of. cbn [fst snd]. rewrite table_block_eq. reflexivity.
Qed.

Lemma non_text_columns_spec (columns : list column) (column : column) :
  In column (non_text_columns columns) <->
  In column columns /\ PyStr.contains "text" (PyStr.lower (col_type column)) = false.
Proof.
  unfold non_text_columns. rewrite filter_In. unfold is_text_type.
  rewrite negb_true_iff. reflexivity.
Qed.

Lemma str_tuple_holds (row : list value) (v : value) :
  In v row -> PyStr.occurs (repr v) (str_tuple row).
Proof.
  intros Hin. unfold str_tuple.
  assert (Hjoin : PyStr.occurs (repr v) ("(" ++ PyStr.join ", " (map repr row) ++ ")")).
  { apply PyStrFacts.occurs_app_r, PyStrFacts.occurs_app_l, PyStrFacts.occurs_join.
    apply in_map. exact Hin. }
  destruct row as [| v1 [| v2 row]]; try exact Hjoin.
  destruct Hin as [-> | []].
  apply PyStrFacts.occurs_app_r, PyStrFacts.occurs_app_l, PyStrFacts.occurs_refl.
Qed.

(** X1. On a database whose table names are pairwise distinct and read back,
    the summary holds, for every table, a structural block built from
    the columns whose type does not contain "text" in any letter case, and
    from them alone, followed by the first-row line; when the table has a row
    that line is the tuple of the whole first row, so the value of every
    column, text or not, occurs in it. *)
Theorem summary_lists_non_text_and_whole_first_row :
  forall (w : world) (name : string) (t : table value),
    names_ok (conn w) ->
    In (name, t) (conn w) ->
    (exists pre post,
       snd (get_table_schemas_with_data w) =
       Ok (pre ++ (structural_block name (non_text_columns (tbl_columns t))
                   ++ first_row_line (hd_error (tbl_rows t))) ++ post))
    /\ (forall column,
          In column (non_text_columns (tbl_columns t)) <->
          In column (tbl_columns t)
          /\ PyStr.contains "text" (PyStr.lower (col_type column)) = false)
    /\ (forall row rest,
          tbl_rows t = row :: rest ->
          first_row_line (hd_error (tbl_rows t)) =
            "First Row Data: " ++ str_tuple row ++ PyStr.nl ++ PyStr.nl
          /\ forall i column v,
               nth_error (tbl_columns t) i = Some column ->
               nth_error row i = Some v ->
               PyStr.occurs (repr v) (str_tuple row)).
Proof.
  intros w name t Hok Hin.
  split; [apply summary_holds_block; assumption |].
  split; [intros column; apply non_text_columns_spec |].
  intros row rest Hrows. rewrite Hrows. split; [reflexivity |].
  intros i column v _ Hv. apply str_tuple_holds.
  apply nth_error_In in Hv. exact Hv.
Qed.

(** X2. On a database whose table names are pairwise distinct and read back,
    a table without rows still has its block in the summary: the
    header, the lines of the listed columns with the comma and line feed of
    the last one trimmed, the closing line, and a first-row line that reads
    [None]. *)
Theorem summary_of_empty_table :
  forall (w : world) (name : string) (t : table value),
    names_ok (conn w) ->
    In (name, t) (conn w) ->
    tbl_rows t = [] ->
    (exists pre post,
       snd (get_table_schemas_with_data w) =
       Ok (pre ++ ("CREATE TABLE " ++ name ++ " ("
                   ++ match non_text_columns (tbl_columns t) with
                      | [] => ""
                      | _ :: _ => PyStr.nl ++ trimmed_lines (non_text_columns (tbl_columns t))
                      end
                   ++ PyStr.nl ++ ");" ++ PyStr.nl ++ PyStr.nl
                   ++ "First Row Data: None" ++ PyStr.nl ++ PyStr.nl) ++ post))
    /\ (forall init column,
          non_text_columns (tbl_columns t) = (init ++ [column])%list ->
          PyStr.rstrip ("," ++ PyStr.nl) (col_type column) = col_type column ->
          lines_of (non_text_columns (tbl_columns t)) =
          trimmed_lines (non_text_columns (tbl_columns t)) ++ "," ++ PyStr.nl).
Proof.
  intros w name t Hok Hin Hrows.
  split.
  - destruct (@summary_holds_block w name t Hok Hin) as (pre & post & Hsum).
    exists pre, post. rewrite Hsum, Hrows.
    unfold structural_block, first_row_line. cbn [hd_error str_first_row].
    rewrite !PyStrFacts.app_assoc. reflexivity.
  - intros init column Hlisted Htype. rewrite Hlisted.
    apply trimmed_lines_last. exact Htype.
Qed.

(** ** The upload step *)

Lemma in_remove_table (entry : string * table value) (name : string) (s : store) :
  In entry (remove_table name s) -> In entry s /\ fst entry <> name.
Proof.
  unfold remove_table. rewrite filter_In, negb_true_iff, String.eqb_neq. auto.
Qed.

Lemma in_remove_tables (names : list string) :
  forall (s : store) (entry : string * table value),
    In entry (fold_left (fun s name => remove_table name s) names s) ->
    In entry s /\ ~ In (fst entry) names.
Proof.
  induction names as [| name names IH]; intros s entry Hin; cbn in *.
  - auto.
  - apply IH in Hin. destruct Hin as [Hin Hnot].
    apply in_remove_table in Hin. destruct Hin as [Hin Hne].
    split; [exact Hin |]. intros [Heq | Hin']; [congruence | contradiction].
Qed.

Lemma remove_every_table (s : store) :
  fold_left (fun s name => remove_table name s) (map fst s) s = [].
Proof.
  remember (fold_left (fun s name => remove_table name s) (map fst s) s) as left.
  destruct left as [| entry rest]; [reflexivity |].
  assert (Hin : In entry (fold_left (fun s name => remove_table name s) (map fst s) s))
    by (rewrite <- Heqleft; left; reflexivity).
  apply in_remove_tables in Hin. destruct Hin as [Hin Hnot].
  exfalso. apply Hnot. apply in_map. exact Hin.
Qed.

Lemma drop_loop (names : list string) :
  forall w : world,
    Forall (fun name => unquoted name = Ok name) names ->
    exists evs,
      for_each names (fun table_name => drop_table_if_exists table_name) w =
      ({| conn := fold_left (fun s name => remove_table name s) names (conn w);
          session := session w;
          trace := (trace w ++ evs)%list |}, Ok tt).
Proof.
  induction names as [| name names IH]; intros w Hnames.
  - exists []. cbn. unfold ret. rewrite app_nil_r. destruct w; reflexivity.
  - inversion Hnames as [| ? ? Hname Hrest]; subst.
    cbn [for_each]. unfold bind at 1. unfold drop_table_if_exists at 1.
    rewrite bind_emit, Hname. unfold bind at 1. unfold get_conn at 1.
    unfold put_conn at 1.
    destruct (IH {| conn := remove_table name (conn (add_events w
                       [CursorExecute ("DROP TABLE IF EXISTS " ++ name)]));
                    session := session (add_events w
                       [CursorExecute ("DROP TABLE IF EXISTS " ++ name)]);
                    trace := trace (add_events w
                       [CursorExecute ("DROP TABLE IF EXISTS " ++ name)]) |} Hrest)
      as [evs Hevs].
    rewrite Hevs. cbn.
    exists (CursorExecute ("DROP TABLE IF EXISTS " ++ name) :: evs).
    rewrite <- app_assoc. reflexivity.
Qed.

(** When every table name reads back, [drop_all_tables] returns and leaves
    an empty database. *)
Lemma drop_all_tables_ok (w : world) :
  droppable (conn w) ->
  exists evs,
    drop_all_tables w =
    ({| conn := []; session := session w; trace := (trace w ++ evs)%list |}, Ok tt).
Proof.
  intros Hdrop. unfold drop_all_tables.
  unfold bind at 1. rewrite select_table_names_eq.
  unfold bind at 1.
  destruct (drop_loop (names := map fst (conn w))
              (add_events w
                 [CursorExecute "SELECT name FROM sqlite_master WHERE type='table';"])
              Hdrop) as [evs Hevs].
  rewrite Hevs. unfold emit. cbn [conn session trace add_events].
  change (conn (add_events w _)) with (conn w).
  rewrite remove_every_table.
  eexists. rewrite <- !app_assoc. reflexivity.
Qed.

Lemma load_file_raises_csv (dataframes : list (string * DataFrame))
    (file : uploaded_file) (w : world) (e : exn) :
  pd_read_csv file = Raise e ->
  load_file dataframes file w = (add_events w [ReadCsv (file_name file)], Raise e).
Proof.
  intros Hcsv. unfold load_file, read_csv.
  unfold bind at 1. rewrite bind_emit, Hcsv. reflexivity.
Qed.

Lemma load_file_eq (dataframes : list (string * DataFrame))
    (file : uploaded_file) (w : world) (df : DataFrame) :
  pd_read_csv file = Ok df ->
  load_file dataframes file w =
    let w1 := add_events w [ReadCsv (file_name file); ToSql (table_name_of file)] in
    let created (t : table value) :=
      {| conn := (conn w ++ [(table_name_of file, t)])%list;
         session := session w;
         trace := trace w1 |} in
    match setup_error (table_name_of file)
            (tbl_columns (table_of_frame (rename_columns df))) with
    | Some e => (w1, Raise e)
    | None =>
        if has_table (table_name_of file) (conn w)
        then (w1, Raise (ValueError
                           ("Table '" ++ table_name_of file ++ "' already exists.")))
        else if name_taken (table_name_of file) (conn w)
        then (w1, Raise (OperationalError
                           ("table " ++ String PyStr.dquote (table_name_of file)
                              ++ String PyStr.dquote " already exists")))
        else match create_table_error (table_name_of file)
                     (tbl_columns (table_of_frame (rename_columns df))) with
             | Some e => (w1, Raise e)
             | None =>
                 match insert_error (table_name_of file) (rename_columns df) with
                 | Some e => (created (created_table (rename_columns df)), Raise e)
                 | None =>
                     (created (table_of_frame (rename_columns df)),
                      Ok (dict_set (file_name file) (rename_columns df) dataframes))
                 end
             end
    end.
Proof.
  intros Hcsv. unfold load_file, read_csv.
  unfold bind at 1. rewrite bind_emit, Hcsv.
  unfold to_sql. unfold bind at 1. rewrite bind_emit, add_events_app.
  destruct (setup_error _ _); [reflexivity |].
  unfold bind at 1. unfold get_conn at 1. cbn [conn add_events app].
  destruct (has_table (table_name_of file) (conn w)); [reflexivity |].
  destruct (name_taken (table_name_of file) (conn w)); [reflexivity |].
  destruct (create_table_error _ _); [reflexivity |].
  unfold bind at 1. unfold put_conn at 1. cbn [conn session trace].
  destruct (insert_error _ _); reflexivity.
Qed.

Lemma has_table_in (name : string) (s : store) :
  has_table name s = true <-> In name (map fst s).
Proof.
  unfold has_table. rewrite existsb_exists, in_map_iff. split.
  - intros (entry & Hin & Heq). apply String.eqb_eq in Heq. eauto.
  - intros (entry & Heq & Hin). exists entry. rewrite String.eqb_eq. auto.
Qed.

(** ** Names that SQLite takes for one another *)

Lemma name_taken_app (name : string) (s1 s2 : store) :
  name_taken name (s1 ++ s2)%list = name_taken name s1 || name_taken name s2.
Proof. apply existsb_app. Qed.

Lemma name_taken_in (name : string) (s : store) :
  name_taken name s = true <-> In (sqlite_key name) (map sqlite_key (map fst s)).
Proof.
  unfold name_taken. rewrite existsb_exists, map_map, in_map_iff. split.
  - intros (entry & Hin & Heq). apply String.eqb_eq in Heq. eauto.
  - intros (entry & Heq & Hin). exists entry. rewrite String.eqb_eq. auto.
Qed.

(** A table of that very name is a table that SQLite takes for it. *)
Lemma has_table_taken (name : string) (s : store) :
  name_taken name s = false -> has_table name s = false.
Proof.
  intros Hfree. destruct (has_table name s) eqn:Hhas; [| reflexivity].
  apply has_table_in in Hhas.
  assert (Htaken : name_taken name s = true).
  { apply name_taken_in. apply in_map. exact Hhas. }
  congruence.
Qed.

Lemma for_fold_app {A B} (xs ys : list A) (body : B -> A -> M value B) :
  forall (acc : B) (w : world),
    for_fold (xs ++ ys) acc body w =
    match for_fold xs acc body w with
    | (w1, Ok acc1) => for_fold ys acc1 body w1
    | (w1, Raise e) => (w1, Raise e)
    end.
Proof.
  induction xs as [| x xs IH]; intros acc w; cbn [app for_fold].
  - reflexivity.
  - unfold bind. destruct (body acc x w) as [w1 [acc1 | e]]; [apply IH | reflexivity].
Qed.

Lemma keeps_conn_bind {A B} (m : M value A) (k : A -> M value B) :
  keeps_conn m -> (forall a, keeps_conn (k a)) -> keeps_conn (bind m k).
Proof.
  intros Hm Hk w. unfold bind. specialize (Hm w).
  destruct (m w) as [w1 [a | e]]; cbn in *; [rewrite Hk |]; exact Hm.
Qed.

Lemma keeps_conn_emit (e : event value) : keeps_conn (emit e).
Proof. intros w. reflexivity. Qed.

Lemma keeps_conn_ret {A} (a : A) : keeps_conn (ret (value := value) a).
Proof. intros w. reflexivity. Qed.

Lemma keeps_conn_raise {A} (e : exn) : keeps_conn (raise (value := value) (A := A) e).
Proof. intros w. reflexivity. Qed.

Lemma keeps_conn_get_session : keeps_conn (get_session (value := value)).
Proof. intros w. reflexivity. Qed.

Lemma keeps_conn_put_session (ss : session_state value) : keeps_conn (put_session ss).
Proof. intros w. reflexivity. Qed.

Lemma keeps_conn_track (event_name : string) (props : list (string * prop_value)) :
  keeps_conn (track event_name props).
Proof.
  unfold track. apply keeps_conn_bind; [apply keeps_conn_get_session | intros ss].
  destruct (ss_session_id ss); [| apply keeps_conn_raise].
  apply keeps_conn_bind; [apply keeps_conn_emit | intros _ w; reflexivity].
Qed.

Lemma finish_upload_conn (finished : bool) (w : world) :
  conn (fst (finish_upload finished w)) = conn w.
Proof.
  revert w. change (keeps_conn (finish_upload finished)). unfold finish_upload.
  apply keeps_conn_bind; [apply keeps_conn_emit | intros _].
  apply keeps_conn_bind; [apply keeps_conn_get_session | intros ss].
  destruct (finished || _); [| apply keeps_conn_ret].
  destruct (ss_dataframes ss) as [[| entry rest] |]; try apply keeps_conn_emit.
  apply keeps_conn_bind; [apply keeps_conn_track | intros _].
  apply keeps_conn_bind; [apply keeps_conn_get_session | intros ss'].
  apply keeps_conn_put_session.
Qed.

Lemma loads_as_names (files : list uploaded_file) (created : store) :
  Forall2 loads_as files created -> map fst created = map table_name_of files.
Proof.
  induction 1 as [| file entry files created (df & _ & ->) _ IH]; cbn;
    [reflexivity | rewrite IH; reflexivity].
Qed.

Lemma loads_as_in (files : list uploaded_file) (created : store) (file : uploaded_file) :
  Forall2 loads_as files created ->
  In file files ->
  exists entry, In entry created /\ loads_as file entry.
Proof.
  induction 1 as [| file' entry files created Hentry _ IH]; cbn; [contradiction |].
  intros [-> | Hin].
  - exists entry. auto.
  - destruct (IH Hin) as (entry' & Hin' & Hentry'). exists entry'. auto.
Qed.

(** ** File names, column names and column types *)

(** X3. The table name of a file holds no dot; the file name is the table
    name, followed by nothing or by a dot and the rest; and any text without
    a dot that stands before a dot of the file name is the table name: the
    extension is not looked at, only the first dot. *)
Theorem table_name_of_first_dot :
  forall file : uploaded_file,
    PyStr.mem PyStr.dot (table_name_of file) = false
    /\ (exists rest,
          file_name file = table_name_of file ++ rest
          /\ (rest = "" \/ exists rest', rest = String PyStr.dot rest'))
    /\ (forall a b,
          PyStr.mem PyStr.dot a = false ->
          file_name file = a ++ String PyStr.dot b ->
          table_name_of file = a)
    /\ (PyStr.mem PyStr.dot (file_name file) = false ->
        table_name_of file = file_name file).
Proof.
  intros file. unfold table_name_of.
  split; [apply PyStrFacts.before_no_sep |].
  split; [apply PyStrFacts.before_split |].
  split.
  - intros a b Ha ->. apply PyStrFacts.before_unique. exact Ha.
  - apply PyStrFacts.before_without_sep.
Qed.

(** X4. Renaming the columns of a frame leaves no space in any column
    name, keeps the number and the kinds of the columns and the rows, changes
    nothing in a name without space, and renaming twice is renaming once. *)
Theorem rename_columns_no_space :
  forall df : DataFrame,
    Forall (fun c => PyStr.mem PyStr.space (fst c) = false)
           (df_columns (rename_columns df))
    /\ map snd (df_columns (rename_columns df)) = map snd (df_columns df)
    /\ df_rows (rename_columns df) = df_rows df
    /\ Forall2 (fun c c' =>
                  String.length (fst c') = String.length (fst c)
                  /\ (PyStr.mem PyStr.space (fst c) = false -> fst c' = fst c))
               (df_columns df) (df_columns (rename_columns df))
    /\ rename_columns (rename_columns df) = rename_columns df.
Proof.
  intros [columns rows]. unfold rename_columns. cbn [df_columns df_rows].
  split; [| split; [| split; [reflexivity | split]]].
  - apply Forall_forall. intros c Hc. apply in_map_iff in Hc.
    destruct Hc as (c0 & <- & _). cbn.
    apply PyStrFacts.replace_no_old. discriminate.
  - rewrite map_map. reflexivity.
  - induction columns as [| c columns IH]; cbn; constructor; [| exact IH].
    cbn. split; [apply PyStrFacts.replace_length | apply PyStrFacts.replace_without_old].
  - f_equal. rewrite map_map. apply map_ext. intros c. cbn [fst snd].
    rewrite PyStrFacts.replace_without_old; [reflexivity |].
    apply PyStrFacts.replace_no_old. discriminate.
Qed.

(** X5. A column type counts as text exactly when some part of it reads
    "text" once its letters are put in lower case. *)
Theorem is_text_type_any_case :
  forall column_type : string,
    is_text_type column_type = true <->
    exists a mid b,
      column_type = a ++ mid ++ b /\ PyStr.lower mid = "text".
Proof.
  intros column_type. unfold is_text_type. rewrite PyStrFacts.contains_occurs.
  unfold PyStr.occurs, PyStr.lower. split.
  - intros (pre & post & H).
    apply PyStrFacts.map_chars_app_inv in H. destruct H as (a & rest & -> & _ & H).
    apply PyStrFacts.map_chars_app_inv in H. destruct H as (mid & b & -> & Hmid & _).
    exists a, mid, b. auto.
  - intros (a & mid & b & -> & Hmid).
    exists (PyStr.map_chars PyStr.lower_char a), (PyStr.map_chars PyStr.lower_char b).
    rewrite !PyStrFacts.map_chars_app, Hmid. reflexivity.
Qed.

(** ** The executor, its query and its telemetry *)

Lemma events_since_app (w w' : world) (evs : list (event value)) :
  trace w' = (trace w ++ evs)%list -> events_since w w' = evs.
Proof.
  intros H. unfold events_since. rewrite H, skipn_app, skipn_all, Nat.sub_diag.
  reflexivity.
Qed.

(** The world [execute_sql_statement] leaves. *)
Lemma execute_sql_statement_world (sql : string) (w : world) :
  fst (execute_sql_statement sql w) =
  {| conn := fst (pd_read_sql_query sql (conn w));
     session := session w;
     trace :=
       (trace w ++
        ReadSqlQuery sql ::
        match ss_session_id (session w) with
        | None => []
        | Some sid =>
            [MpTrack sid "Run SQL Query"
               (run_query_properties
                  match snd (pd_read_sql_query sql (conn w)) with
                  | Ok df => negb (df_empty df)
                  | Raise _ => false
                  end)]
        end)%list |}.
Proof.
  unfold execute_sql_statement, read_sql_query, track, bind, get_session, emit, raise.
  destruct (pd_read_sql_query sql (conn w)) as [s' [df | e]]; cbn.
  - destruct (ss_session_id (session w)) as [sid |]; cbn; [| reflexivity].
    destruct (df_empty df); cbn;
      destruct (mp_track sid "Run SQL Query" _); cbn; rewrite <- app_assoc; reflexivity.
  - destruct (ss_session_id (session w)) as [sid |]; cbn; [| reflexivity].
    destruct (mp_track sid "Run SQL Query" _); cbn; rewrite <- app_assoc; reflexivity.
Qed.

(** X6. In a session with an identifier, the executor runs the statement
    once and sends one "Run SQL Query" event, whether the query or the
    telemetry call raises or not; the database is the one the query left,
    the session is unchanged, and the flag "Rows Returned" of the event is
    true exactly when the query returned a frame that is not empty, which is
    exactly when the executor, if it returns, returns a table. *)
Theorem execute_one_query_one_event :
  forall (w : world) (sql sid : string),
    ss_session_id (session w) = Some sid ->
    exists b : bool,
      events_since w (fst (execute_sql_statement sql w)) =
        [ReadSqlQuery sql; MpTrack sid "Run SQL Query" (run_query_properties b)]
      /\ conn (fst (execute_sql_statement sql w)) = fst (pd_read_sql_query sql (conn w))
      /\ session (fst (execute_sql_statement sql w)) = session w
      /\ (b = true <->
          exists df, snd (pd_read_sql_query sql (conn w)) = Ok df /\ df_empty df = false)
      /\ (forall r, snd (execute_sql_statement sql w) = Ok r ->
                    b = match r with Some _ => true | None => false end).
Proof.
  intros w sql sid Hsid.
  exists (match snd (pd_read_sql_query sql (conn w)) with
          | Ok df => negb (df_empty df)
          | Raise _ => false
          end).
  rewrite execute_sql_statement_world, execute_sql_statement_eq, Hsid.
  cbn [conn session trace].
  split; [apply events_since_app; reflexivity |].
  split; [reflexivity |]. split; [reflexivity |].
  destruct (snd (pd_read_sql_query sql (conn w))) as [df | e]; cbn.
  - split.
    + rewrite negb_true_iff. split; [intros H; exists df; auto |].
      intros (df' & Heq & H). inversion Heq; subst. exact H.
    + intros r. destruct (mp_track sid "Run SQL Query" _); [| discriminate].
      intros H. inversion H. destruct (negb (df_empty df)); reflexivity.
  - split.
    + split; [discriminate | intros (df' & Heq & _); discriminate].
    + intros r. destruct (mp_track sid "Run SQL Query" _); [| discriminate].
      intros H. inversion H. reflexivity.
Qed.

(** X7. In a session without an identifier the executor has run the
    statement, so the database is the one the query left, but it sends no
    event and raises the [KeyError] of the missing key, whatever the query
    returned. *)
Theorem execute_without_session_id :
  forall (w : world) (sql : string),
    ss_session_id (session w) = None ->
    snd (execute_sql_statement sql w) = Raise (KeyError "session_id")
    /\ events_since w (fst (execute_sql_statement sql w)) = [ReadSqlQuery sql]
    /\ conn (fst (execute_sql_statement sql w)) = fst (pd_read_sql_query sql (conn w)).
Proof.
  intros w sql Hsid.
  rewrite execute_sql_statement_world, execute_sql_statement_eq, Hsid.
  cbn [conn session trace].
  split; [reflexivity |].
  split; [apply events_since_app; reflexivity | reflexivity].
Qed.

(** ** The summary: what it reads and where it stops *)

Lemma reader_world {A} (P : event value -> bool) (m : M value A) (w : world) :
  reader P m ->
  exists evs, fst (m w) = add_events w evs /\ forallb P evs = true.
Proof. intros H. destruct (H w) as [Hw _]. exact Hw. Qed.

(** X8. The summary only reads: whether it returns or raises, it leaves
    the database and the session as they were, the statements it runs all go
    through the cursor, and its result depends on the database alone. *)
Theorem get_table_schemas_with_data_reads_only :
  forall w : world,
    conn (fst (get_table_schemas_with_data w)) = conn w
    /\ session (fst (get_table_schemas_with_data w)) = session w
    /\ forallb is_cursor (events_since w (fst (get_table_schemas_with_data w))) = true
    /\ (forall w' : world,
          conn w' = conn w ->
          snd (get_table_schemas_with_data w') = snd (get_table_schemas_with_data w)).
Proof.
  intros w. destruct (reader_get_table_schemas_with_data w) as [(evs & Hfst & Hevs) Hsnd].
  rewrite Hfst, events_since_add. cbn [conn session add_events]. auto.
Qed.

(** On a database without table the summary is the empty text, and the
    listing of the tables is the only statement run. *)
Lemma summary_of_no_table :
  forall w : world,
    conn w = [] ->
    get_table_schemas_with_data w =
      (add_events w [CursorExecute "SELECT name FROM sqlite_master WHERE type='table';"],
       Ok "").
Proof.
  intros w Hconn. unfold get_table_schemas_with_data.
  unfold bind at 1. rewrite select_table_names_eq, Hconn. reflexivity.
Qed.

(** X9. The summary stops at the first table whose name SQLite rejects,
    in the [PRAGMA] or in the first-row query: it raises that exception and
    returns no text, whatever the tables before it and after it are. *)
Theorem summary_raises_at_rejected_name :
  forall (w : world) (s1 s2 : store) (name : string) (t : table value) (e : exn),
    conn w = (s1 ++ (name, t) :: s2)%list ->
    NoDup (map fst (conn w)) ->
    Forall reads_back (map fst s1) ->
    quoted name = Raise e \/ ((exists name', quoted name = Ok name') /\ unquoted name = Raise e) ->
    snd (get_table_schemas_with_data w) = Raise e.
Proof.
  intros w s1 s2 name t e Hconn Hnd Hread Hrej.
  unfold get_table_schemas_with_data.
  unfold bind at 1. rewrite select_table_names_eq, Hconn, map_app. cbn [map fst].
  rewrite for_fold_app.
  set (body := fun (schemas_with_data table_name : string) =>
                 columns <- pragma_table_info table_name ;;
                 first_row_data <- select_first_row table_name ;;
                 ret (schemas_with_data ++ table_block table_name columns first_row_data)).
  set (w0 := add_events w _).
  assert (Hloop : snd (for_fold (map fst s1) "" body w0) = Ok ("" ++ summary_of s1)).
  { apply summary_loop. intros name' t' Hin. cbn [conn add_events w0]. split.
    - apply lookup_table_in; [exact Hnd |]. rewrite Hconn. apply in_or_app. auto.
    - rewrite Forall_forall in Hread. apply Hread. apply (in_map fst) in Hin. exact Hin. }
  assert (Hreader : reader is_cursor (for_fold (map fst s1) "" body)).
  { apply reader_for_fold. intros acc n. unfold body.
    apply reader_bind; [apply reader_pragma_table_info | intros columns].
    apply reader_bind; [apply reader_select_first_row | intros row].
    apply reader_ret. }
  destruct (reader_world w0 Hreader) as (evs & Hfst & _).
  destruct (for_fold (map fst s1) "" body w0) as [w1 r]; cbn [fst snd] in Hloop, Hfst.
  subst w1 r. cbn [for_fold]. unfold bind at 1. unfold body at 1.
  unfold bind at 1. unfold pragma_table_info at 1. rewrite bind_emit.
  destruct Hrej as [Hq | [(name' & Hq) Hu]]; rewrite Hq; [reflexivity |].
  unfold bind at 1. unfold get_conn at 1. unfold ret at 1.
  unfold bind at 1. unfold select_first_row at 1. rewrite bind_emit, Hu. reflexivity.
Qed.

(** ** drop_all_tables, statement by statement *)

Lemma remove_table_absent (name : string) (s : store) :
  ~ In name (map fst s) -> remove_table name s = s.
Proof.
  unfold remove_table. induction s as [| [n t] s IH]; cbn; [reflexivity |].
  intros Hnot. destruct (String.eqb_spec n name) as [-> | Hne]; cbn.
  - exfalso. apply Hnot. left. reflexivity.
  - rewrite IH; [reflexivity |]. intros Hin. apply Hnot. right. exact Hin.
Qed.

Lemma remove_tables_prefix (s1 rest : store) :
  NoDup (map fst (s1 ++ rest)%list) ->
  fold_left (fun s name => remove_table name s) (map fst s1) (s1 ++ rest)%list = rest.
Proof.
  induction s1 as [| [n t] s1 IH]; cbn [map fst app fold_left]; [reflexivity |].
  intros Hnd. inversion Hnd as [| ? ? Hnot Hnd']; subst.
  unfold remove_table at 2. cbn [filter fst]. rewrite String.eqb_refl. cbn [negb].
  fold (remove_table n (s1 ++ rest)%list).
  rewrite remove_table_absent by exact Hnot. apply IH. exact Hnd'.
Qed.

Lemma drop_loop_trace (names : list string) :
  forall w : world,
    Forall (fun name => unquoted name = Ok name) names ->
    for_each names (fun table_name => drop_table_if_exists table_name) w =
    ({| conn := fold_left (fun s name => remove_table name s) names (conn w);
        session := session w;
        trace := (trace w ++ map drop_statement names)%list |}, Ok tt).
Proof.
  induction names as [| name names IH]; intros w Hnames.
  - cbn. unfold ret. rewrite app_nil_r. destruct w; reflexivity.
  - inversion Hnames as [| ? ? Hname Hrest]; subst.
    cbn [for_each]. unfold bind at 1. unfold drop_table_if_exists at 1.
    rewrite bind_emit, Hname. unfold bind at 1. unfold get_conn at 1.
    unfold put_conn at 1. rewrite (IH _ Hrest). cbn.
    rewrite <- app_assoc. reflexivity.
Qed.

Lemma for_each_app {A} (xs ys : list A) (body : A -> M value unit) (w : world) :
  for_each (xs ++ ys) body w =
  match for_each xs body w with
  | (w1, Ok _) => for_each ys body w1
  | (w1, Raise e) => (w1, Raise e)
  end.
Proof.
  revert w. induction xs as [| x xs IH]; intros w; cbn [app for_each].
  - reflexivity.
  - unfold bind. destruct (body x w) as [w1 [[] | e]]; [apply IH | reflexivity].
Qed.

(** X10. On a database whose table names read back, [drop_all_tables]
    lists the tables, runs one [DROP TABLE IF EXISTS] per table in the order
    of the listing, commits once, and leaves the database empty and the
    session unchanged. *)
Theorem drop_all_tables_one_statement_per_table :
  forall w : world,
    droppable (conn w) ->
    drop_all_tables w =
      ({| conn := [];
          session := session w;
          trace :=
            (trace w ++
             CursorExecute "SELECT name FROM sqlite_master WHERE type='table';"
             :: map drop_statement (map fst (conn w)) ++ [ConnCommit])%list |},
       Ok tt).
Proof.
  intros w Hdrop. unfold drop_all_tables.
  unfold bind at 1. rewrite select_table_names_eq.
  unfold bind at 1. rewrite drop_loop_trace by exact Hdrop.
  change (conn (add_events w _)) with (conn w).
  rewrite remove_every_table. unfold emit. cbn.
  rewrite <- !app_assoc. reflexivity.
Qed.

(** X11. [drop_all_tables] stops at the first table whose name SQLite
    rejects: it raises that exception without committing, the tables listed
    before that one are dropped, and that table and the tables after it are
    still in the database. *)
Theorem drop_all_tables_stops_at_rejected_name :
  forall (w : world) (s1 s2 : store) (name : string) (t : table value) (e : exn),
    conn w = (s1 ++ (name, t) :: s2)%list ->
    NoDup (map fst (conn w)) ->
    droppable s1 ->
    unquoted name = Raise e ->
    drop_all_tables w =
      ({| conn := (name, t) :: s2;
          session := session w;
          trace :=
            (trace w ++
             CursorExecute "SELECT name FROM sqlite_master WHERE type='table';"
             :: map drop_statement (map fst s1) ++ [drop_statement name])%list |},
       Raise e).
Proof.
  intros w s1 s2 name t e Hconn Hnd Hdrop Hrej. unfold drop_all_tables.
  unfold bind at 1. rewrite select_table_names_eq, Hconn, map_app. cbn [map fst].
  unfold bind at 1. rewrite for_each_app, drop_loop_trace by exact Hdrop.
  cbn [for_each]. unfold bind at 1. unfold drop_table_if_exists at 1.
  rewrite bind_emit, Hrej. cbn [conn session trace add_events].
  rewrite Hconn in Hnd |- *. rewrite remove_tables_prefix by exact Hnd.
  unfold raise, add_events, drop_statement. cbn [conn session trace].
  rewrite <- !app_assoc. reflexivity.
Qed.

(** ** The upload step without upload *)

Lemma leaves_data_bind {A B} (m : M value A) (k : A -> M value B) :
  leaves_data m -> (forall a, leaves_data (k a)) -> leaves_data (bind m k).
Proof.
  intros Hm Hk w. unfold bind.
  destruct (Hm w) as (Hc & Hd & Hs & evs & Ht & Hevs).
  destruct (m w) as [w1 [a | e]]; cbn [fst] in *.
  - destruct (Hk a w1) as (Hc' & Hd' & Hs' & evs' & Ht' & Hevs').
    rewrite Hc', Hd', Hs', Ht', Ht, Hc, Hd, Hs.
    repeat split; auto. exists (evs ++ evs')%list.
    rewrite forallb_app, Hevs, Hevs', app_assoc. auto.
  - repeat split; auto. exists evs. auto.
Qed.

Lemma leaves_data_emit (e : event value) :
  is_sql e = false -> is_read_csv e = false -> leaves_data (emit e).
Proof.
  intros H1 H2 w. cbn. repeat split; auto. exists [e]. cbn. rewrite H1, H2. auto.
Qed.

Lemma leaves_data_ret {A} (a : A) : leaves_data (ret (value := value) a).
Proof. intros w. cbn. repeat split; auto. exists []. rewrite app_nil_r. auto. Qed.

Lemma leaves_data_raise {A} (e : exn) : leaves_data (raise (value := value) (A := A) e).
Proof. intros w. cbn. repeat split; auto. exists []. rewrite app_nil_r. auto. Qed.

Lemma leaves_data_get_session : leaves_data (get_session (value := value)).
Proof. intros w. cbn. repeat split; auto. exists []. rewrite app_nil_r. auto. Qed.

(** Reading the session and writing it back with other keys changed. *)
Lemma leaves_data_update (f : session_state value -> session_state value) :
  (forall ss, ss_dataframes (f ss) = ss_dataframes ss /\ ss_conn (f ss) = ss_conn ss) ->
  leaves_data (bind get_session (fun ss => put_session (f ss))).
Proof.
  intros Hf w. cbn. destruct (Hf (session w)) as [Hd Hs].
  repeat split; auto. exists []. rewrite app_nil_r. auto.
Qed.

Lemma leaves_data_track (event_name : string) (props : list (string * prop_value)) :
  leaves_data (track event_name props).
Proof.
  unfold track. apply leaves_data_bind; [apply leaves_data_get_session | intros ss].
  destruct (ss_session_id ss); [| apply leaves_data_raise].
  apply leaves_data_bind; [apply leaves_data_emit; reflexivity |].
  intros _ w. cbn. repeat split; auto. exists []. rewrite app_nil_r. auto.
Qed.

Lemma leaves_data_finish_upload (finished : bool) : leaves_data (finish_upload finished).
Proof.
  unfold finish_upload.
  apply leaves_data_bind; [apply leaves_data_emit; reflexivity | intros _].
  apply leaves_data_bind; [apply leaves_data_get_session | intros ss].
  destruct (finished || _); [| apply leaves_data_ret].
  destruct (ss_dataframes ss) as [[| entry rest] |];
    try (apply leaves_data_emit; reflexivity).
  apply leaves_data_bind; [apply leaves_data_track | intros _].
  apply (leaves_data_update (fun ss => set_upload_completed false (set_step 2 ss))).
  intros ss'. split; reflexivity.
Qed.

(** X12. With no file in the uploader, [step_1] reads no file and runs no
    statement: the database, the uploaded frames and the connection kept in
    the session are what they were, whether or not the button is pressed. *)
Theorem step_1_without_upload_keeps_tables :
  forall (w : world) (finished : bool),
    conn (fst (step_1 [] finished w)) = conn w
    /\ ss_dataframes (session (fst (step_1 [] finished w))) = ss_dataframes (session w)
    /\ ss_conn (session (fst (step_1 [] finished w))) = ss_conn (session w)
    /\ forallb (fun e => negb (is_sql e) && negb (is_read_csv e))
         (events_since w (fst (step_1 [] finished w))) = true.
Proof.
  intros w finished.
  assert (Hrun : exists w0,
             step_1 [] finished w = finish_upload finished w0
             /\ conn w0 = conn w
             /\ ss_dataframes (session w0) = ss_dataframes (session w)
             /\ ss_conn (session w0) = ss_conn (session w)
             /\ trace w0 = (trace w ++ [StTitle "Step 1/2: Upload CSV Files";
                                        StFileUploader "Upload CSV Files"])%list).
  { unfold step_1. rewrite !bind_emit, add_events_app, bind_get_session.
    cbn [session add_events app].
    destruct (ss_upload_completed (session w)); eexists;
      (split; [reflexivity |]); cbn; auto. }
  destruct Hrun as (w0 & -> & Hc & Hd & Hs & Ht).
  destruct (leaves_data_finish_upload finished w0) as (Hc' & Hd' & Hs' & evs & Ht' & Hevs).
  rewrite Hc', Hd', Hs', Hc, Hd, Hs. repeat split; auto.
  rewrite (@events_since_app w _ (StTitle "Step 1/2: Upload CSV Files"
                                   :: StFileUploader "Upload CSV Files" :: evs)).
  - cbn. exact Hevs.
  - rewrite Ht', Ht, <- app_assoc. reflexivity.
Qed.

(** X13. When the button is pressed with no file in the uploader and no
    frame in the session (the key is absent or the dict is empty), [step_1]
    shows the warning that asks for a file, sends no event to Mixpanel and
    leaves the step of the session as it was. *)
Theorem step_1_finished_without_frames_warns :
  forall w : world,
    ss_dataframes (session w) = None \/ ss_dataframes (session w) = Some [] ->
    snd (step_1 [] true w) = Ok tt
    /\ events_since w (fst (step_1 [] true w)) =
         [StTitle "Step 1/2: Upload CSV Files"; StFileUploader "Upload CSV Files";
          StButton "Finished Uploading Data";
          StWarning "Please upload at least one CSV file to proceed."]
    /\ ss_step (session (fst (step_1 [] true w))) = ss_step (session w)
    /\ conn (fst (step_1 [] true w)) = conn w.
Proof.
  intros w Hframes.
  assert (Hrun : exists ss,
             step_1 [] true w =
               ({| conn := conn w; session := ss;
                   trace := (trace w ++
                             [StTitle "Step 1/2: Upload CSV Files";
                              StFileUploader "Upload CSV Files";
                              StButton "Finished Uploading Data";
                              StWarning "Please upload at least one CSV file to proceed."])%list |},
                Ok tt)
             /\ ss_step ss = ss_step (session w)).
  { unfold step_1, finish_upload.
    rewrite !bind_emit, add_events_app, bind_get_session. cbn [session add_events app].
    destruct (ss_upload_completed (session w)) as [b |];
      unfold bind, ret, put_session, get_session, emit; cbn;
      destruct Hframes as [-> | ->]; cbn; rewrite <- ?app_assoc; cbn;
      eexists; split; reflexivity. }
  destruct Hrun as (ss & -> & Hstep). cbn [fst snd conn session].
  repeat split; auto. apply events_since_app. reflexivity.
Qed.

(** ** The upload step after a load *)

Lemma dict_set_fresh {V} (k : string) (v : V) (d : list (string * V)) :
  ~ In k (map fst d) -> dict_set k v d = (d ++ [(k, v)])%list.
Proof.
  induction d as [| [k' v'] d IH]; cbn; [reflexivity |].
  intros Hnot. destruct (String.eqb_spec k' k) as [-> | Hne].
  - exfalso. apply Hnot. left. reflexivity.
  - rewrite IH; [reflexivity |]. intros Hin. apply Hnot. right. exact Hin.
Qed.

Lemma file_names_distinct (files : list uploaded_file) :
  NoDup (map table_key files) -> NoDup (map file_name files).
Proof.
  intros Hnd. apply (NoDup_map_inv (fun name => sqlite_key (PyStr.before PyStr.dot name))).
  rewrite map_map. exact Hnd.
Qed.

Lemma table_names_distinct (files : list uploaded_file) :
  NoDup (map table_key files) -> NoDup (map table_name_of files).
Proof.
  intros Hnd. apply (NoDup_map_inv sqlite_key). rewrite map_map. exact Hnd.
Qed.

(** The loop over loadable files with distinct names, with its frames. *)
Lemma load_loop_frames (files : list uploaded_file) :
  forall (w : world) (dataframes : list (string * DataFrame)),
    Forall loadable files ->
    NoDup (map table_key files) ->
    (forall file, In file files -> name_taken (table_name_of file) (conn w) = false) ->
    NoDup (map fst dataframes ++ map file_name files)%list ->
    exists created frames evs,
      for_fold files dataframes load_file w =
        ({| conn := (conn w ++ created)%list; session := session w;
            trace := (trace w ++ evs)%list |},
         Ok (dataframes ++ frames)%list)
      /\ Forall2 loads_as files created
      /\ Forall2 frame_of files frames
      /\ forallb (fun ev => is_read_csv ev || is_sql ev) evs = true.
Proof.
  induction files as [| file files IH]; intros w dataframes Hload Hnd Hfresh Hkeys.
  - exists [], [], []. cbn. unfold ret. rewrite !app_nil_r.
    destruct w; repeat split; constructor.
  - inversion Hload as [| ? ? (df & Hcsv & Hsetup & Hcreate & Hinsert) Hload']; subst.
    inversion Hnd as [| ? ? Hnotin Hnd']; subst.
    cbn [for_fold]. unfold bind at 1.
    rewrite (load_file_eq dataframes file w Hcsv). cbv zeta. rewrite Hsetup.
    rewrite (has_table_taken _ _ (Hfresh file (or_introl eq_refl))).
    rewrite (Hfresh file (or_introl eq_refl)), Hcreate, Hinsert.
    assert (Hkey : ~ In (file_name file) (map fst dataframes)).
    { intros Hin. cbn [map] in Hkeys. apply NoDup_remove_2 in Hkeys.
      apply Hkeys. apply in_or_app. left. exact Hin. }
    rewrite (dict_set_fresh _ _ _ Hkey).
    match goal with
    | |- context [for_fold files ?d load_file ?w1] =>
        destruct (IH w1 d Hload' Hnd')
          as (created & frames & evs & Hrun & Hc & Hf & Hevs)
    end.
    + intros file' Hin'. cbn [conn].
      rewrite name_taken_app, (Hfresh file' (or_intror Hin')).
      cbn. rewrite orb_false_r. apply String.eqb_neq.
      intros Heq. apply Hnotin.
      change (table_key file = table_key file') in Heq. rewrite Heq.
      apply (in_map table_key). exact Hin'.
    + rewrite map_app. cbn [map fst]. rewrite <- app_assoc. exact Hkeys.
    + exists ((table_name_of file, table_of_frame (rename_columns df)) :: created),
             ((file_name file, rename_columns df) :: frames),
             (ReadCsv (file_name file) :: ToSql (table_name_of file) :: evs).
      rewrite Hrun. cbn [conn session trace add_events].
      rewrite <- !app_assoc. cbn [app].
      split; [reflexivity |].
      split; [constructor; [exists df |]; auto |].
      split; [constructor; [exists df |]; auto |].
      cbn. exact Hevs.
Qed.

(** The events of [drop_all_tables] all reach the database. *)
Lemma drop_all_tables_sql (w : world) :
  droppable (conn w) ->
  exists evs,
    drop_all_tables w =
    ({| conn := []; session := session w; trace := (trace w ++ evs)%list |}, Ok tt)
    /\ forallb is_sql evs = true.
Proof.
  intros Hdrop. unfold drop_all_tables.
  unfold bind at 1. rewrite select_table_names_eq.
  unfold bind at 1. rewrite drop_loop_trace by exact Hdrop.
  change (conn (add_events w _)) with (conn w).
  rewrite remove_every_table. unfold emit. cbn.
  eexists. split; [rewrite <- !app_assoc; reflexivity |].
  cbn. rewrite forallb_app. cbn. rewrite andb_true_r.
  induction (map fst (conn w)) as [| name names IH]; [reflexivity | exact IH].
Qed.

(** [load_batch] on a database that can be dropped, with loadable files of
    distinct table names. *)
Lemma load_batch_completed (files : list uploaded_file) (w : world) :
  droppable (conn w) ->
  Forall loadable files ->
  NoDup (map table_key files) ->
  exists created frames evs,
    load_batch files w =
      ({| conn := created;
          session := set_upload_completed true (set_uploaded frames (session w));
          trace := (trace w ++ evs)%list |}, Ok tt)
    /\ Forall2 loads_as files created
    /\ Forall2 frame_of files frames.
Proof.
  intros Hdrop Hload Hnd. unfold load_batch.
  destruct (drop_all_tables_ok w Hdrop) as [evs0 Hevs0].
  unfold bind at 1. rewrite Hevs0.
  destruct (@load_loop_frames files
              {| conn := []; session := session w; trace := (trace w ++ evs0)%list |}
              [] Hload Hnd)
    as (created & frames & evs & Hrun & Hc & Hf & _).
  - intros file _. reflexivity.
  - cbn [map app]. apply file_names_distinct. exact Hnd.
  - unfold bind at 1. rewrite Hrun. cbn [conn session trace app].
    exists created, frames. eexists. split; [| auto].
    unfold bind, get_session, put_session. cbn [conn session trace].
    rewrite <- app_assoc. reflexivity.
Qed.

Lemma finish_upload_with_frames (finished : bool) (w : world)
    (frames : list (string * DataFrame)) (sid : string) :
  finished = true \/ ss_upload_completed (session w) = Some true ->
  ss_dataframes (session w) = Some frames ->
  frames <> [] ->
  ss_session_id (session w) = Some sid ->
  finish_upload finished w =
    match mp_track sid "Upload CSV files" (upload_properties (List.length frames)) with
    | Ok _ =>
        ({| conn := conn w;
            session := set_upload_completed false (set_step 2 (session w));
            trace := (trace w ++
                      [StButton "Finished Uploading Data";
                       MpTrack sid "Upload CSV files"
                         (upload_properties (List.length frames))])%list |}, Ok tt)
    | Raise e =>
        (add_events w [StButton "Finished Uploading Data";
                       MpTrack sid "Upload CSV files"
                         (upload_properties (List.length frames))], Raise e)
    end.
Proof.
  intros Hgo Hframes Hne Hsid. unfold finish_upload.
  rewrite bind_emit, bind_get_session. cbn [session add_events].
  assert (Hcond : finished
                  || match ss_upload_completed (session w) with
                     | Some b => b
                     | None => false
                     end = true).
  { destruct Hgo as [-> | ->]; [reflexivity | apply orb_true_r]. }
  rewrite Hcond, Hframes. destruct frames as [| entry rest]; [congruence |].
  unfold bind at 1. unfold track at 1. rewrite bind_get_session.
  cbn [session add_events]. rewrite Hsid. rewrite bind_emit, add_events_app.
  fold (upload_properties (List.length (entry :: rest))).
  destruct (mp_track sid "Upload CSV files" _); reflexivity.
Qed.

Lemma events_since_extended (w : world) (evs : list (event value)) (c : store)
    (ss : session_state value) :
  events_since w {| conn := c; session := ss; trace := (trace w ++ evs)%list |} = evs.
Proof.
  unfold events_since. cbn [trace]. rewrite skipn_app, skipn_all, Nat.sub_diag.
  reflexivity.
Qed.

(** [step_1] on a batch that loads: what is left to do is the button, on
    a world that holds the tables and the frames of the batch. *)
Lemma step_1_after_load (files : list uploaded_file) (finished : bool) (w : world) :
  files <> [] ->
  droppable (conn w) ->
  Forall loadable files ->
  NoDup (map table_key files) ->
  exists created frames evs,
    step_1 files finished w =
      finish_upload finished
        {| conn := created;
           session := set_upload_completed true (set_uploaded frames (session w));
           trace := (trace w ++ evs)%list |}
    /\ Forall2 loads_as files created
    /\ Forall2 frame_of files frames.
Proof.
  intros Hfiles Hdrop Hload Hnd.
  destruct files as [| file files]; [congruence |].
  unfold step_1. rewrite !bind_emit, bind_get_session.
  set (w0 := add_events (add_events w [StTitle "Step 1/2: Upload CSV Files"])
               [StFileUploader "Upload CSV Files"]).
  assert (Hprelude : exists ss0,
             set_upload_completed true ss0 = set_upload_completed true (session w)
             /\ ss_session_id ss0 = ss_session_id (session w)
             /\ ss_api_key ss0 = ss_api_key (session w)
             /\ ss_step ss0 = ss_step (session w)
             /\ (match ss_upload_completed (session w0) with
                 | None => put_session (set_upload_completed false (session w0))
                 | Some _ => ret tt
                 end) w0 =
                ({| conn := conn w; session := ss0; trace := trace w0 |}, Ok tt)).
  { destruct w as [c ss tr]. cbn in *.
    destruct (ss_upload_completed ss) eqn:Hc;
      [exists ss | exists (set_upload_completed false ss)];
      repeat split. }
  destruct Hprelude as (ss0 & Hss0 & Hsid0 & Hkey0 & Hstep0 & Hrun0).
  unfold bind at 1. rewrite Hrun0.
  destruct (@load_batch_completed (file :: files)
              {| conn := conn w; session := ss0; trace := trace w0 |}
              Hdrop Hload Hnd)
    as (created & frames & evs & Hrun & Hc & Hf).
  unfold bind at 1. rewrite Hrun. cbn [conn session trace].
  exists created, frames. eexists. split; [| auto].
  f_equal. f_equal.
  - unfold set_upload_completed, set_uploaded. cbn.
    rewrite Hsid0, Hkey0, Hstep0. reflexivity.
  - unfold w0. cbn [trace add_events]. rewrite <- !app_assoc. reflexivity.
Qed.

(** X14. A batch that loads takes the session to the second step in the same
    run, whether the button was pressed or not: [step_1] sets
    [upload_completed] after the loop and tests it at line 117.  Mixpanel
    receives the number of files, the session holds one frame per file
    under the file's name, and [upload_completed] is back to [False]. *)
Theorem step_1_completed_load_moves_to_step_2 :
  forall (files : list uploaded_file) (finished : bool) (w : world) (sid : string),
    files <> [] ->
    droppable (conn w) ->
    Forall loadable files ->
    NoDup (map table_key files) ->
    ss_session_id (session w) = Some sid ->
    mp_track sid "Upload CSV files" (upload_properties (List.length files)) = Ok tt ->
    snd (step_1 files finished w) = Ok tt
    /\ ss_step (session (fst (step_1 files finished w))) = Some 2
    /\ ss_upload_completed (session (fst (step_1 files finished w))) = Some false
    /\ (exists frames,
          ss_dataframes (session (fst (step_1 files finished w))) = Some frames
          /\ Forall2 frame_of files frames)
    /\ In (MpTrack sid "Upload CSV files" (upload_properties (List.length files)))
          (events_since w (fst (step_1 files finished w))).
Proof.
  intros files finished w sid Hfiles Hdrop Hload Hnd Hsid Htrack.
  destruct (@step_1_after_load files finished w Hfiles Hdrop Hload Hnd)
    as (created & frames & evs & Hrun & Hc & Hf).
  rewrite Hrun.
  assert (Hlen : List.length frames = List.length files)
    by (symmetry; exact (Forall2_length Hf)).
  rewrite (@finish_upload_with_frames finished _ frames sid);
    cbn [conn session trace set_upload_completed set_uploaded
         ss_upload_completed ss_dataframes ss_session_id]; auto.
  - rewrite Hlen, Htrack. cbn [fst snd session].
    split; [reflexivity |]. split; [reflexivity |]. split; [reflexivity |].
    split; [exists frames; split; [reflexivity | exact Hf] |].
    rewrite <- app_assoc, events_since_extended.
    apply in_or_app. right. right. left. reflexivity.
  - intros ->. inversion Hf; subst. congruence.
Qed.

(** X15. When the call to Mixpanel raises after a batch has loaded, [step_1]
    raises with the tables of the batch in the database: the exception
    leaves line 119 before the step is set, so the session stays on its
    step with [upload_completed] still [True]. *)
Theorem step_1_telemetry_failure_after_load :
  forall (files : list uploaded_file) (finished : bool) (w : world) (sid : string)
         (e : exn),
    files <> [] ->
    droppable (conn w) ->
    Forall loadable files ->
    NoDup (map table_key files) ->
    ss_session_id (session w) = Some sid ->
    mp_track sid "Upload CSV files" (upload_properties (List.length files)) = Raise e ->
    snd (step_1 files finished w) = Raise e
    /\ Forall2 loads_as files (conn (fst (step_1 files finished w)))
    /\ ss_step (session (fst (step_1 files finished w))) = ss_step (session w)
    /\ ss_upload_completed (session (fst (step_1 files finished w))) = Some true.
Proof.
  intros files finished w sid e Hfiles Hdrop Hload Hnd Hsid Htrack.
  destruct (@step_1_after_load files finished w Hfiles Hdrop Hload Hnd)
    as (created & frames & evs & Hrun & Hc & Hf).
  rewrite Hrun.
  assert (Hlen : List.length frames = List.length files)
    by (symmetry; exact (Forall2_length Hf)).
  rewrite (@finish_upload_with_frames finished _ frames sid);
    cbn [conn session trace set_upload_completed set_uploaded
         ss_upload_completed ss_dataframes ss_session_id]; auto.
  - rewrite Hlen, Htrack. cbn [fst snd session conn add_events
                               set_upload_completed set_uploaded
                               ss_step ss_upload_completed].
    repeat split; auto.
  - intros ->. inversion Hf; subst. congruence.
Qed.

(** ** Running the page again *)

Lemma loads_as_functional (files : list uploaded_file) :
  forall created created' : store,
    Forall2 loads_as files created ->
    Forall2 loads_as files created' ->
    created = created'.
Proof.
  induction files as [| file files IH]; intros created created' H H'.
  - inversion H; inversion H'; reflexivity.
  - inversion H as [| ? entry ? rest (df & Hcsv & ->) Hrest]; subst.
    inversion H' as [| ? entry' ? rest' (df' & Hcsv' & ->) Hrest']; subst.
    rewrite Hcsv in Hcsv'. inversion Hcsv'; subst.
    rewrite (IH rest rest' Hrest Hrest'). reflexivity.
Qed.

(** X16. Streamlit runs the script again at every interaction, and while the
    files stay in the uploader every run drops the tables and loads the
    files again.  When the table names of the files read back in the [DROP]
    statement, the second run leaves the database of the first one. *)
Theorem step_1_again_rebuilds_same_tables :
  forall (files : list uploaded_file) (finished finished' : bool) (w : world),
    files <> [] ->
    droppable (conn w) ->
    Forall loadable files ->
    NoDup (map table_key files) ->
    Forall (fun file => unquoted (table_name_of file) = Ok (table_name_of file)) files ->
    conn (fst (step_1 files finished' (fst (step_1 files finished w)))) =
    conn (fst (step_1 files finished w))
    /\ Forall2 loads_as files (conn (fst (step_1 files finished w))).
Proof.
  intros files finished finished' w Hfiles Hdrop Hload Hnd Hnames.
  destruct (@step_1_after_load files finished w Hfiles Hdrop Hload Hnd)
    as (created & frames & evs & Hrun & Hc & Hf).
  assert (Hconn : conn (fst (step_1 files finished w)) = created)
    by (rewrite Hrun, finish_upload_conn; reflexivity).
  assert (Hdrop' : droppable (conn (fst (step_1 files finished w)))).
  { rewrite Hconn. unfold droppable. rewrite (loads_as_names Hc).
    rewrite Forall_map. exact Hnames. }
  destruct (@step_1_after_load files finished' (fst (step_1 files finished w))
              Hfiles Hdrop' Hload Hnd)
    as (created' & frames' & evs' & Hrun' & Hc' & Hf').
  rewrite Hrun', finish_upload_conn, Hconn. cbn [conn].
  split; [apply (loads_as_functional Hc' Hc) | exact Hc].
Qed.

(** ** The answer of step_2 *)

(** [step_2] up to the call of the generator, when the summary returns. *)
Lemma step_2_asks_generator (w : world) (question schemas : string) :
  PyStr.truthy (get_api_key (session w)) = true ->
  ss_conn (session w) = true ->
  snd (get_table_schemas_with_data w) = Ok schemas ->
  exists evs,
    forallb is_cursor evs = true
    /\ step_2 question true w =
       (sql_statement <- (fun w => (w, generate_sql_statement question schemas)) ;;
        if sql_truthy sql_statement
        then
          let sql_text := match sql_statement with Some s => s | None => "" end in
          emit (StWrite "Generated SQL Query:") ;;
          emit (StCode sql_text "sql") ;;
          result_df <- execute_sql_statement sql_text ;;
          match result_df with
          | Some df =>
              if negb (df_empty df)
              then emit (StWrite "Results:") ;; emit (StDataframe df)
              else emit (StInfo no_result_message)
          | None => emit (StInfo no_result_message)
          end
        else emit (StWarning not_generated_message))
         (add_events w
            ([StTitle "Step 2/2: Ask a Question"; StTextArea "Question:";
              StButton "Ask Question"] ++ evs ++ [GenerateSql question schemas])%list).
Proof.
  intros Hkey Hconn Hschemas.
  set (w0 := add_events w [StTitle "Step 2/2: Ask a Question"; StTextArea "Question:";
                           StButton "Ask Question"]).
  destruct (reader_get_table_schemas_with_data w0) as [(evs & Hfst & Hevs) _].
  destruct (reader_get_table_schemas_with_data w) as [_ Hsnd].
  specialize (Hsnd w0 eq_refl). rewrite Hschemas in Hsnd.
  exists evs. split; [exact Hevs |].
  unfold step_2. rewrite !bind_emit, !add_events_app, bind_get_session.
  cbn [app session add_events]. fold w0.
  rewrite Hkey, Hconn. cbn [negb].
  unfold bind at 1. unfold ret at 1.
  unfold bind at 1.
  destruct (get_table_schemas_with_data w0) as [w1 r]; cbn in Hfst, Hsnd; subst w1 r.
  unfold bind at 1. rewrite bind_emit.
  unfold w0. rewrite !add_events_app. reflexivity.
Qed.

(** X17. With a key, a connection, a summary and a statement from the
    generator, [step_2] shows the statement it was given and runs that same
    statement once, on the database as it stands, with no check of what the
    statement does: the database after the answer is the one the statement
    left.  It shows the frame the query returned when that frame is not
    empty, and the one message "No results or unable to execute the query."
    both for an empty frame and for a query that raised. *)
Theorem step_2_runs_the_statement_it_shows :
  forall (w : world) (question schemas sql sid : string),
    PyStr.truthy (get_api_key (session w)) = true ->
    ss_conn (session w) = true ->
    snd (get_table_schemas_with_data w) = Ok schemas ->
    generate_sql_statement question schemas = Ok (Some sql) ->
    PyStr.truthy sql = true ->
    ss_session_id (session w) = Some sid ->
    (forall b, mp_track sid "Run SQL Query" (run_query_properties b) = Ok tt) ->
    exists (evs : list (event value)) (b : bool) (shown : list (event value)),
      forallb is_cursor evs = true
      /\ step_2 question true w =
         ({| conn := fst (pd_read_sql_query sql (conn w));
             session := session w;
             trace :=
               (trace w ++
                [StTitle "Step 2/2: Ask a Question"; StTextArea "Question:";
                 StButton "Ask Question"] ++ evs ++
                [GenerateSql question schemas; StWrite "Generated SQL Query:";
                 StCode sql "sql"; ReadSqlQuery sql;
                 MpTrack sid "Run SQL Query" (run_query_properties b)] ++ shown)%list |},
          Ok tt)
      /\ match snd (pd_read_sql_query sql (conn w)) with
         | Ok df =>
             if df_empty df
             then b = false /\ shown = [StInfo no_result_message]
             else b = true /\ shown = [StWrite "Results:"; StDataframe df]
         | Raise _ => b = false /\ shown = [StInfo no_result_message]
         end.
Proof.
  intros w question schemas sql sid Hkey Hconn Hschemas Hgen Htruthy Hsid Htrack.
  destruct (@step_2_asks_generator w question schemas Hkey Hconn Hschemas) as (evs & Hevs & Hrun).
  exists evs.
  exists (match snd (pd_read_sql_query sql (conn w)) with
          | Ok df => negb (df_empty df)
          | Raise _ => false
          end).
  exists (match snd (pd_read_sql_query sql (conn w)) with
          | Ok df => if df_empty df then [StInfo no_result_message]
                     else [StWrite "Results:"; StDataframe df]
          | Raise _ => [StInfo no_result_message]
          end).
  split; [exact Hevs |]. split.
  - rewrite Hrun. unfold bind at 1. rewrite Hgen. cbn [sql_truthy]. rewrite Htruthy.
    cbv zeta. rewrite !bind_emit, !add_events_app.
    match goal with
    | |- context [add_events w ?l] => set (w3 := add_events w l)
    end.
    pose proof (execute_sql_statement_world sql w3) as Hw.
    pose proof (execute_sql_statement_eq sql w3) as Hr.
    cbv zeta in Hr. change (conn w3) with (conn w) in Hw, Hr.
    change (session w3) with (session w) in Hw, Hr.
    rewrite Hsid in Hw, Hr. rewrite Htrack in Hr.
    unfold bind at 1.
    destruct (execute_sql_statement sql w3) as [w4 r]. cbn [fst snd] in Hw, Hr.
    subst w4 r. unfold w3. cbn [trace add_events].
    destruct (snd (pd_read_sql_query sql (conn w))) as [df | e].
    + destruct (df_empty df) eqn:Hempty; cbn [negb].
      * rewrite emit_eq. unfold add_events. cbn [conn session trace].
        rewrite <- !app_assoc. cbn [app]. reflexivity.
      * rewrite Hempty. cbn [negb]. rewrite bind_emit, emit_eq.
        unfold add_events. cbn [conn session trace].
        rewrite <- !app_assoc. cbn [app]. reflexivity.
    + rewrite emit_eq. unfold add_events. cbn [conn session trace].
      rewrite <- !app_assoc. cbn [app]. reflexivity.
  - destruct (snd (pd_read_sql_query sql (conn w))) as [df | e]; [| auto].
    destruct (df_empty df); auto.
Qed.

(** X18. [step_2] has no handler around the summary: when the summary
    raises, for instance on a table whose name SQLite does not read back,
    asking any question raises the same exception, after the three widgets
    and the statements of the cursor; the generator is not called, nothing
    is run by the executor and the database is unchanged. *)
Theorem step_2_stops_when_summary_raises :
  forall (w : world) (question : string) (e : exn),
    PyStr.truthy (get_api_key (session w)) = true ->
    ss_conn (session w) = true ->
    snd (get_table_schemas_with_data w) = Raise e ->
    snd (step_2 question true w) = Raise e
    /\ forallb (fun ev => negb (is_generate ev) && negb (is_executor ev))
         (events_since w (fst (step_2 question true w))) = true
    /\ conn (fst (step_2 question true w)) = conn w.
Proof.
  intros w question e Hkey Hconn Hraise.
  set (w0 := add_events w [StTitle "Step 2/2: Ask a Question"; StTextArea "Question:";
                           StButton "Ask Question"]).
  destruct (reader_get_table_schemas_with_data w0) as [(evs & Hfst & Hevs) _].
  destruct (reader_get_table_schemas_with_data w) as [_ Hsnd].
  specialize (Hsnd w0 eq_refl). rewrite Hraise in Hsnd.
  assert (Hrun : step_2 question true w =
                 (add_events w
                    ([StTitle "Step 2/2: Ask a Question"; StTextArea "Question:";
                      StButton "Ask Question"] ++ evs)%list, Raise e)).
  { unfold step_2. rewrite !bind_emit, !add_events_app, bind_get_session.
    cbn [app session add_events]. fold w0.
    rewrite Hkey, Hconn. cbn [negb].
    unfold bind at 1. unfold ret at 1.
    unfold bind at 1.
    destruct (get_table_schemas_with_data w0) as [w1 r]; cbn in Hfst, Hsnd; subst w1 r.
    unfold w0. rewrite !add_events_app. reflexivity. }
  rewrite Hrun. cbn [fst snd]. split; [reflexivity |]. split; [| reflexivity].
  rewrite events_since_add, forallb_app. cbn.
  apply (forallb_weaken is_cursor); [| exact Hevs].
  intros [] He; cbn in *; congruence.
Qed.

(** X19. [step_2] has no handler around the generator either: an exception
    of [generate_sql_statement] leaves [step_2] as it is, after the summary
    was sent with the question; no statement is shown, nothing is run by the
    executor and the database is unchanged. *)
Theorem step_2_stops_when_generator_raises :
  forall (w : world) (question schemas : string) (e : exn),
    PyStr.truthy (get_api_key (session w)) = true ->
    ss_conn (session w) = true ->
    snd (get_table_schemas_with_data w) = Ok schemas ->
    generate_sql_statement question schemas = Raise e ->
    snd (step_2 question true w) = Raise e
    /\ (exists evs,
          forallb is_cursor evs = true
          /\ events_since w (fst (step_2 question true w)) =
             ([StTitle "Step 2/2: Ask a Question"; StTextArea "Question:";
               StButton "Ask Question"] ++ evs ++ [GenerateSql question schemas])%list)
    /\ conn (fst (step_2 question true w)) = conn w.
Proof.
  intros w question schemas e Hkey Hconn Hschemas Hgen.
  destruct (@step_2_asks_generator w question schemas Hkey Hconn Hschemas)
    as (evs & Hevs & Hrun).
  rewrite Hrun. unfold bind at 1 2 3. rewrite Hgen. cbn [fst snd].
  split; [reflexivity |]. split; [| reflexivity].
  exists evs. split; [exact Hevs |]. apply events_since_add.
Qed.

(** ** From the upload to the question *)

Lemma finish_upload_keeps_key_and_conn (finished : bool) (w : world) :
  ss_api_key (session (fst (finish_upload finished w))) = ss_api_key (session w)
  /\ ss_conn (session (fst (finish_upload finished w))) = ss_conn (session w).
Proof.
  unfold finish_upload. rewrite bind_emit, bind_get_session. cbn [session add_events].
  destruct (finished || _); [| split; reflexivity].
  destruct (ss_dataframes (session w)) as [[| entry rest] |];
    try (split; reflexivity).
  unfold bind at 1 3. unfold track. rewrite bind_get_session. cbn [session add_events].
  destruct (ss_session_id (session w)) as [sid |]; [| split; reflexivity].
  rewrite bind_emit.
  destruct (mp_track sid "Upload CSV files" _); split; reflexivity.
Qed.

(** The trace of [step_2] holds the call of the generator, with the summary
    as its second argument. *)
Lemma step_2_generator_event (w : world) (question schemas : string) :
  PyStr.truthy (get_api_key (session w)) = true ->
  ss_conn (session w) = true ->
  snd (get_table_schemas_with_data w) = Ok schemas ->
  exists evs,
    forallb is_cursor evs = true
    /\ exists rest,
         events_since w (fst (step_2 question true w)) =
         ([StTitle "Step 2/2: Ask a Question"; StTextArea "Question:";
           StButton "Ask Question"] ++ evs ++ GenerateSql question schemas :: rest)%list.
Proof.
  intros Hkey Hconn Hschemas.
  destruct (@step_2_asks_generator w question schemas Hkey Hconn Hschemas)
    as (evs & Hevs & Hrun).
  exists evs. split; [exact Hevs |].
  rewrite Hrun. clear Hrun.
  match goal with
  | |- context [add_events w ?l] => set (w2 := add_events w l)
  end.
  assert (Hext : forall (w' : world) (more : list (event value)),
             trace w' = (trace w2 ++ more)%list ->
             events_since w w' =
             ([StTitle "Step 2/2: Ask a Question"; StTextArea "Question:";
               StButton "Ask Question"] ++ evs ++ GenerateSql question schemas :: more)%list).
  { intros w' more Hw'. unfold events_since. rewrite Hw'. unfold w2.
    cbn [trace add_events]. rewrite <- !app_assoc.
    rewrite skipn_app, skipn_all, Nat.sub_diag. cbn [skipn app].
    reflexivity. }
  unfold bind at 1.
  destruct (generate_sql_statement question schemas) as [sql_statement | e].
  - destruct (sql_truthy sql_statement).
    + cbv zeta. rewrite !bind_emit. unfold bind at 1.
      match goal with
      | |- context [execute_sql_statement ?sql ?w3] =>
          pose proof (execute_sql_statement_world sql w3) as Hw;
          destruct (execute_sql_statement sql w3) as [w4 r]
      end.
      cbn [fst] in Hw. subst w4. cbn [session conn trace add_events] in *.
      destruct r as [[df |] | e].
      * destruct (negb (df_empty df)).
        -- rewrite bind_emit, emit_eq. eexists. cbn [fst]. apply Hext.
           cbn [trace add_events]. rewrite <- !app_assoc. reflexivity.
        -- rewrite emit_eq. eexists. cbn [fst]. apply Hext.
           cbn [trace add_events]. rewrite <- !app_assoc. reflexivity.
      * rewrite emit_eq. eexists. cbn [fst]. apply Hext.
        cbn [trace add_events]. rewrite <- !app_assoc. reflexivity.
      * eexists. cbn [fst]. apply Hext.
        cbn [trace add_events]. rewrite <- !app_assoc. reflexivity.
    + rewrite emit_eq. eexists. cbn [fst]. apply Hext. reflexivity.
  - exists []. cbn [fst]. apply Hext. rewrite app_nil_r. reflexivity.
Qed.

(** X20. The question is asked about the files of the upload: after [step_1]
    has loaded a batch whose table names SQLite reads back, the summary of
    the database is the blocks of the tables of the files, in the order of
    the upload, and [step_2] on that session, with the key that was in it,
    sends this summary and the question to the generator. *)
Theorem step_2_after_step_1_asks_about_the_batch :
  forall (files : list uploaded_file) (finished : bool) (w : world) (question : string),
    files <> [] ->
    droppable (conn w) ->
    Forall loadable files ->
    NoDup (map table_key files) ->
    Forall reads_back (map table_name_of files) ->
    PyStr.truthy (get_api_key (session w)) = true ->
    exists created : store,
      Forall2 loads_as files created
      /\ snd (get_table_schemas_with_data (fst (step_1 files finished w))) =
         Ok (summary_of created)
      /\ exists evs rest,
           forallb is_cursor evs = true
           /\ events_since (fst (step_1 files finished w))
                (fst (step_2 question true (fst (step_1 files finished w)))) =
              ([StTitle "Step 2/2: Ask a Question"; StTextArea "Question:";
                StButton "Ask Question"] ++ evs ++
               GenerateSql question (summary_of created) :: rest)%list.
Proof.
  intros files finished w question Hfiles Hdrop Hload Hnd Hread Hkey.
  destruct (@step_1_after_load files finished w Hfiles Hdrop Hload Hnd)
    as (created & frames & evs & Hrun & Hc & Hf).
  exists created. split; [exact Hc |].
  assert (Hconn : conn (fst (step_1 files finished w)) = created)
    by (rewrite Hrun, finish_upload_conn; reflexivity).
  assert (Hsummary : snd (get_table_schemas_with_data (fst (step_1 files finished w))) =
                     Ok (summary_of created)).
  { rewrite <- Hconn. apply get_table_schemas_with_data_ok.
    unfold names_ok. rewrite Hconn, (loads_as_names Hc).
    split; [apply table_names_distinct |]; assumption. }
  split; [exact Hsummary |].
  destruct (@step_2_generator_event (fst (step_1 files finished w)) question
              (summary_of created)) as (evs' & Hevs' & rest & Hrest).
  - rewrite Hrun.
    destruct (finish_upload_keeps_key_and_conn finished
                {| conn := created;
                   session := set_upload_completed true (set_uploaded frames (session w));
                   trace := (trace w ++ evs)%list |}) as [Hk _].
    unfold get_api_key in *. rewrite Hk. exact Hkey.
  - rewrite Hrun.
    destruct (finish_upload_keeps_key_and_conn finished
                {| conn := created;
                   session := set_upload_completed true (set_uploaded frames (session w));
                   trace := (trace w ++ evs)%list |}) as [_ Hc'].
    rewrite Hc'. reflexivity.
  - exact Hsummary.
  - exists evs', rest. split; [exact Hevs' | exact Hrest].
Qed.

(** ** A load that stops *)

(** [step_1] on a non-empty upload whose load raises. *)
Lemma step_1_batch_raises (files : list uploaded_file) (finished : bool) (w : world) :
  files <> [] ->
  exists ss0,
    ss_dataframes ss0 = ss_dataframes (session w)
    /\ ss_conn ss0 = ss_conn (session w)
    /\ ss_step ss0 = ss_step (session w)
    /\ forall (w2 : world) (e : exn),
         load_batch files
           {| conn := conn w; session := ss0;
              trace := (trace w ++ [StTitle "Step 1/2: Upload CSV Files";
                                    StFileUploader "Upload CSV Files"])%list |}
         = (w2, Raise e) ->
         step_1 files finished w = (w2, Raise e).
Proof.
  intros Hfiles. destruct files as [| file files]; [congruence |].
  destruct w as [c ss tr].
  exists (match ss_upload_completed ss with
          | None => set_upload_completed false ss
          | Some _ => ss
          end).
  cbn [conn session trace].
  repeat split; try (destruct (ss_upload_completed ss); reflexivity).
  intros w2 e Hbatch.
  unfold step_1. rewrite !bind_emit, bind_get_session.
  unfold add_events. cbn [session conn trace]. rewrite <- app_assoc. cbn [app].
  destruct (ss_upload_completed ss);
    unfold bind at 1; unfold put_session, ret; cbn [conn session trace];
    unfold bind at 1; rewrite Hbatch; reflexivity.
Qed.

(** [load_batch] on a batch whose files load up to one that pandas does not
    parse. *)
Lemma load_batch_parse_failure (before after : list uploaded_file)
    (bad : uploaded_file) (w : world) (e : exn) :
  droppable (conn w) ->
  Forall loadable before ->
  NoDup (map table_key before) ->
  pd_read_csv bad = Raise e ->
  exists created evs,
    load_batch (before ++ bad :: after) w =
      ({| conn := created; session := session w;
          trace := (trace w ++ evs ++ [ReadCsv (file_name bad)])%list |}, Raise e)
    /\ Forall2 loads_as before created
    /\ forallb (fun ev => is_read_csv ev || is_sql ev) evs = true.
Proof.
  intros Hdrop Hload Hnd Hcsv. unfold load_batch.
  destruct (drop_all_tables_sql w Hdrop) as (evs0 & Hevs0 & Hsql).
  unfold bind at 1. rewrite Hevs0.
  destruct (@load_loop_frames before
              {| conn := []; session := session w; trace := (trace w ++ evs0)%list |}
              [] Hload Hnd)
    as (created & frames & evs & Hrun & Hc & Hf & Hevs).
  - intros file _. reflexivity.
  - cbn [map app]. apply file_names_distinct. exact Hnd.
  - unfold bind at 1. rewrite for_fold_app, Hrun.
    cbn [for_fold]. unfold bind at 1. rewrite (load_file_raises_csv _ _ _ Hcsv).
    unfold add_events. cbn [conn session trace app].
    exists created, (evs0 ++ evs)%list.
    split; [rewrite <- !app_assoc; reflexivity |].
    split; [exact Hc |].
    rewrite forallb_app, Hevs, andb_true_r.
    apply (forallb_weaken is_sql); [| exact Hsql].
    intros ev Hev. rewrite Hev. apply orb_true_r.
Qed.

(** X21. When pandas does not parse one file of the upload, [step_1] raises
    the exception of [pd.read_csv] right after reading that file: the button
    is not drawn and nothing is sent to Mixpanel.  The database then holds
    the tables of the files before the bad one, while the session still
    holds the frames, the connection flag and the step it had before the
    run, since the dict of the new frames is stored only after the loop. *)
Theorem step_1_parse_failure_keeps_session :
  forall (before after : list uploaded_file) (bad : uploaded_file)
         (finished : bool) (w : world) (e : exn),
    droppable (conn w) ->
    Forall loadable before ->
    NoDup (map table_key before) ->
    pd_read_csv bad = Raise e ->
    snd (step_1 (before ++ bad :: after) finished w) = Raise e
    /\ Forall2 loads_as before (conn (fst (step_1 (before ++ bad :: after) finished w)))
    /\ ss_dataframes (session (fst (step_1 (before ++ bad :: after) finished w)))
       = ss_dataframes (session w)
    /\ ss_step (session (fst (step_1 (before ++ bad :: after) finished w)))
       = ss_step (session w)
    /\ exists evs,
         events_since w (fst (step_1 (before ++ bad :: after) finished w)) =
         (evs ++ [ReadCsv (file_name bad)])%list
         /\ forallb (fun ev => match ev with
                               | MpTrack _ _ _ | StButton _ => false
                               | _ => true
                               end) evs = true.
Proof.
  intros before after bad finished w e Hdrop Hload Hnd Hcsv.
  assert (Hfiles : (before ++ bad :: after)%list <> [])
    by (destruct before; discriminate).
  destruct (@step_1_batch_raises _ finished w Hfiles)
    as (ss0 & Hframes & _ & Hstep & Hraise).
  destruct (@load_batch_parse_failure before after bad
              {| conn := conn w; session := ss0;
                 trace := (trace w ++ [StTitle "Step 1/2: Upload CSV Files";
                                       StFileUploader "Upload CSV Files"])%list |}
              e Hdrop Hload Hnd Hcsv)
    as (created & evs & Hbatch & Hc & Hevs).
  rewrite (Hraise _ _ Hbatch). cbn [fst snd conn session trace].
  repeat split; auto.
  eexists. rewrite <- app_assoc. rewrite events_since_extended.
  cbn [app]. rewrite !app_comm_cons. split; [reflexivity |].
  cbn [forallb andb].
  apply (forallb_weaken (fun ev => is_read_csv ev || is_sql ev)); [| exact Hevs].
  intros [] Hev; cbn in *; congruence.
Qed.

(** ** The upload as SQLite runs it *)

(** [drop_all_tables] on a database whose names read back, with the
    statements it runs. *)
Lemma drop_all_tables_run (w : world) :
  droppable (conn w) ->
  drop_all_tables w =
    ({| conn := [];
        session := session w;
        trace :=
          (trace w ++
           CursorExecute "SELECT name FROM sqlite_master WHERE type='table';"
           :: map drop_statement (map fst (conn w)) ++ [ConnCommit])%list |},
     Ok tt).
Proof.
  intros Hdrop. unfold drop_all_tables.
  unfold bind at 1. rewrite select_table_names_eq.
  unfold bind at 1. rewrite drop_loop_trace by exact Hdrop.
  change (conn (add_events w _)) with (conn w).
  rewrite remove_every_table. unfold emit. cbn.
  rewrite <- !app_assoc. reflexivity.
Qed.


(** [step_1] on a non-empty upload, on a database whose names read back:
    the loop over the files starts from the empty database, after the
    statements of [drop_all_tables], and [step_1] ends as the loop does when
    the loop raises. *)
Lemma step_1_run (files : list uploaded_file) (finished : bool) (w : world) :
  files <> [] ->
  droppable (conn w) ->
  exists ss0,
    ss_dataframes ss0 = ss_dataframes (session w)
    /\ ss_step ss0 = ss_step (session w)
    /\ (forall (w2 : world) (e : exn),
          for_fold files [] load_file
            {| conn := []; session := ss0;
               trace := (trace w ++
                         [StTitle "Step 1/2: Upload CSV Files";
                          StFileUploader "Upload CSV Files";
                          CursorExecute "SELECT name FROM sqlite_master WHERE type='table';"]
                         ++ map drop_statement (map fst (conn w)) ++ [ConnCommit])%list |}
          = (w2, Raise e) ->
          step_1 files finished w = (w2, Raise e))
    /\ (forall (w2 : world) (dataframes : list (string * DataFrame)),
          for_fold files [] load_file
            {| conn := []; session := ss0;
               trace := (trace w ++
                         [StTitle "Step 1/2: Upload CSV Files";
                          StFileUploader "Upload CSV Files";
                          CursorExecute "SELECT name FROM sqlite_master WHERE type='table';"]
                         ++ map drop_statement (map fst (conn w)) ++ [ConnCommit])%list |}
          = (w2, Ok dataframes) ->
          step_1 files finished w =
          finish_upload finished
            {| conn := conn w2;
               session := set_upload_completed true (set_uploaded dataframes (session w2));
               trace := trace w2 |}).
Proof.
  intros Hfiles Hdrop. destruct files as [| file files]; [congruence |].
  destruct w as [c ss tr]. cbn [conn session trace] in *.
  exists (match ss_upload_completed ss with
          | None => set_upload_completed false ss
          | Some _ => ss
          end).
  split; [destruct (ss_upload_completed ss); reflexivity |].
  split; [destruct (ss_upload_completed ss); reflexivity |].
  assert (Hstart : forall ss0 : session_state value,
             load_batch (file :: files)
               {| conn := c; session := ss0;
                  trace := (tr ++ [StTitle "Step 1/2: Upload CSV Files";
                                   StFileUploader "Upload CSV Files"])%list |} =
             (dataframes <- for_fold (file :: files) [] load_file ;;
              ss1 <- get_session ;;
              put_session (set_upload_completed true (set_uploaded dataframes ss1)))
               {| conn := []; session := ss0;
                  trace := (tr ++
                            [StTitle "Step 1/2: Upload CSV Files";
                             StFileUploader "Upload CSV Files";
                             CursorExecute "SELECT name FROM sqlite_master WHERE type='table';"]
                            ++ map drop_statement (map fst c) ++ [ConnCommit])%list |}).
  { intros ss0. unfold load_batch. unfold bind at 1.
    rewrite drop_all_tables_run by exact Hdrop.
    cbn [conn session trace]. rewrite <- !app_assoc. reflexivity. }
  split.
  - intros w2 e Hloop.
    unfold step_1. rewrite !bind_emit, bind_get_session.
    unfold add_events. cbn [session conn trace]. rewrite <- app_assoc. cbn [app].
    destruct (ss_upload_completed ss);
      unfold bind at 1; unfold put_session, ret; cbn [conn session trace];
      unfold bind at 1; rewrite Hstart; unfold bind at 1; rewrite Hloop; reflexivity.
  - intros w2 dataframes Hloop.
    unfold step_1. rewrite !bind_emit, bind_get_session.
    unfold add_events. cbn [session conn trace]. rewrite <- app_assoc. cbn [app].
    destruct (ss_upload_completed ss);
      unfold bind at 1; unfold put_session, ret; cbn [conn session trace];
      unfold bind at 1; rewrite Hstart; unfold bind at 1; rewrite Hloop;
      unfold bind at 1; unfold get_session, put_session; reflexivity.
Qed.



(** ** The names of the tables and of the columns, in the words of the claim *)

Lemma before_truncated (s : string) :
  truncated_at_first_dot s (PyStr.before PyStr.dot s).
Proof.
  split; [| apply PyStrFacts.before_split].
  intros a b Heq.
  pose proof (PyStrFacts.before_no_sep PyStr.dot s) as Hno.
  rewrite Heq, PyStrFacts.mem_app in Hno. cbn in Hno.
  rewrite orb_true_r in Hno. discriminate.
Qed.

Lemma map_chars_get (f : ascii -> ascii) (s : string) :
  forall i,
    String.get i (PyStr.map_chars f s) =
    match String.get i s with
    | Some c => Some (f c)
    | None => None
    end.
Proof.
  induction s as [| c s IH]; intros i; cbn; [reflexivity |].
  destruct i as [| i]; [reflexivity | apply IH].
Qed.

Lemma replace_every_space (s : string) :
  every_space_replaced s (PyStr.replace PyStr.space PyStr.underscore s).
Proof.
  split; [apply PyStrFacts.replace_length |].
  intros i. unfold PyStr.replace. rewrite map_chars_get. reflexivity.
Qed.

Lemma rename_columns_every_space (df : DataFrame) :
  Forall2 (fun c column => every_space_replaced (fst c) (col_name column))
          (df_columns df) (tbl_columns (table_of_frame (rename_columns df))).
Proof.
  unfold table_of_frame, rename_columns. cbn [tbl_columns df_columns].
  induction (df_columns df) as [| c columns IH]; cbn [map]; constructor.
  - cbn [col_name fst]. apply replace_every_space.
  - exact IH.
Qed.

(** C2, as the code has it.  With a non-empty upload of files that parse
    and that SQLite accepts with their rows, with table names that are
    pairwise distinct even without regard to case, on a database whose table
    names read back, the database after [step_1] holds one table per file,
    in the order of the files: its name is the file name truncated at its
    first dot, its column names are those of the file with every space
    replaced by an underscore, and it holds the rows of the file. *)
Theorem step_1_one_table_per_file :
  forall (w : world) (files : list uploaded_file) (finished : bool),
    files <> [] ->
    droppable (conn w) ->
    Forall loadable files ->
    NoDup (map table_key files) ->
    Forall2
      (fun file entry =>
         exists df,
           pd_read_csv file = Ok df
           /\ truncated_at_first_dot (file_name file) (fst entry)
           /\ Forall2 (fun c column => every_space_replaced (fst c) (col_name column))
                      (df_columns df) (tbl_columns (snd entry))
           /\ tbl_rows (snd entry) = df_rows df)
      files (conn (fst (step_1 files finished w)))
    /\ List.length (conn (fst (step_1 files finished w))) = List.length files
    /\ NoDup (map fst (conn (fst (step_1 files finished w)))).
Proof.
  intros w files finished Hfiles Hdrop Hload Hnd.
  destruct (@step_1_after_load files finished w Hfiles Hdrop Hload Hnd)
    as (created & frames & evs & Hrun & Hcreated & _).
  rewrite Hrun, finish_upload_conn. cbn [conn].
  split; [| split].
  - eapply Forall2_impl; [| exact Hcreated].
    intros file entry (df & Hcsv & ->). exists df. cbn [fst snd].
    split; [exact Hcsv |].
    split; [apply before_truncated |].
    split; [apply rename_columns_every_space | reflexivity].
  - symmetry. eapply Forall2_length. exact Hcreated.
  - rewrite (loads_as_names Hcreated). apply table_names_distinct. exact Hnd.
Qed.

(** C5, as the code has it.  When a file of the batch has the table name
    of an earlier one, the files before it being loadable with table names
    that are pairwise distinct even without regard to case, [step_1] raises
    at that file: the database holds the tables of the files before it, the
    table of the earlier file among them as that file gave it, and the
    exception is the [ValueError] of [to_sql] when the later file parses
    and pandas accepts its names. *)
Theorem step_1_same_table_name_raises :
  forall (w : world) (before between after : list uploaded_file)
         (earlier later : uploaded_file) (finished : bool),
    droppable (conn w) ->
    Forall loadable (before ++ earlier :: between)%list ->
    NoDup (map table_key (before ++ earlier :: between)%list) ->
    table_name_of later = table_name_of earlier ->
    (exists e,
       snd (step_1 ((before ++ earlier :: between) ++ later :: after)%list finished w)
       = Raise e)
    /\ Forall2 loads_as (before ++ earlier :: between)%list
         (conn (fst (step_1 ((before ++ earlier :: between) ++ later :: after)%list
                       finished w)))
    /\ (forall df,
          pd_read_csv later = Ok df ->
          setup_error (table_name_of later)
            (tbl_columns (table_of_frame (rename_columns df))) = None ->
          snd (step_1 ((before ++ earlier :: between) ++ later :: after)%list finished w)
          = Raise (ValueError ("Table '" ++ table_name_of later ++ "' already exists.")))
    /\ (exists df,
          pd_read_csv earlier = Ok df
          /\ lookup_table (table_name_of earlier)
               (conn (fst (step_1 ((before ++ earlier :: between) ++ later :: after)%list
                             finished w)))
             = Some (table_of_frame (rename_columns df))).
Proof.
  intros w before between after earlier later finished Hdrop Hload Hnd Hname.
  set (good := (before ++ earlier :: between)%list) in *.
  assert (Hfiles : (good ++ later :: after)%list <> [])
    by (intros H; apply app_eq_nil in H; destruct H; discriminate).
  destruct (@step_1_run _ finished w Hfiles Hdrop) as (ss0 & _ & _ & Hraise & _).
  match type of Hraise with
  | forall w2 e, for_fold _ [] load_file ?w0 = _ -> _ =>
      destruct (@load_loop_frames good w0 [] Hload Hnd)
        as (created & frames & evs & Hgood & Hcreated & _);
      [intros file _; reflexivity
      | cbn [map app]; apply file_names_distinct; exact Hnd
      |]
  end.
  cbn [conn session trace] in Hgood.
  change ([] ++ created)%list with created in Hgood.
  assert (Hhas : has_table (table_name_of later) created = true).
  { apply has_table_in. rewrite (loads_as_names Hcreated), Hname.
    apply in_map. unfold good. apply in_elt. }
  assert (Hlater : exists w2 e,
             for_fold (good ++ later :: after) [] load_file
               {| conn := []; session := ss0;
                  trace := (trace w ++
                            [StTitle "Step 1/2: Upload CSV Files";
                             StFileUploader "Upload CSV Files";
                             CursorExecute "SELECT name FROM sqlite_master WHERE type='table';"]
                            ++ map drop_statement (map fst (conn w)) ++ [ConnCommit])%list |}
             = (w2, Raise e)
             /\ conn w2 = created
             /\ (forall df,
                   pd_read_csv later = Ok df ->
                   setup_error (table_name_of later)
                     (tbl_columns (table_of_frame (rename_columns df))) = None ->
                   e = ValueError ("Table '" ++ table_name_of later ++ "' already exists."))).
  { rewrite for_fold_app, Hgood. cbn [for_fold]. unfold bind.
    destruct (pd_read_csv later) as [df | e] eqn:Hcsv.
    - rewrite (load_file_eq _ later _ Hcsv). cbv zeta. cbn [conn]. rewrite Hhas.
      destruct (setup_error _ _) as [e |] eqn:Hsetup.
      + eexists. eexists. split; [reflexivity |].
        split; [reflexivity |].
        intros df' Hdf' Hsetup'. inversion Hdf'; subst. congruence.
      + eexists. eexists. split; [reflexivity |].
        split; [reflexivity | intros; reflexivity].
    - rewrite (load_file_raises_csv _ later _ Hcsv).
      eexists. eexists. split; [reflexivity |].
      split; [reflexivity | intros; discriminate]. }
  destruct Hlater as (w2 & e & Hloop & Hconn & Herr).
  rewrite (Hraise w2 e Hloop). cbn [fst snd]. rewrite Hconn.
  split; [exists e; reflexivity |].
  split; [exact Hcreated |].
  split; [intros df Hcsv Hsetup; rewrite (Herr df Hcsv Hsetup); reflexivity |].
  assert (Hin : In earlier good) by (unfold good; apply in_elt).
  destruct (@loads_as_in good created earlier Hcreated Hin)
    as (entry & Hentry & df & Hcsv & ->).
  exists df. split; [exact Hcsv |].
  apply lookup_table_in; [| exact Hentry].
  rewrite (loads_as_names Hcreated). apply table_names_distinct. exact Hnd.
Qed.

End Properties.

(** ** The properties on the concrete collaborators *)

#[local] Existing Instance Demo.online.

(** The table names of [asking_world] are distinct and read back. *)
Lemma asking_world_names_ok : names_ok (C := Demo.online) (conn Demo.asking_world).
Proof.
  split; cbn.
  - repeat (constructor; [cbn; intuition discriminate |]). constructor.
  - repeat (constructor; [split; reflexivity |]). constructor.
Qed.

(** Every table of [asking_world] can be dropped. *)
Lemma asking_world_droppable : droppable (C := Demo.online) (conn Demo.asking_world).
Proof.
  unfold droppable; cbn. repeat (constructor; [reflexivity |]). constructor.
Qed.

(** The three files of the first upload parse and are accepted. *)
Lemma first_upload_loadable : Forall (loadable (C := Demo.online)) Demo.first_upload.
Proof.
  repeat (constructor; [eexists; repeat split; reflexivity |]). constructor.
Qed.

(** Their table names, [sales], [notes] and [drafts], are distinct, also
    without regard to case. *)
Lemma first_upload_distinct : NoDup (map table_key Demo.first_upload).
Proof.
  cbn. repeat (constructor; [cbn; intuition discriminate |]). constructor.
Qed.

(** A misspelt statement and a query without matching row, on the fresh
    session. *)
Lemma execute_error_same_as_no_row_demo :
  snd (execute_sql_statement (C := Demo.online) "SELEC * FROM sales" Demo.fresh_world)
  = snd (execute_sql_statement (C := Demo.online)
           "SELECT * FROM sales WHERE Amount > 100" Demo.fresh_world)
  /\ (forall r,
        snd (execute_sql_statement (C := Demo.online) "SELEC * FROM sales" Demo.fresh_world)
        = Ok r -> r = None)
  /\ (forall sid,
        ss_session_id (session Demo.fresh_world) = Some sid ->
        mp_track (Collaborators := Demo.online) sid "Run SQL Query"
          (run_query_properties false) = Ok tt ->
        snd (execute_sql_statement (C := Demo.online) "SELEC * FROM sales" Demo.fresh_world)
        = Ok None
        /\ snd (execute_sql_statement (C := Demo.online)
                  "SELECT * FROM sales WHERE Amount > 100" Demo.fresh_world)
           = Ok None).
Proof.
  apply (@execute_error_same_as_no_row Demo.online Demo.fresh_world
           "SELEC * FROM sales" "SELECT * FROM sales WHERE Amount > 100"
           [] [] (OtherException "DatabaseError") Demo.no_row_frame);
    reflexivity.
Defined.

(** The query that returns the row of the East. *)
Lemma execute_result_none_or_rows_demo :
  (Some Demo.east_frame = None
   \/ exists df, Some Demo.east_frame = Some df /\ 1 <= List.length (df_rows df))
  /\ (Some Demo.east_frame <> None <->
      exists s df,
        pd_read_sql_query (Collaborators := Demo.online)
          "SELECT * FROM sales WHERE Amount > 15" (conn Demo.asking_world) = (s, Ok df)
        /\ 1 <= List.length (df_rows df))
  /\ (forall df,
        Some Demo.east_frame = Some df ->
        exists s,
          pd_read_sql_query (Collaborators := Demo.online)
            "SELECT * FROM sales WHERE Amount > 15" (conn Demo.asking_world) = (s, Ok df)).
Proof.
  apply (@execute_result_none_or_rows Demo.online Demo.asking_world
           "SELECT * FROM sales WHERE Amount > 15" (Some Demo.east_frame)).
  - intros s df H. cbn in H. inversion H. discriminate.
  - reflexivity.
Defined.

(** The executor in the session [session-1]. *)
Lemma execute_returns_iff_telemetry_returns_demo :
  ((forall b, mp_track (Collaborators := Demo.online) "session-1" "Run SQL Query"
                (run_query_properties b) = Ok tt) ->
   exists r,
     snd (execute_sql_statement (C := Demo.online) "SELEC * FROM sales" Demo.asking_world)
     = Ok r)
  /\ (forall e,
        (forall b, mp_track (Collaborators := Demo.online) "session-1" "Run SQL Query"
                     (run_query_properties b) = Raise e) ->
        snd (execute_sql_statement (C := Demo.online) "SELEC * FROM sales" Demo.asking_world)
        = Raise e).
Proof.
  apply (@execute_returns_iff_telemetry_returns Demo.online Demo.asking_world
           "SELEC * FROM sales" "session-1").
  reflexivity.
Defined.

(** C9 as the claim states it fails: the query runs and returns a row, the
    Mixpanel client raises, and the executor raises; so it does when the
    session holds no identifier. *)
Lemma execute_raises_when_telemetry_raises :
  snd (pd_read_sql_query (Collaborators := Demo.offline)
         "SELECT * FROM sales WHERE Amount > 15" (conn Demo.asking_world))
  = Ok Demo.east_frame
  /\ snd (execute_sql_statement (C := Demo.offline)
            "SELECT * FROM sales WHERE Amount > 15" Demo.asking_world)
     = Raise (OtherException "MixpanelException")
  /\ snd (execute_sql_statement (C := Demo.online)
            "SELECT * FROM sales WHERE Amount > 15"
            {| conn := conn Demo.asking_world;
               session := {| ss_session_id := None;
                             ss_api_key := Some "sk-demo";
                             ss_conn := true;
                             ss_dataframes := Some Demo.loaded_frames;
                             ss_step := Some 2;
                             ss_upload_completed := Some false |};
               trace := [] |})
     = Raise (KeyError "session_id").
Proof.
  repeat split; reflexivity.
Qed.

(** The question step in a session without a key. *)
Lemma step_2_without_key_stops_demo :
  step_2 (C := Demo.online) "Show me everything in X table" true Demo.fresh_world =
    (add_events Demo.fresh_world
       [StTitle "Step 2/2: Ask a Question"; StTextArea "Question:";
        StButton "Ask Question"; StError missing_key_message],
     Ok tt)
  /\ conn (fst (step_2 (C := Demo.online) "Show me everything in X table" true
                  Demo.fresh_world))
     = conn Demo.fresh_world
  /\ forallb (fun e => negb (is_generate e) && negb (is_sql e))
       (events_since Demo.fresh_world
          (fst (step_2 (C := Demo.online) "Show me everything in X table" true
                  Demo.fresh_world))) = true.
Proof.
  apply (@step_2_without_key_stops Demo.online Demo.fresh_world
           "Show me everything in X table").
  left. reflexivity.
Defined.

(** The question step when the generator returns [None]. *)
Lemma step_2_no_statement_warns_demo :
  (exists evs,
      step_2 (C := Demo.online) "" true Demo.asking_world =
        (add_events Demo.asking_world
           ([StTitle "Step 2/2: Ask a Question"; StTextArea "Question:";
             StButton "Ask Question"] ++ evs ++
            [GenerateSql "" Demo.asking_summary;
             StWarning not_generated_message])%list,
         Ok tt)
      /\ forallb is_cursor evs = true)
  /\ forallb (fun e => negb (is_executor e))
       (events_since Demo.asking_world
          (fst (step_2 (C := Demo.online) "" true Demo.asking_world))) = true
  /\ not_generated_message <> missing_key_message
  /\ not_generated_message <> no_result_message.
Proof.
  apply (@step_2_no_statement_warns Demo.online Demo.asking_world ""
           Demo.asking_summary None); reflexivity.
Defined.

(** The block of the table [notes], which has a text column and a row. *)
Lemma summary_lists_non_text_and_whole_first_row_demo :
  (exists pre post,
     snd (get_table_schemas_with_data (C := Demo.online) Demo.asking_world) =
     Ok (pre ++ (structural_block "notes"
                   (non_text_columns
                      (tbl_columns (table_of_frame (C := Demo.online)
                                      (rename_columns (C := Demo.online) Demo.notes_frame))))
                 ++ first_row_line (C := Demo.online) (Some [Demo.CInt 7; Demo.CText "late"]))
             ++ post))
  /\ (forall column,
        In column (non_text_columns
                     (tbl_columns (table_of_frame (C := Demo.online)
                                     (rename_columns (C := Demo.online) Demo.notes_frame))))
        <->
        In column (tbl_columns (table_of_frame (C := Demo.online)
                                  (rename_columns (C := Demo.online) Demo.notes_frame)))
        /\ PyStr.contains "text" (PyStr.lower (col_type column)) = false)
  /\ (forall row rest,
        [[Demo.CInt 7; Demo.CText "late"]] = row :: rest ->
        first_row_line (C := Demo.online) (Some [Demo.CInt 7; Demo.CText "late"]) =
          "First Row Data: " ++ str_tuple (C := Demo.online) row ++ PyStr.nl ++ PyStr.nl
        /\ forall i column v,
             nth_error (tbl_columns (table_of_frame (C := Demo.online)
                                       (rename_columns (C := Demo.online) Demo.notes_frame)))
                       i = Some column ->
             nth_error row i = Some v ->
             PyStr.occurs (Demo.cell_repr v) (str_tuple (C := Demo.online) row)).
Proof.
  apply (@summary_lists_non_text_and_whole_first_row Demo.online Demo.asking_world
           "notes"
           (table_of_frame (C := Demo.online)
              (rename_columns (C := Demo.online) Demo.notes_frame))).
  - exact asking_world_names_ok.
  - right. left. reflexivity.
Defined.

(** The block of the table [drafts], which has no row. *)
Lemma summary_of_empty_table_demo :
  (exists pre post,
     snd (get_table_schemas_with_data (C := Demo.online) Demo.asking_world) =
     Ok (pre ++ ("CREATE TABLE " ++ "drafts" ++ " ("
                 ++ match non_text_columns
                            (tbl_columns (table_of_frame (C := Demo.online)
                               (rename_columns (C := Demo.online) Demo.drafts_frame))) with
                    | [] => ""
                    | _ :: _ =>
                        PyStr.nl ++
                        trimmed_lines
                          (non_text_columns
                             (tbl_columns (table_of_frame (C := Demo.online)
                                (rename_columns (C := Demo.online) Demo.drafts_frame))))
                    end
                 ++ PyStr.nl ++ ");" ++ PyStr.nl ++ PyStr.nl
                 ++ "First Row Data: None" ++ PyStr.nl ++ PyStr.nl) ++ post))
  /\ (forall init column,
        non_text_columns
          (tbl_columns (table_of_frame (C := Demo.online)
             (rename_columns (C := Demo.online) Demo.drafts_frame)))
        = (init ++ [column])%list ->
        PyStr.rstrip ("," ++ PyStr.nl) (col_type column) = col_type column ->
        lines_of (non_text_columns
                    (tbl_columns (table_of_frame (C := Demo.online)
                       (rename_columns (C := Demo.online) Demo.drafts_frame)))) =
        trimmed_lines (non_text_columns
                         (tbl_columns (table_of_frame (C := Demo.online)
                            (rename_columns (C := Demo.online) Demo.drafts_frame))))
        ++ "," ++ PyStr.nl).
Proof.
  apply (@summary_of_empty_table Demo.online Demo.asking_world "drafts"
           (table_of_frame (C := Demo.online)
              (rename_columns (C := Demo.online) Demo.drafts_frame))).
  - exact asking_world_names_ok.
  - right. right. left. reflexivity.
  - reflexivity.
Defined.

(** The first upload, on the empty database. *)
Lemma step_1_one_table_per_file_demo :
  Forall2
    (fun file entry =>
       exists df,
         pd_read_csv file = Ok df
         /\ truncated_at_first_dot (file_name file) (fst entry)
         /\ Forall2 (fun c column => every_space_replaced (fst c) (col_name column))
                    (df_columns df) (tbl_columns (snd entry))
         /\ tbl_rows (snd entry) = df_rows df)
    Demo.first_upload (conn (fst (step_1 Demo.first_upload false Demo.fresh_world)))
  /\ List.length (conn (fst (step_1 Demo.first_upload false Demo.fresh_world)))
     = List.length Demo.first_upload
  /\ NoDup (map fst (conn (fst (step_1 Demo.first_upload false Demo.fresh_world)))).
Proof.
  apply (@step_1_one_table_per_file Demo.online Demo.fresh_world Demo.first_upload false).
  - discriminate.
  - constructor.
  - exact first_upload_loadable.
  - exact first_upload_distinct.
Defined.

(** C2 as the claim states it fails: the table names [sales] and [Sales]
    of the two files are distinct, SQLite takes them for one name and
    rejects the second [CREATE TABLE], [step_1] raises there, and the
    database holds one table for the two files. *)
Lemma step_1_names_distinct_by_case_only :
  map table_name_of [Demo.sales_csv; Demo.sales_upper_csv] = ["sales"; "Sales"]
  /\ pd_read_csv Demo.sales_upper_csv = Ok Demo.sales_frame
  /\ snd (step_1 [Demo.sales_csv; Demo.sales_upper_csv] false Demo.fresh_world)
     = Raise (OperationalError
                ("table " ++ String PyStr.dquote "Sales"
                   ++ String PyStr.dquote " already exists"))
  /\ map fst (conn (fst (step_1 [Demo.sales_csv; Demo.sales_upper_csv] false
                           Demo.fresh_world)))
     = ["sales"].
Proof.
  repeat split; reflexivity.
Qed.


(** The same upload, run: the database holds the table of [notes.csv] and
    the table of [big.csv] without its row, and none of the three tables it
    held before. *)
Lemma step_1_leaves_table_without_rows :
  map fst (conn Demo.asking_world) = ["sales"; "notes"; "drafts"]
  /\ snd (step_1 [Demo.notes_csv; Demo.big_csv; Demo.sales_csv] true Demo.asking_world)
     = Raise (OtherException "OverflowError")
  /\ conn (fst (step_1 [Demo.notes_csv; Demo.big_csv; Demo.sales_csv] true
                  Demo.asking_world))
     = [("notes", Demo.notes_table);
        ("big", created_table (rename_columns Demo.big_frame))]
  /\ tbl_rows (created_table (C := Demo.online) (rename_columns Demo.big_frame)) = [].
Proof.
  repeat split; reflexivity.
Qed.

(** An upload in which [sales.v2.csv] follows [sales.csv]. *)
Lemma step_1_same_table_name_raises_demo :
  (exists e,
     snd (step_1 (([] ++ Demo.sales_csv :: [Demo.notes_csv])
                  ++ Demo.sales_v2_csv :: [Demo.drafts_csv])%list false Demo.fresh_world)
     = Raise e)
  /\ Forall2 loads_as ([] ++ Demo.sales_csv :: [Demo.notes_csv])%list
       (conn (fst (step_1 (([] ++ Demo.sales_csv :: [Demo.notes_csv])
                           ++ Demo.sales_v2_csv :: [Demo.drafts_csv])%list
                     false Demo.fresh_world)))
  /\ (forall df,
        pd_read_csv Demo.sales_v2_csv = Ok df ->
        setup_error (table_name_of Demo.sales_v2_csv)
          (tbl_columns (table_of_frame (rename_columns df))) = None ->
        snd (step_1 (([] ++ Demo.sales_csv :: [Demo.notes_csv])
                     ++ Demo.sales_v2_csv :: [Demo.drafts_csv])%list false Demo.fresh_world)
        = Raise (ValueError ("Table '" ++ table_name_of Demo.sales_v2_csv
                             ++ "' already exists.")))
  /\ (exists df,
        pd_read_csv Demo.sales_csv = Ok df
        /\ lookup_table (table_name_of Demo.sales_csv)
             (conn (fst (step_1 (([] ++ Demo.sales_csv :: [Demo.notes_csv])
                                 ++ Demo.sales_v2_csv :: [Demo.drafts_csv])%list
                           false Demo.fresh_world)))
           = Some (table_of_frame (rename_columns df))).
Proof.
  apply (@step_1_same_table_name_raises Demo.online Demo.fresh_world
           [] [Demo.notes_csv] [Demo.drafts_csv] Demo.sales_csv Demo.sales_v2_csv false).
  - constructor.
  - repeat (constructor; [eexists; repeat split; reflexivity |]). constructor.
  - cbn. repeat (constructor; [cbn; intuition discriminate |]). constructor.
  - reflexivity.
Defined.

(** C5 as the claim states it fails: two files of one batch give the table
    name [sales], [step_1] raises the [ValueError] of [to_sql] at the second
    one, and the table still holds the rows of the first file. *)
Lemma step_1_second_file_does_not_replace :
  table_name_of Demo.sales_csv = table_name_of Demo.sales_v2_csv
  /\ snd (step_1 [Demo.sales_csv; Demo.sales_v2_csv] false Demo.fresh_world)
     = Raise (ValueError "Table 'sales' already exists.")
  /\ lookup_table "sales"
       (conn (fst (step_1 [Demo.sales_csv; Demo.sales_v2_csv] false Demo.fresh_world)))
     = Some (table_of_frame Demo.sales_frame)
  /\ pd_read_csv Demo.sales_v2_csv = Ok Demo.notes_frame
  /\ ss_dataframes
       (session (fst (step_1 [Demo.sales_csv; Demo.sales_v2_csv] false Demo.fresh_world)))
     = None.
Proof.
  repeat split; reflexivity.
Qed.


(** A first upload of [my-data.csv] creates the table [my-data]; on the
    next upload [drop_all_tables] splices that name bare into its statement,
    SQLite rejects it, and [step_1] raises before any file is read: the table
    of the first batch stays and no table of the new batch is created. *)
Lemma step_1_keeps_table_with_hyphen :
  map fst (conn Demo.hyphen_world) = ["my-data"]
  /\ unquoted "my-data" = Raise (OperationalError "syntax error")
  /\ snd (step_1 [Demo.sales_csv] false Demo.hyphen_world)
     = Raise (OperationalError "syntax error")
  /\ map fst (conn (fst (step_1 [Demo.sales_csv] false Demo.hyphen_world))) = ["my-data"].
Proof.
  repeat split; reflexivity.
Qed.

(** C4 fails on the code.  The table [my-data] of the upload of
    [my-data.csv] has a row, (7, 'late'), with a text column in it; the
    summary splices the name bare into its first-row query, SQLite rejects
    it, and the summary raises: no first-row line is produced. *)
Lemma summary_raises_with_hyphen :
  lookup_table "my-data" (conn Demo.hyphen_world)
  = Some (table_of_frame (rename_columns Demo.notes_frame))
  /\ tbl_rows (table_of_frame (rename_columns Demo.notes_frame))
     = [[Demo.CInt 7; Demo.CText "late"]]
  /\ snd (get_table_schemas_with_data Demo.hyphen_world)
     = Raise (OperationalError "syntax error").
Proof.
  repeat split; reflexivity.
Qed.

(** C8 fails on the code.  The table [my-drafts] of the upload of
    [my-drafts.csv], a file with its header row only, has no row; the
    summary raises at its first-row query as above: neither the block nor the
    first-row line of the table is produced. *)
Lemma summary_raises_with_empty_hyphen_table :
  lookup_table "my-drafts" (conn Demo.hyphen_drafts_world)
  = Some (table_of_frame (rename_columns Demo.drafts_frame))
  /\ tbl_rows (table_of_frame (rename_columns Demo.drafts_frame)) = []
  /\ snd (get_table_schemas_with_data Demo.hyphen_drafts_world)
     = Raise (OperationalError "syntax error").
Proof.
  repeat split; reflexivity.
Qed.

(** ** The further properties on the concrete collaborators *)

(** The executor on the query of the East, in the session [session-1]. *)
Lemma execute_one_query_one_event_demo :
  let w := Demo.asking_world in
  let sql := "SELECT * FROM sales WHERE Amount > 15" in
  exists b : bool,
    events_since w (fst (execute_sql_statement (C := Demo.online) sql w)) =
      [ReadSqlQuery sql; MpTrack "session-1" "Run SQL Query" (run_query_properties b)]
    /\ conn (fst (execute_sql_statement (C := Demo.online) sql w))
       = fst (pd_read_sql_query (Collaborators := Demo.online) sql (conn w))
    /\ session (fst (execute_sql_statement (C := Demo.online) sql w)) = session w
    /\ (b = true <->
        exists df,
          snd (pd_read_sql_query (Collaborators := Demo.online) sql (conn w)) = Ok df
          /\ df_empty df = false)
    /\ (forall r, snd (execute_sql_statement (C := Demo.online) sql w) = Ok r ->
                  b = match r with Some _ => true | None => false end).
Proof.
  apply (@execute_one_query_one_event Demo.online Demo.asking_world
           "SELECT * FROM sales WHERE Amount > 15" "session-1").
  reflexivity.
Defined.

(** The same query in a session without identifier. *)
Lemma execute_without_session_id_demo :
  let w := Demo.anonymous_world in
  let sql := "SELECT * FROM sales WHERE Amount > 15" in
  snd (execute_sql_statement (C := Demo.online) sql w) = Raise (KeyError "session_id")
  /\ events_since w (fst (execute_sql_statement (C := Demo.online) sql w))
     = [ReadSqlQuery sql]
  /\ conn (fst (execute_sql_statement (C := Demo.online) sql w))
     = fst (pd_read_sql_query (Collaborators := Demo.online) sql (conn w)).
Proof.
  apply (@execute_without_session_id Demo.online Demo.anonymous_world
           "SELECT * FROM sales WHERE Amount > 15").
  reflexivity.
Defined.

(** The summary of a database whose second table is [my-data]. *)
Lemma summary_raises_at_rejected_name_demo :
  snd (get_table_schemas_with_data (C := Demo.online) Demo.mixed_world)
  = Raise (OperationalError "syntax error").
Proof.
  apply (@summary_raises_at_rejected_name Demo.online Demo.mixed_world
           [("sales", Demo.sales_table)] [("notes", Demo.notes_table)]
           "my-data" Demo.notes_table (OperationalError "syntax error")).
  - reflexivity.
  - cbn. repeat (constructor; [cbn; intuition discriminate |]). constructor.
  - cbn. repeat (constructor; [split; reflexivity |]). constructor.
  - right. split; [exists "my-data" |]; reflexivity.
Defined.

(** The three tables of [asking_world] are dropped by three statements. *)
Lemma drop_all_tables_one_statement_per_table_demo :
  drop_all_tables (C := Demo.online) Demo.asking_world =
    ({| conn := [];
        session := session Demo.asking_world;
        trace := [CursorExecute "SELECT name FROM sqlite_master WHERE type='table';";
                  CursorExecute "DROP TABLE IF EXISTS sales";
                  CursorExecute "DROP TABLE IF EXISTS notes";
                  CursorExecute "DROP TABLE IF EXISTS drafts";
                  ConnCommit] |},
     Ok tt).
Proof.
  apply (@drop_all_tables_one_statement_per_table Demo.online Demo.asking_world).
  unfold droppable; cbn. repeat (constructor; [reflexivity |]). constructor.
Defined.

(** The statement for [my-data] is rejected: [sales] is dropped, [my-data]
    and [notes] stay. *)
Lemma drop_all_tables_stops_at_rejected_name_demo :
  drop_all_tables (C := Demo.online) Demo.mixed_world =
    ({| conn := [("my-data", Demo.notes_table); ("notes", Demo.notes_table)];
        session := session Demo.mixed_world;
        trace := [CursorExecute "SELECT name FROM sqlite_master WHERE type='table';";
                  CursorExecute "DROP TABLE IF EXISTS sales";
                  CursorExecute "DROP TABLE IF EXISTS my-data"] |},
     Raise (OperationalError "syntax error")).
Proof.
  apply (@drop_all_tables_stops_at_rejected_name Demo.online Demo.mixed_world
           [("sales", Demo.sales_table)] [("notes", Demo.notes_table)]
           "my-data" Demo.notes_table (OperationalError "syntax error")).
  - reflexivity.
  - cbn. repeat (constructor; [cbn; intuition discriminate |]). constructor.
  - unfold droppable; cbn. repeat (constructor; [reflexivity |]). constructor.
  - reflexivity.
Defined.

(** The button pressed on the fresh session, with no file. *)
Lemma step_1_finished_without_frames_warns_demo :
  let w := Demo.fresh_world in
  snd (step_1 (C := Demo.online) [] true w) = Ok tt
  /\ events_since w (fst (step_1 (C := Demo.online) [] true w)) =
       [StTitle "Step 1/2: Upload CSV Files"; StFileUploader "Upload CSV Files";
        StButton "Finished Uploading Data";
        StWarning "Please upload at least one CSV file to proceed."]
  /\ ss_step (session (fst (step_1 (C := Demo.online) [] true w))) = ss_step (session w)
  /\ conn (fst (step_1 (C := Demo.online) [] true w)) = conn w.
Proof.
  apply (@step_1_finished_without_frames_warns Demo.online Demo.fresh_world).
  left. reflexivity.
Defined.

(** The three files uploaded over the three tables, the button not pressed. *)
Lemma step_1_completed_load_moves_to_step_2_demo :
  let w := Demo.asking_world in
  let w' := fst (step_1 (C := Demo.online) Demo.first_upload false w) in
  snd (step_1 (C := Demo.online) Demo.first_upload false w) = Ok tt
  /\ ss_step (session w') = Some 2
  /\ ss_upload_completed (session w') = Some false
  /\ (exists frames,
        ss_dataframes (session w') = Some frames
        /\ Forall2 (frame_of (C := Demo.online)) Demo.first_upload frames)
  /\ In (MpTrack "session-1" "Upload CSV files" (upload_properties 3))
        (events_since w w').
Proof.
  apply (@step_1_completed_load_moves_to_step_2 Demo.online Demo.first_upload false
           Demo.asking_world "session-1").
  - discriminate.
  - exact asking_world_droppable.
  - exact first_upload_loadable.
  - exact first_upload_distinct.
  - reflexivity.
  - reflexivity.
Defined.

(** The same upload when Mixpanel cannot be reached. *)
Lemma step_1_telemetry_failure_after_load_demo :
  let w := Demo.asking_world in
  let w' := fst (step_1 (C := Demo.offline) Demo.first_upload true w) in
  snd (step_1 (C := Demo.offline) Demo.first_upload true w)
  = Raise (OtherException "MixpanelException")
  /\ Forall2 (loads_as (C := Demo.offline)) Demo.first_upload (conn w')
  /\ ss_step (session w') = ss_step (session w)
  /\ ss_upload_completed (session w') = Some true.
Proof.
  apply (@step_1_telemetry_failure_after_load Demo.offline Demo.first_upload true
           Demo.asking_world "session-1" (OtherException "MixpanelException")).
  - discriminate.
  - unfold droppable; cbn. repeat (constructor; [reflexivity |]). constructor.
  - repeat (constructor; [eexists; repeat split; reflexivity |]). constructor.
  - exact first_upload_distinct.
  - reflexivity.
  - reflexivity.
Defined.

(** The three files loaded twice. *)
Lemma step_1_again_rebuilds_same_tables_demo :
  let w := Demo.asking_world in
  conn (fst (step_1 (C := Demo.online) Demo.first_upload true
               (fst (step_1 (C := Demo.online) Demo.first_upload false w)))) =
  conn (fst (step_1 (C := Demo.online) Demo.first_upload false w))
  /\ Forall2 (loads_as (C := Demo.online)) Demo.first_upload
       (conn (fst (step_1 (C := Demo.online) Demo.first_upload false w))).
Proof.
  apply (@step_1_again_rebuilds_same_tables Demo.online Demo.first_upload false true
           Demo.asking_world).
  - discriminate.
  - exact asking_world_droppable.
  - exact first_upload_loadable.
  - exact first_upload_distinct.
  - repeat (constructor; [reflexivity |]). constructor.
Defined.

(** [notes.csv] loads and [broken.csv] does not parse. *)
Lemma step_1_parse_failure_keeps_session_demo :
  let w := Demo.asking_world in
  let w' := fst (step_1 (C := Demo.online) [Demo.notes_csv; Demo.broken_csv] true w) in
  snd (step_1 (C := Demo.online) [Demo.notes_csv; Demo.broken_csv] true w)
  = Raise (OtherException "EmptyDataError")
  /\ Forall2 (loads_as (C := Demo.online)) [Demo.notes_csv] (conn w')
  /\ ss_dataframes (session w') = ss_dataframes (session w)
  /\ ss_step (session w') = ss_step (session w)
  /\ exists evs,
       events_since w w' = (evs ++ [ReadCsv "broken.csv"])%list
       /\ forallb (fun ev => match ev with
                             | MpTrack _ _ _ | StButton _ => false
                             | _ => true
                             end) evs = true.
Proof.
  apply (@step_1_parse_failure_keeps_session Demo.online [Demo.notes_csv] []
           Demo.broken_csv true Demo.asking_world (OtherException "EmptyDataError")).
  - exact asking_world_droppable.
  - repeat (constructor; [eexists; repeat split; reflexivity |]). constructor.
  - cbn. repeat (constructor; [cbn; intuition discriminate |]). constructor.
  - reflexivity.
Defined.

(** The question about the East on the three tables. *)
Lemma step_2_runs_the_statement_it_shows_demo :
  let w := Demo.asking_world in
  let sql := "SELECT * FROM sales WHERE Amount > 15" in
  exists (evs : list (event Demo.cell)) (b : bool) (shown : list (event Demo.cell)),
    forallb (is_cursor (C := Demo.online)) evs = true
    /\ step_2 (C := Demo.online) "Which sales are above 15?" true w =
       ({| conn := fst (pd_read_sql_query (Collaborators := Demo.online) sql (conn w));
           session := session w;
           trace :=
             (trace w ++
              [StTitle "Step 2/2: Ask a Question"; StTextArea "Question:";
               StButton "Ask Question"] ++ evs ++
              [GenerateSql "Which sales are above 15?" Demo.asking_summary;
               StWrite "Generated SQL Query:";
               StCode sql "sql"; ReadSqlQuery sql;
               MpTrack "session-1" "Run SQL Query" (run_query_properties b)]
              ++ shown)%list |},
        Ok tt)
    /\ match snd (pd_read_sql_query (Collaborators := Demo.online) sql (conn w)) with
       | Ok df =>
           if df_empty df
           then b = false /\ shown = [StInfo no_result_message]
           else b = true /\ shown = [StWrite "Results:"; StDataframe df]
       | Raise _ => b = false /\ shown = [StInfo no_result_message]
       end.
Proof.
  apply (@step_2_runs_the_statement_it_shows Demo.online Demo.asking_world
           "Which sales are above 15?" Demo.asking_summary
           "SELECT * FROM sales WHERE Amount > 15" "session-1").
  - reflexivity.
  - reflexivity.
  - vm_compute. reflexivity.
  - reflexivity.
  - reflexivity.
  - reflexivity.
  - intros b. reflexivity.
Defined.

(** Any question on the database that holds [my-data]. *)
Lemma step_2_stops_when_summary_raises_demo :
  let w := Demo.mixed_world in
  snd (step_2 (C := Demo.online) "Which sales are above 15?" true w)
  = Raise (OperationalError "syntax error")
  /\ forallb (fun ev => negb (is_generate ev) && negb (is_executor ev))
       (events_since w (fst (step_2 (C := Demo.online) "Which sales are above 15?" true w)))
     = true
  /\ conn (fst (step_2 (C := Demo.online) "Which sales are above 15?" true w)) = conn w.
Proof.
  apply (@step_2_stops_when_summary_raises Demo.online Demo.mixed_world
           "Which sales are above 15?" (OperationalError "syntax error")).
  - reflexivity.
  - reflexivity.
  - vm_compute. reflexivity.
Defined.

(** The question when the generator cannot be reached. *)
Lemma step_2_stops_when_generator_raises_demo :
  let w := Demo.asking_world in
  snd (step_2 (C := Demo.no_generator) "Which sales are above 15?" true w)
  = Raise (OtherException "APIConnectionError")
  /\ (exists evs,
        forallb (is_cursor (C := Demo.no_generator)) evs = true
        /\ events_since w
             (fst (step_2 (C := Demo.no_generator) "Which sales are above 15?" true w)) =
           ([StTitle "Step 2/2: Ask a Question"; StTextArea "Question:";
             StButton "Ask Question"] ++ evs ++
            [GenerateSql "Which sales are above 15?" Demo.asking_summary])%list)
  /\ conn (fst (step_2 (C := Demo.no_generator) "Which sales are above 15?" true w))
     = conn w.
Proof.
  apply (@step_2_stops_when_generator_raises Demo.no_generator Demo.asking_world
           "Which sales are above 15?" Demo.asking_summary
           (OtherException "APIConnectionError")).
  - reflexivity.
  - reflexivity.
  - vm_compute. reflexivity.
  - reflexivity.
Defined.

(** The three files uploaded in the session that holds a key, then a
    question. *)
Lemma step_2_after_step_1_asks_about_the_batch_demo :
  let w1 := fst (step_1 (C := Demo.online) Demo.first_upload false Demo.asking_world) in
  exists created : store Demo.cell,
    Forall2 (loads_as (C := Demo.online)) Demo.first_upload created
    /\ snd (get_table_schemas_with_data (C := Demo.online) w1)
       = Ok (summary_of (C := Demo.online) created)
    /\ exists evs rest,
         forallb (is_cursor (C := Demo.online)) evs = true
         /\ events_since w1
              (fst (step_2 (C := Demo.online) "Which sales are above 15?" true w1)) =
            ([StTitle "Step 2/2: Ask a Question"; StTextArea "Question:";
              StButton "Ask Question"] ++ evs ++
             GenerateSql "Which sales are above 15?" (summary_of (C := Demo.online) created)
             :: rest)%list.
Proof.
  apply (@step_2_after_step_1_asks_about_the_batch Demo.online Demo.first_upload false
           Demo.asking_world "Which sales are above 15?").
  - discriminate.
  - exact asking_world_droppable.
  - exact first_upload_loadable.
  - exact first_upload_distinct.
  - cbn. repeat (constructor; [split; reflexivity |]). constructor.
  - reflexivity.
Defined.
